(** * SmartLibroAI: the book-summary pipeline, embedded and verified

    Sources embedded here:
    - the Cloud Function source ([src/unnamed/part_000]): the hourly and
      monthly counters, [callOpenAIWithRetry], [generateBookSummary],
      [ensureCharacterLimit], the two fallback generators,
      [cleanMixedLanguageText], [generateCloudFunctionSourceAttribution];
    - [src/app/core/services/book.service.ts]: [calculateDetailedConfidence]
      and [validateAndCleanSummaryLanguage];
    - [src/app/core/services/openai.service.ts]: [ensureCharacterLimit]
      (the same text as the Cloud Function's), [calculateMockConfidence]
      and [generateMockReasoningFactors];
    - [src/app/core/services/book.service.ts]: also
      [calculateConfidenceMetrics];
    - [src/app/core/services/cloud-function.service.ts]: the client's
      [generateBookSummary] with its retries and its throttle;
    - [src/app/core/services/recent-activity.service.ts]: the list of recent
      summaries;
    - [src/app/components/book-summary/book-summary.component.ts]:
      [validateISBN10], [validateISBN13], [isbnValidator] and [formatISBN].

    Modelling conventions.
    - A JavaScript string is the list of its UTF-16 code units ([jsstring]);
      [length], [substring], [lastIndexOf] and [includes] work on code units,
      as in JavaScript.
    - A JavaScript number is an integer ([Z]) where the code only counts or
      indexes. The scorer of [book.service.ts] is embedded twice: [Scorer64]
      computes as JavaScript does, with IEEE-754 doubles ([spec_float] at
      precision 53), and [Scorer] computes with exact rationals ([Q]), which
      leaves the rounding of each operation out.
    - Values have the TypeScript types the source declares for them.
    - An object literal used as a lookup table answers a key with a property
      of its own, with a member inherited from [Object.prototype], or with
      nothing ([getProperty]).
    - Firestore is a pair of finite maps from document id to counter document;
      requests are served one after the other.
    - [generateBookSummary] is the callback that the CORS middleware runs;
      the middleware, the logger and the text of the prompt are left out.
      A callback that throws sends no response ([NoResponse]).
    - What the JavaScript runtime and the upstream service decide
      ([toLowerCase], [JSON.parse], regular expressions built from the
      phrase patterns of the constants tables, the outcome of each
      completion call) is a parameter. *)

From Stdlib Require Import ZArith QArith Qminmax Qround Lqa Lia List String Ascii.
From Stdlib Require Import SpecFloat.
From stdpp Require Import gmap strings list pretty.
Import ListNotations.

Open Scope Z_scope.

(** ** JavaScript strings *)

Module JS.

Definition jsstring : Type := list N.

(** Code units of a source literal, written in UTF-8. *)
Definition emitCodePoint (cp : N) : list N :=
  if (cp <? 65536)%N then [cp]
  else [(55296 + (cp - 65536) / 1024)%N; (56320 + (cp - 65536) mod 1024)%N].

Fixpoint u16_go (s : string) (acc : N) (need : nat) : jsstring :=
  match s with
  | EmptyString => []
  | String c s' =>
      let b := N_of_ascii c in
      match need with
      | O =>
          if (b <? 128)%N then b :: u16_go s' 0%N O
          else if (b <? 224)%N then u16_go s' (N.land b 31) 1%nat
          else if (b <? 240)%N then u16_go s' (N.land b 15) 2%nat
          else u16_go s' (N.land b 7) 3%nat
      | S n =>
          let acc' := (acc * 64 + N.land b 63)%N in
          match n with
          | O => emitCodePoint acc' ++ u16_go s' 0%N O
          | S _ => u16_go s' acc' n
          end
      end
  end.

Definition u16 (s : string) : jsstring := u16_go s 0%N O.

Definition dquote : jsstring := [34%N].
Definition space : N := 32%N.

(** [s.length] *)
Definition len (s : jsstring) : Z := Z.of_nat (length s).

(** [s.substring(0, n)]: a negative [n] counts as 0, an [n] past the end as
    the length. *)
Definition substring0 (n : Z) (s : jsstring) : jsstring := firstn (Z.to_nat n) s.

(** [s.lastIndexOf(c)] for a one-unit needle: the last index, or -1. *)
Fixpoint lastIndexOf_go (c : N) (s : jsstring) (i : Z) (found : Z) : Z :=
  match s with
  | [] => found
  | x :: s' => lastIndexOf_go c s' (i + 1) (if (x =? c)%N then i else found)
  end.

Definition lastIndexOf (c : N) (s : jsstring) : Z := lastIndexOf_go c s 0 (-1).

Fixpoint startsWith (p s : jsstring) : bool :=
  match p, s with
  | [], _ => true
  | _ :: _, [] => false
  | a :: p', b :: s' => (a =? b)%N && startsWith p' s'
  end.

(** [s.includes(p)] *)
Fixpoint includes (p s : jsstring) : bool :=
  startsWith p s ||
  match s with
  | [] => false
  | _ :: s' => includes p s'
  end.

Fixpoint jsstring_eqb (a b : jsstring) : bool :=
  match a, b with
  | [], [] => true
  | x :: a', y :: b' => (x =? y)%N && jsstring_eqb a' b'
  | _, _ => false
  end.

(** [xs.join(sep)] *)
Fixpoint join (sep : jsstring) (xs : list jsstring) : jsstring :=
  match xs with
  | [] => []
  | [x] => x
  | x :: rest => x ++ sep ++ join sep rest
  end.

(** [String(n)] for an integer [n]. *)
Definition numToString (n : Z) : jsstring :=
  map N_of_ascii (list_ascii_of_string (pretty n)).

(** A JavaScript string is truthy when it is not empty. *)
Definition truthy (s : jsstring) : bool :=
  match s with [] => false | _ :: _ => true end.

(** [a || b] on strings. *)
Definition orElse (a b : jsstring) : jsstring := if truthy a then a else b.

(** *** Properties of object literals *)

(** The names every object inherits from [Object.prototype]. *)
Definition objectPrototypeMembers : list string :=
  ["constructor"; "__defineGetter__"; "__defineSetter__"; "hasOwnProperty";
   "__lookupGetter__"; "__lookupSetter__"; "isPrototypeOf";
   "propertyIsEnumerable"; "toString"; "valueOf"; "__proto__";
   "toLocaleString"].

(** The inherited member that [key] names, if any. *)
Definition inheritedMember (key : jsstring) : option string :=
  List.find (fun name => jsstring_eqb key (u16 name)) objectPrototypeMembers.

(** What [object[key]] finds on an object literal: a property the literal
    writes, a member of [Object.prototype], or [undefined]. *)
Inductive Property (A : Type) :=
  | Own (value : A)
  | Inherited (member : string)
  | Absent.
Arguments Own {A} value.
Arguments Inherited {A} member.
Arguments Absent {A}.

(** [String(Object.prototype[member])]: eleven members are native functions,
    [constructor] being [Object]; [__proto__] answers [Object.prototype]
    itself. *)
Definition memberText (member : string) : jsstring :=
  if String.eqb member "__proto__" then u16 "[object Object]"
  else
    u16 "function " ++
    u16 (if String.eqb member "constructor" then "Object" else member) ++
    u16 "() { [native code] }".

(** *** Regular expressions of the shape [/\bword\b/gi] *)

Definition isUpper (c : N) : bool := (65 <=? c)%N && (c <=? 90)%N.
Definition isLower (c : N) : bool := (97 <=? c)%N && (c <=? 122)%N.
Definition isDigit (c : N) : bool := (48 <=? c)%N && (c <=? 57)%N.

(** [\w] without the unicode flag. *)
Definition isWordChar (c : N) : bool :=
  isUpper c || isLower c || isDigit c || (c =? 95)%N.

(** Canonicalize of the [i] flag, on the code units where it can meet an
    ASCII letter: lower-case ASCII letters go to upper case, any other unit is
    its own class as far as an ASCII pattern is concerned. *)
Definition canonicalize (c : N) : N := if isLower c then (c - 32)%N else c.

Fixpoint matchesAt (w s : jsstring) : option jsstring :=
  match w, s with
  | [], rest => Some rest
  | _ :: _, [] => None
  | a :: w', b :: s' =>
      if (canonicalize a =? canonicalize b)%N then matchesAt w' s' else None
  end.

Definition boundaryAfter (rest : jsstring) : bool :=
  match rest with
  | [] => true
  | c :: _ => negb (isWordChar c)
  end.

(** [text.replace(/\bw\b/gi, r)] for a word [w] of word characters and a
    replacement [r] without [$]. [prevWord] tells whether the unit before the
    current position is a word character; the scan restarts after each match
    and never looks at what it has written. *)
Fixpoint replaceWord_go (fuel : nat) (w r s : jsstring) (prevWord : bool)
  : jsstring :=
  match fuel with
  | O => s
  | S fuel' =>
      match s with
      | [] => []
      | c :: s' =>
          match (if prevWord then None else matchesAt w s) with
          | Some rest =>
              if boundaryAfter rest && truthy w
              then r ++ replaceWord_go fuel' w r rest true
              else c :: replaceWord_go fuel' w r s' (isWordChar c)
          | None => c :: replaceWord_go fuel' w r s' (isWordChar c)
          end
      end
  end.

Definition replaceWord (w r s : jsstring) : jsstring :=
  replaceWord_go (S (length s)) w r s false.

(** [/\bw\b/gi.test(s)] on a fresh expression, for a word [w] of word
    characters: there is a match at some position. *)
Fixpoint testWord_go (w s : jsstring) (prevWord : bool) : bool :=
  match s with
  | [] => false
  | c :: s' =>
      (negb prevWord &&
       match matchesAt w s with
       | Some rest => boundaryAfter rest && truthy w
       | None => false
       end) ||
      testWord_go w s' (isWordChar c)
  end.

Definition testWord (w s : jsstring) : bool := testWord_go w s false.

(** The words and replacements for which the two functions above are the
    regular expression: a word is not empty and made of word characters, so
    that it holds nothing the expression syntax reads as an operator; a
    replacement holds no [$]. *)
Definition plainWord (w : jsstring) : bool := truthy w && forallb isWordChar w.

Definition plainReplacement (r : jsstring) : bool :=
  forallb (fun c => negb (c =? 36)%N) r.

End JS.

Export JS.

(** ** Data model ([ai-summary.interface.ts], [book.interface.ts]) *)

Inductive SourceType :=
  | book_description | publisher_info | author_bio | category_data
  | review_excerpt | metadata | ai_knowledge | src_fallback_template.

Inductive ProcessingMethod := openai_api | fallback_template.

Record SourceAttribution := {
  sa_type : SourceType;
  sa_content : jsstring;
  sa_reliability : Z;
  sa_relevance : Z;
  sa_length : Z;
  sa_source : jsstring;
  sa_weight : Q
}.

Record DataQualityFactors := {
  descriptionLength : Z;
  metadataCompleteness : Z;
  publisherReliability : Z;
  authorCredibility : Z
}.

Record SourceReliabilityFactors := {
  primarySourcesCount : Z;
  averageSourceReliability : Z;
  sourceConsistency : Z;
  verifiableInformation : Z
}.

Record ContentCoverageFactors := {
  topicCoverage : Z;
  thematicDepth : Z;
  conceptualClarity : Z;
  structuralCompleteness : Z
}.

Record AiProcessingFactors := {
  languageConsistency : Z;
  translationQuality : Z;
  summarizationAccuracy : Z;
  responseCoherence : Z
}.

Record CrossValidationFactors := {
  multiSourceVerification : Z;
  factualConsistency : Z;
  contextualRelevance : Z;
  logicalCoherence : Z
}.

Record Scored (F : Type) := { score : Z; factors : F }.
Arguments score {F} _.
Arguments factors {F} _.

Record DetailedConfidenceFactors := {
  dataQuality : Scored DataQualityFactors;
  sourceReliability : Scored SourceReliabilityFactors;
  contentCoverage : Scored ContentCoverageFactors;
  aiProcessing : Scored AiProcessingFactors;
  crossValidation : Scored CrossValidationFactors
}.

(** A JavaScript number as far as the Cloud Function computes with one: a
    value, an infinity, or [NaN] (the sign of a zero is not kept). *)
Inductive JsNumber :=
  | Num (value : Q)
  | Infinity (negative : bool)
  | NaN.

Record AIBookSummary := {
  shortSummary : jsstring;
  detailedSummary : jsstring;
  confidenceScore : JsNumber;
  reasoningFactors : list jsstring;
  sourcesUsed : list jsstring;
  sourceAttribution : list SourceAttribution;
  detailedConfidenceFactors : DetailedConfidenceFactors;
  summaryLanguage : jsstring;
  generatedAt : Z;
  processingMethod : ProcessingMethod;
  translationApplied : bool
}.

Record SummaryRequest := {
  title : jsstring;
  authors : list jsstring;
  isbn : jsstring;
  description : jsstring;
  categories : list jsstring;
  publisher : jsstring;
  publishedDate : jsstring;
  pageCount : Z;
  language : jsstring;
  targetLanguage : jsstring
}.

Record BookMetadata := {
  bm_isbn : jsstring;
  bm_title : jsstring;
  bm_authors : list jsstring;
  bm_publisher : jsstring;
  bm_publishedDate : jsstring;
  bm_description : jsstring;
  bm_pageCount : Z;
  bm_categories : list jsstring;
  bm_averageRating : Q;
  bm_ratingsCount : Z;
  bm_language : jsstring
}.

(** ** What the JavaScript runtime decides *)

(** The object a well-formed completion parses to (the call asks for the
    response format [json_object]); its text and list fields have the types
    the prompt asks for. A field the completion left out, or set to [null],
    [0] or the empty string, which [||] and [!] treat alike, is [None].
    [pr_confidenceScore] is what [Math.max] makes of a truthy
    [confidenceScore], whatever its type: the number itself, or [NaN] for a
    text that is not a numeral. *)
Record ParsedResponse := {
  pr_shortSummary : option jsstring;
  pr_detailedSummary : option jsstring;
  pr_confidenceScore : option JsNumber;
  pr_reasoningFactors : option (list jsstring);
  pr_sourcesUsed : option (list jsstring)
}.

Inductive ParseResult :=
  | SyntaxError (message : jsstring)
  | Parsed (r : ParsedResponse).

Class Runtime := {
  (** [String.prototype.toLowerCase] *)
  toLowerCase : jsstring -> jsstring;
  (** [JSON.parse] *)
  JSON_parse : jsstring -> ParseResult;
  (** [String(n)] for an integer beyond 2^53, where the digits printed are
      those of the nearest double and, from 10^21 on, in exponent form *)
  largeNumberToString : Z -> jsstring
}.

(** Regular expressions compiled from a source text with the flags [gi]. *)
Class RegExpEngine := {
  (** [new RegExp(source, 'gi').test(text)] on a fresh expression *)
  regexTest : jsstring -> jsstring -> bool;
  (** [text.replace(new RegExp(source, 'gi'), replacement)] *)
  regexReplace : jsstring -> jsstring -> jsstring -> jsstring
}.

(** ** CharacterLimitTruncator *)

(** [ensureCharacterLimit], identical in the Cloud Function and in
    [openai.service.ts]. The test [lastSpace > limit * 0.8] compares an integer
    with four fifths of an integer; it is written [4 * limit < 5 * lastSpace]. *)
Definition ensureCharacterLimit (text : jsstring) (limit : Z) : jsstring :=
  if negb (truthy text) then []
  else if len text <=? limit then text
  else
    let trimmed := substring0 (limit - 3) text in
    let lastSpace := lastIndexOf space trimmed in
    if 4 * limit <? 5 * lastSpace
    then substring0 lastSpace trimmed ++ u16 "..."
    else trimmed ++ u16 "...".

(** ** LanguageGuard of the Cloud Function: [cleanMixedLanguageText] *)

Definition wordRules_es : list (string * string) :=
  [("anthropology", "antropología"); ("science", "ciencia");
   ("history", "historia"); ("technology", "tecnología");
   ("psychology", "psicología"); ("philosophy", "filosofía");
   ("economics", "economía"); ("politics", "política");
   ("sociology", "sociología"); ("literature", "literatura");
   ("education", "educación"); ("business", "negocios");
   ("health", "salud"); ("biography", "biografía"); ("fiction", "ficción");
   ("art", "arte"); ("religion", "religión")].

Definition wordRules_de : list (string * string) :=
  [("science", "Wissenschaft"); ("history", "Geschichte");
   ("technology", "Technologie"); ("psychology", "Psychologie");
   ("philosophy", "Philosophie"); ("economics", "Wirtschaft");
   ("politics", "Politik"); ("sociology", "Soziologie");
   ("literature", "Literatur"); ("education", "Bildung");
   ("business", "Geschäft"); ("health", "Gesundheit");
   ("biography", "Biographie"); ("fiction", "Fiktion");
   ("anthropology", "Anthropologie"); ("work", "Werk");
   ("offers", "bietet"); ("explores", "erforscht");
   ("presents", "präsentiert"); ("analysis", "Analyse");
   ("perspectives", "Perspektiven"); ("understanding", "Verständnis");
   ("art", "Kunst"); ("religion", "Religion")].

Definition wordRules_pt : list (string * string) :=
  [("science", "ciência"); ("history", "história");
   ("technology", "tecnologia"); ("psychology", "psicologia");
   ("philosophy", "filosofia"); ("economics", "economia");
   ("politics", "política"); ("sociology", "sociologia");
   ("literature", "literatura"); ("education", "educação");
   ("business", "negócios"); ("health", "saúde");
   ("biography", "biografia"); ("fiction", "ficção");
   ("anthropology", "antropologia"); ("art", "arte");
   ("religion", "religião"); ("work", "obra"); ("offers", "oferece");
   ("explores", "explora"); ("presents", "apresenta");
   ("analysis", "análise"); ("perspectives", "perspectivas");
   ("understanding", "compreensão")].

Definition wordRules_it : list (string * string) :=
  [("science", "scienza"); ("history", "storia");
   ("technology", "tecnologia"); ("psychology", "psicologia");
   ("philosophy", "filosofia"); ("economics", "economia");
   ("politics", "politica"); ("sociology", "sociologia");
   ("literature", "letteratura"); ("education", "educazione");
   ("business", "affari"); ("health", "salute"); ("biography", "biografia");
   ("fiction", "narrativa"); ("anthropology", "antropologia");
   ("art", "arte"); ("religion", "religione"); ("work", "opera");
   ("offers", "offre"); ("explores", "esplora"); ("presents", "presenta");
   ("analysis", "analisi"); ("perspectives", "prospettive");
   ("understanding", "comprensione")].

(** One statement [text = text.replace(/\bw\b/gi, r)]. *)
Definition applyWordRule (text : jsstring) (rule : string * string) : jsstring :=
  replaceWord (u16 (fst rule)) (u16 (snd rule)) text.

(** The statements of one branch, in the order they are written. *)
Definition applyWordRules (rules : list (string * string)) (text : jsstring)
  : jsstring :=
  fold_left applyWordRule rules text.

Definition cleanMixedLanguageText (text targetLanguage : jsstring) : jsstring :=
  if jsstring_eqb targetLanguage (u16 "es") then applyWordRules wordRules_es text
  else if jsstring_eqb targetLanguage (u16 "de") then applyWordRules wordRules_de text
  else if jsstring_eqb targetLanguage (u16 "pt") then applyWordRules wordRules_pt text
  else if jsstring_eqb targetLanguage (u16 "it") then applyWordRules wordRules_it text
  else text.

(** ** LanguageGuard of the client: [validateAndCleanSummaryLanguage] *)

Fixpoint lookupKey {A : Type} (k : jsstring) (t : list (jsstring * A)) : option A :=
  match t with
  | [] => None
  | (k', v) :: t' => if jsstring_eqb k k' then Some v else lookupKey k t'
  end.

Definition setSummaries (a : AIBookSummary) (short detailed : jsstring)
  : AIBookSummary :=
  {| shortSummary := short;
     detailedSummary := detailed;
     confidenceScore := confidenceScore a;
     reasoningFactors := reasoningFactors a;
     sourcesUsed := sourcesUsed a;
     sourceAttribution := sourceAttribution a;
     detailedConfidenceFactors := detailedConfidenceFactors a;
     summaryLanguage := summaryLanguage a;
     generatedAt := generatedAt a;
     processingMethod := processingMethod a;
     translationApplied := translationApplied a |}.

(** [object[key]] on an object given by its entries. *)
Definition getKey {A : Type} (key : jsstring) (object : list (jsstring * A))
  : Property A :=
  match lookupKey key object with
  | Some value => Own value
  | None =>
      match inheritedMember key with
      | Some member => Inherited member
      | None => Absent
      end
  end.

Section ClientLanguageGuard.

Context {rt : Runtime} {re : RegExpEngine}.

(** The tables of [core/utils/constants], which is not among the sources at
    hand. Each object is given by its [Object.entries], in order. *)
Variable FORBIDDEN_ENGLISH_WORDS : list jsstring.
Variable LANGUAGE_REPLACEMENTS : list (jsstring * list (jsstring * jsstring)).
Variable LANGUAGE_PHRASE_PATTERNS : list (jsstring * list (jsstring * jsstring)).
Variable LANGUAGE_WORD_PATTERNS : list (jsstring * list (jsstring * jsstring)).

(** [TABLE[targetLanguage] || {}], for a [targetLanguage] that is a key of the
    table or no property of it at all. (Under a name that every object
    inherits the three tables would be that member; the guard is not
    modelled for such a name.) *)
Definition tableFor (T : list (jsstring * list (jsstring * jsstring)))
  (targetLanguage : jsstring) : list (jsstring * jsstring) :=
  match lookupKey targetLanguage T with
  | Some t => t
  | None => []
  end.

(** [`\\b${word}\\b`] *)
Definition wholeWord (word : jsstring) : jsstring :=
  u16 "\b" ++ word ++ u16 "\b".

(** [new RegExp(`\\b${word}\\b`, 'gi').test(text)]: for a word of word
    characters the expression is the one of [testWord]; any other source is
    left to the engine. *)
Definition testWholeWord (word text : jsstring) : bool :=
  if plainWord word then testWord word text
  else regexTest (wholeWord word) text.

(** [text.replace(new RegExp(`\\b${word}\\b`, 'gi'), replacement)],
    likewise. *)
Definition replaceWholeWord (word replacement text : jsstring) : jsstring :=
  if plainWord word && plainReplacement replacement
  then replaceWord word replacement text
  else regexReplace (wholeWord word) replacement text.

(** The body of the first [forEach]: the pattern is compiled as it stands. *)
Definition phraseStep (text : jsstring) (entry : jsstring * jsstring) : jsstring :=
  let (pattern, replacement) := entry in
  if regexTest pattern text then regexReplace pattern replacement text else text.

(** The body of the second [forEach]. *)
Definition wordStep (text : jsstring) (entry : jsstring * jsstring) : jsstring :=
  let (word, replacement) := entry in
  if testWholeWord word text
  then replaceWholeWord word replacement text
  else text.

(** The body of the third [forEach]. A word whose lower case names a member
    that every object inherits finds that member, which is truthy: as a
    replacement, [__proto__] (an object) is printed, and [constructor] (the
    function [Object]) answers each match with the match itself. No text in
    lower case names another member. *)
Definition forbiddenStep (targetReplacements : list (jsstring * jsstring))
  (text word : jsstring) : jsstring :=
  match getKey (toLowerCase word) targetReplacements with
  | Own replacement =>
      if testWholeWord word text && truthy replacement
      then replaceWholeWord word replacement text
      else text
  | Inherited member =>
      if testWholeWord word text && String.eqb member "__proto__"
      then replaceWholeWord word (memberText member) text
      else text
  | Absent => text
  end.

(** The three loops that the function runs on [shortSummary], and then again
    on [detailedSummary]. *)
Definition cleanSummaryText (targetLanguage text : jsstring) : jsstring :=
  let targetReplacements := tableFor LANGUAGE_REPLACEMENTS targetLanguage in
  let phrasePatterns := tableFor LANGUAGE_PHRASE_PATTERNS targetLanguage in
  let wordPatterns := tableFor LANGUAGE_WORD_PATTERNS targetLanguage in
  let text1 := fold_left phraseStep phrasePatterns text in
  let text2 := fold_left wordStep wordPatterns text1 in
  fold_left (forbiddenStep targetReplacements) FORBIDDEN_ENGLISH_WORDS text2.

(** The [console.warn] on a change is not modelled. *)
Definition validateAndCleanSummaryLanguage (aiSummary : AIBookSummary)
  (targetLanguage : jsstring) : AIBookSummary :=
  if jsstring_eqb targetLanguage (u16 "en") then aiSummary
  else
    let originalShort := shortSummary aiSummary in
    let short := cleanSummaryText targetLanguage originalShort in
    let originalDetailed := detailedSummary aiSummary in
    let detailed := cleanSummaryText targetLanguage originalDetailed in
    setSummaries aiSummary
      (if negb (jsstring_eqb short originalShort)
       then short else shortSummary aiSummary)
      (if negb (jsstring_eqb detailed originalDetailed)
       then detailed else detailedSummary aiSummary).

End ClientLanguageGuard.

(** ** FallbackGenerator *)

Definition translations_es : list (string * string) :=
  [("Science", "Ciencia"); ("History", "Historia");
   ("Technology", "Tecnología"); ("Philosophy", "Filosofía");
   ("Psychology", "Psicología"); ("Education", "Educación");
   ("Business", "Negocios"); ("Health", "Salud"); ("Fiction", "Ficción");
   ("Biography", "Biografía"); ("Anthropology", "Antropología");
   ("Politics", "Política"); ("Economics", "Economía");
   ("Sociology", "Sociología"); ("Literature", "Literatura");
   ("Art", "Arte"); ("Religion", "Religión"); ("Strategy", "Estrategia");
   ("Military", "Militar"); ("War", "Guerra"); ("Management", "Gestión");
   ("Leadership", "Liderazgo")].

Definition translations_fr : list (string * string) :=
  [("Science", "Science"); ("History", "Histoire");
   ("Technology", "Technologie"); ("Philosophy", "Philosophie");
   ("Psychology", "Psychologie"); ("Education", "Éducation");
   ("Business", "Affaires"); ("Health", "Santé"); ("Fiction", "Fiction");
   ("Biography", "Biographie"); ("Anthropology", "Anthropologie");
   ("Politics", "Politique"); ("Economics", "Économie");
   ("Sociology", "Sociologie"); ("Literature", "Littérature");
   ("Art", "Art"); ("Religion", "Religion"); ("Strategy", "Stratégie");
   ("Military", "Militaire"); ("War", "Guerre"); ("Management", "Gestion");
   ("Leadership", "Leadership")].

Definition translations_de : list (string * string) :=
  [("Science", "Wissenschaft"); ("History", "Geschichte");
   ("Technology", "Technologie"); ("Philosophy", "Philosophie");
   ("Psychology", "Psychologie"); ("Education", "Bildung");
   ("Business", "Geschäft"); ("Health", "Gesundheit");
   ("Fiction", "Fiktion"); ("Biography", "Biographie");
   ("Literature", "Literatur"); ("Anthropology", "Anthropologie");
   ("Politics", "Politik"); ("Economics", "Wirtschaft");
   ("Sociology", "Soziologie"); ("Art", "Kunst"); ("Religion", "Religion");
   ("Strategy", "Strategie"); ("Military", "Militär"); ("War", "Krieg");
   ("Management", "Verwaltung"); ("Leadership", "Führung")].

Definition translations_pt : list (string * string) :=
  [("Science", "Ciência"); ("History", "História");
   ("Technology", "Tecnologia"); ("Philosophy", "Filosofia");
   ("Psychology", "Psicologia"); ("Education", "Educação");
   ("Business", "Negócios"); ("Health", "Saúde"); ("Fiction", "Ficção");
   ("Biography", "Biografia"); ("Anthropology", "Antropologia");
   ("Politics", "Política"); ("Economics", "Economia");
   ("Sociology", "Sociologia"); ("Literature", "Literatura");
   ("Art", "Arte"); ("Religion", "Religião"); ("Strategy", "Estratégia");
   ("Military", "Militar"); ("War", "Guerra"); ("Management", "Gestão");
   ("Leadership", "Liderança")].

Definition translations_it : list (string * string) :=
  [("Science", "Scienza"); ("History", "Storia");
   ("Technology", "Tecnologia"); ("Philosophy", "Filosofia");
   ("Psychology", "Psicologia"); ("Education", "Educazione");
   ("Business", "Affari"); ("Health", "Salute"); ("Fiction", "Narrativa");
   ("Biography", "Biografia"); ("Anthropology", "Antropologia");
   ("Politics", "Politica"); ("Economics", "Economia");
   ("Sociology", "Sociologia"); ("Literature", "Letteratura");
   ("Art", "Arte"); ("Religion", "Religione"); ("Strategy", "Strategia");
   ("Military", "Militare"); ("War", "Guerra"); ("Management", "Gestione");
   ("Leadership", "Leadership")].

(** The [translations] literal, the same in both generators. *)
Definition translations : list (string * list (string * string)) :=
  [("es", translations_es); ("fr", translations_fr); ("de", translations_de);
   ("pt", translations_pt); ("it", translations_it)].

(** Lookup among the properties that an object literal writes. *)
Fixpoint lookupLit {A : Type} (k : jsstring) (t : list (string * A)) : option A :=
  match t with
  | [] => None
  | (k', v) :: t' => if jsstring_eqb k (u16 k') then Some v else lookupLit k t'
  end.

(** [object[key]] on an object literal. *)
Definition getProperty {A : Type} (key : jsstring) (object : list (string * A))
  : Property A :=
  match lookupLit key object with
  | Some value => Own value
  | None =>
      match inheritedMember key with
      | Some member => Inherited member
      | None => Absent
      end
  end.

(** [`${n}`] for the page count. *)
Definition pageCountText {rt : Runtime} (n : Z) : jsstring :=
  if Z.abs n <=? 2 ^ 53 then numToString n else largeNumberToString n.

Section FallbackGenerator.

Context {rt : Runtime}.

(** [translations[targetLang]?.[category] || category.toLowerCase()], as the
    templates print it. A category that names a member of [Object.prototype]
    finds that member in the table of a language, and the templates print it
    with [String]. The answer is [None] for a [targetLang] that names such a
    member itself: what is then read is a property of that member, and both
    generators throw for such a language whatever it is (see
    [pickLanguage]). *)
Definition translateCategory (category targetLang : jsstring)
  : option jsstring :=
  match getProperty targetLang translations with
  | Own table =>
      match getProperty category table with
      | Own word => Some (orElse (u16 word) (toLowerCase category))
      | Inherited member => Some (memberText member)
      | Absent => Some (toLowerCase category)
      end
  | Inherited _ => None
  | Absent => Some (toLowerCase category)
  end.

(** [request.categories.map(cat => translateCategory(cat, targetLang))] *)
Fixpoint translateCategories (categories : list jsstring)
  (targetLang : jsstring) : option (list jsstring) :=
  match categories with
  | [] => Some []
  | cat :: rest =>
      match translateCategory cat targetLang,
            translateCategories rest targetLang with
      | Some word, Some words => Some (word :: words)
      | _, _ => None
      end
  end.

Definition short_template_es (translatedCategories : list jsstring)
  (request : SummaryRequest) : jsstring :=
  dquote ++ title request ++ dquote ++ u16 " por " ++
  join (u16 ", ") (authors request) ++ u16 " es una obra de " ++
  orElse (hd [] translatedCategories) (u16 "importancia") ++
  u16 " publicada en " ++ publishedDate request ++ u16 ". " ++
  (if 0 <? pageCount request
   then u16 "Esta obra de " ++ pageCountText (pageCount request) ++ u16 " páginas"
   else u16 "Este libro") ++
  u16 " ofrece perspectivas sobre " ++
  toLowerCase (join (u16 ", ") translatedCategories) ++ u16 ".".

Definition short_fallback_es (translatedCategories : list jsstring)
  (request : SummaryRequest) : jsstring :=
  dquote ++ title request ++ dquote ++
  u16 " es una obra importante que explora temas fundamentales en su campo de estudio.".

Definition short_template_en (translatedCategories : list jsstring)
  (request : SummaryRequest) : jsstring :=
  dquote ++ title request ++ dquote ++ u16 " by " ++
  join (u16 ", ") (authors request) ++ u16 " is a " ++
  orElse (hd [] translatedCategories) (u16 "important") ++
  u16 " work published in " ++ publishedDate request ++ u16 ". " ++
  (if 0 <? pageCount request
   then u16 "This " ++ pageCountText (pageCount request) ++ u16 "-page book"
   else u16 "This book") ++
  u16 " offers insights into " ++
  toLowerCase (join (u16 ", ") translatedCategories) ++ u16 ".".

Definition short_fallback_en (translatedCategories : list jsstring)
  (request : SummaryRequest) : jsstring :=
  dquote ++ title request ++ dquote ++
  u16 " is an important work that explores fundamental themes in its field of study.".

Definition short_template_fr (translatedCategories : list jsstring)
  (request : SummaryRequest) : jsstring :=
  dquote ++ title request ++ dquote ++ u16 " par " ++
  join (u16 ", ") (authors request) ++ u16 " est une œuvre de " ++
  orElse (hd [] translatedCategories) (u16 "importance") ++
  u16 " publiée en " ++ publishedDate request ++ u16 ". " ++
  (if 0 <? pageCount request
   then u16 "Ce livre de " ++ pageCountText (pageCount request) ++ u16 " pages"
   else u16 "Ce livre") ++
  u16 " offre des perspectives sur " ++
  toLowerCase (join (u16 ", ") translatedCategories) ++ u16 ".".

Definition short_fallback_fr (translatedCategories : list jsstring)
  (request : SummaryRequest) : jsstring :=
  dquote ++ title request ++ dquote ++
  u16 " est une œuvre importante qui explore des thèmes fondamentaux dans son domaine d'étude.".

Definition short_template_de (translatedCategories : list jsstring)
  (request : SummaryRequest) : jsstring :=
  dquote ++ title request ++ dquote ++ u16 " von " ++
  join (u16 ", ") (authors request) ++ u16 " ist ein Werk im Bereich " ++
  orElse (hd [] translatedCategories) (u16 "Wichtigkeit") ++
  u16 ", veröffentlicht " ++ publishedDate request ++ u16 ". " ++
  (if 0 <? pageCount request
   then u16 "Dieses " ++ pageCountText (pageCount request) ++ u16 "-seitige Buch"
   else u16 "Dieses Buch") ++
  u16 " bietet Einblicke in " ++
  toLowerCase (join (u16 ", ") translatedCategories) ++ u16 ".".

Definition short_fallback_de (translatedCategories : list jsstring)
  (request : SummaryRequest) : jsstring :=
  dquote ++ title request ++ dquote ++
  u16 " ist ein wichtiges Werk, das grundlegende Themen in seinem Studienbereich erforscht.".

Definition short_template_pt (translatedCategories : list jsstring)
  (request : SummaryRequest) : jsstring :=
  dquote ++ title request ++ dquote ++ u16 " por " ++
  join (u16 ", ") (authors request) ++ u16 " é uma obra de " ++
  orElse (hd [] translatedCategories) (u16 "importância") ++
  u16 " publicada em " ++ publishedDate request ++ u16 ". " ++
  (if 0 <? pageCount request
   then u16 "Este livro de " ++ pageCountText (pageCount request) ++ u16 " páginas"
   else u16 "Este livro") ++
  u16 " oferece perspectivas sobre " ++
  toLowerCase (join (u16 ", ") translatedCategories) ++ u16 ".".

Definition short_fallback_pt (translatedCategories : list jsstring)
  (request : SummaryRequest) : jsstring :=
  dquote ++ title request ++ dquote ++
  u16 " é uma obra importante que explora temas fundamentais em seu campo de estudo.".

Definition short_template_it (translatedCategories : list jsstring)
  (request : SummaryRequest) : jsstring :=
  dquote ++ title request ++ dquote ++ u16 " di " ++
  join (u16 ", ") (authors request) ++ u16 " è un'opera di " ++
  pageCountText (pageCount request) ++ u16 " pubblicata nel " ++
  publishedDate request ++ u16 ". " ++
  (if 0 <? pageCount request
   then u16 "Questo libro di " ++ pageCountText (pageCount request) ++ u16 " pagine"
   else u16 "Questo libro") ++
  u16 " offre prospettive su " ++
  toLowerCase (join (u16 ", ") translatedCategories) ++ u16 ".".

Definition short_fallback_it (translatedCategories : list jsstring)
  (request : SummaryRequest) : jsstring :=
  dquote ++ title request ++ dquote ++
  u16 " è un'opera importante che esplora temi fondamentali nel suo campo di studio.".

Definition detailed_template_es (translatedCategories : list jsstring)
  (request : SummaryRequest) : jsstring :=
  dquote ++ title request ++ dquote ++ u16 " de " ++
  join (u16 ", ") (authors request) ++ u16 " (" ++ publisher request ++
  u16 ", " ++ publishedDate request ++ u16 ") es una obra de " ++
  pageCountText (pageCount request) ++ u16 " páginas en " ++
  join (u16 ", ") translatedCategories ++ u16 ". " ++
  (if negb (jsstring_eqb (language request) (targetLanguage request))
   then u16 "Esta obra explora temas importantes relacionados con la evolución humana y la historia."
   else if truthy (description request)
   then substring0 400 (description request)
   else u16 "Esta obra explora temas importantes en su campo.") ++
  u16 " El libro ofrece una perspectiva integral sobre los conceptos fundamentales y proporciona a los lectores herramientas valiosas para comprender mejor el tema. Los autores presentan análisis detallados y metodologías prácticas que resultan esenciales para profundizar en este campo de estudio.".

Definition detailed_fallback_es (translatedCategories : list jsstring)
  (request : SummaryRequest) : jsstring :=
  dquote ++ title request ++ dquote ++
  u16 " es una obra fundamental que aborda aspectos esenciales de " ++
  orElse (hd [] translatedCategories) (u16 "su campo") ++
  u16 ". A través de un análisis detallado, los autores presentan conceptos clave y metodologías importantes. Esta publicación ofrece perspectivas valiosas para lectores interesados en profundizar su comprensión del tema, proporcionando herramientas prácticas y enfoques innovadores que contribuyen significativamente al desarrollo del conocimiento en esta área de estudio.".

Definition detailed_template_en (translatedCategories : list jsstring)
  (request : SummaryRequest) : jsstring :=
  dquote ++ title request ++ dquote ++ u16 " by " ++
  join (u16 ", ") (authors request) ++ u16 " (" ++ publisher request ++
  u16 ", " ++ publishedDate request ++ u16 ") is a " ++
  pageCountText (pageCount request) ++ u16 "-page work in " ++
  join (u16 ", ") translatedCategories ++ u16 ". " ++
  (if truthy (description request)
   then substring0 400 (description request)
   else u16 "This work explores important themes in its field.") ++
  u16 " The book offers a comprehensive perspective on fundamental concepts and provides readers with valuable tools for better understanding the subject. The authors present detailed analysis and practical methodologies that are essential for deepening knowledge in this field of study.".

Definition detailed_fallback_en (translatedCategories : list jsstring)
  (request : SummaryRequest) : jsstring :=
  dquote ++ title request ++ dquote ++
  u16 " is a fundamental work that addresses essential aspects of " ++
  orElse (hd [] translatedCategories) (u16 "its field") ++
  u16 ". Through detailed analysis, the authors present key concepts and important methodologies. This publication offers valuable perspectives for readers interested in deepening their understanding of the subject, providing practical tools and innovative approaches that contribute significantly to the development of knowledge in this area of study.".

Definition detailed_template_fr (translatedCategories : list jsstring)
  (request : SummaryRequest) : jsstring :=
  dquote ++ title request ++ dquote ++ u16 " par " ++
  join (u16 ", ") (authors request) ++ u16 " (" ++ publisher request ++
  u16 ", " ++ publishedDate request ++ u16 ") est une œuvre de " ++
  pageCountText (pageCount request) ++ u16 " pages en " ++
  join (u16 ", ") translatedCategories ++ u16 ". " ++
  (if truthy (description request)
   then substring0 400 (description request)
   else u16 "Cette œuvre explore des thèmes importants dans son domaine.") ++
  u16 " Le livre offre une perspective complète sur les concepts fondamentaux et fournit aux lecteurs des outils précieux pour mieux comprendre le sujet. Les auteurs présentent une analyse détaillée et des méthodologies pratiques essentielles pour approfondir les connaissances dans ce domaine d'étude.".

Definition detailed_fallback_fr (translatedCategories : list jsstring)
  (request : SummaryRequest) : jsstring :=
  dquote ++ title request ++ dquote ++
  u16 " est une œuvre fondamentale qui aborde les aspects essentiels de " ++
  orElse (hd [] translatedCategories) (u16 "son domaine") ++
  u16 ". À travers une analyse détaillée, les auteurs présentent des concepts clés et des méthodologies importantes. Cette publication offre des perspectives précieuses pour les lecteurs intéressés à approfondir leur compréhension du sujet, fournissant des outils pratiques et des approches innovantes qui contribuent significativement au développement des connaissances dans ce domaine d'étude.".

Definition detailed_template_de (translatedCategories : list jsstring)
  (request : SummaryRequest) : jsstring :=
  dquote ++ title request ++ dquote ++ u16 " von " ++
  join (u16 ", ") (authors request) ++ u16 " (" ++ publisher request ++
  u16 ", " ++ publishedDate request ++ u16 ") ist ein " ++
  pageCountText (pageCount request) ++ u16 "-seitiges Werk im Bereich " ++
  join (u16 ", ") translatedCategories ++ u16 ". " ++
  (if negb (jsstring_eqb (language request) (targetLanguage request))
   then u16 "Dieses Werk erforscht wichtige Themen im Zusammenhang mit existenziellen und spirituellen Fragen."
   else if truthy (description request)
   then substring0 400 (description request)
   else u16 "Dieses Werk erforscht wichtige Themen in seinem Fachgebiet.") ++
  u16 " Das Buch bietet eine umfassende Perspektive auf grundlegende Konzepte und stellt den Lesern wertvolle Werkzeuge für ein besseres Verständnis des Themas zur Verfügung. Die Autoren präsentieren detaillierte Analysen und praktische Methodologien, die für die Vertiefung des Wissens in diesem Studienbereich wesentlich sind.".

Definition detailed_fallback_de (translatedCategories : list jsstring)
  (request : SummaryRequest) : jsstring :=
  dquote ++ title request ++ dquote ++
  u16 " ist ein grundlegendes Werk, das wesentliche Aspekte von " ++
  orElse (hd [] translatedCategories) (u16 "seinem Fachgebiet") ++
  u16 " behandelt. Durch detaillierte Analyse präsentieren die Autoren Schlüsselkonzepte und wichtige Methodologien. Diese Veröffentlichung bietet wertvolle Perspektiven für Leser, die ihr Verständnis des Themas vertiefen möchten, und stellt praktische Werkzeuge und innovative Ansätze bereit, die erheblich zur Entwicklung des Wissens in diesem Studienbereich beitragen.".

Definition detailed_template_pt (translatedCategories : list jsstring)
  (request : SummaryRequest) : jsstring :=
  dquote ++ title request ++ dquote ++ u16 " por " ++
  join (u16 ", ") (authors request) ++ u16 " (" ++ publisher request ++
  u16 ", " ++ publishedDate request ++ u16 ") é uma obra de " ++
  pageCountText (pageCount request) ++ u16 " páginas em " ++
  join (u16 ", ") translatedCategories ++ u16 ". " ++
  (if negb (jsstring_eqb (language request) (targetLanguage request))
   then u16 "Esta obra explora temas importantes relacionados com a evolução humana e a história."
   else if truthy (description request)
   then substring0 400 (description request)
   else u16 "Esta obra explora temas importantes em seu campo.") ++
  u16 " O livro oferece uma perspectiva abrangente sobre conceitos fundamentais e fornece aos leitores ferramentas valiosas para melhor compreender o assunto. Os autores apresentam análises detalhadas e metodologias práticas essenciais para aprofundar o conhecimento neste campo de estudo.".

Definition detailed_fallback_pt (translatedCategories : list jsstring)
  (request : SummaryRequest) : jsstring :=
  dquote ++ title request ++ dquote ++
  u16 " é uma obra fundamental que aborda aspectos essenciais de " ++
  orElse (hd [] translatedCategories) (u16 "seu campo") ++
  u16 ". Através de análise detalhada, os autores apresentam conceitos-chave e metodologias importantes. Esta publicação oferece perspectivas valiosas para leitores interessados em aprofundar sua compreensão do assunto, fornecendo ferramentas práticas e abordagens inovadoras que contribuem significativamente para o desenvolvimento do conhecimento nesta área de estudo.".

Definition detailed_template_it (translatedCategories : list jsstring)
  (request : SummaryRequest) : jsstring :=
  dquote ++ title request ++ dquote ++ u16 " di " ++
  join (u16 ", ") (authors request) ++ u16 " (" ++ publisher request ++
  u16 ", " ++ publishedDate request ++ u16 ") è un'opera di " ++
  pageCountText (pageCount request) ++ u16 " pagine nel campo di " ++
  join (u16 ", ") translatedCategories ++ u16 ". " ++
  (if negb (jsstring_eqb (language request) (targetLanguage request))
   then u16 "Quest'opera esplora temi importanti legati all'evoluzione umana e alla storia."
   else if truthy (description request)
   then substring0 400 (description request)
   else u16 "Quest'opera esplora temi importanti nel suo campo.") ++
  u16 " Il libro offre una prospettiva completa sui concetti fondamentali e fornisce ai lettori strumenti preziosi per comprendere meglio l'argomento. Gli autori presentano analisi dettagliate e metodologie pratiche essenziali per approfondire la conoscenza in questo campo di studio.".

Definition detailed_fallback_it (translatedCategories : list jsstring)
  (request : SummaryRequest) : jsstring :=
  dquote ++ title request ++ dquote ++
  u16 " è un'opera fondamentale che affronta aspetti essenziali di " ++
  orElse (hd [] translatedCategories) (u16 "suo campo") ++
  u16 ". Attraverso un'analisi dettagliata, gli autori presentano concetti chiave e metodologie importanti. Questa pubblicazione offre prospettive preziose per i lettori interessati ad approfondire la loro comprensione dell'argomento, fornendo strumenti pratici e approcci innovativi che contribuiscono significativamente allo sviluppo della conoscenza in quest'area di studio.".

(** The [languageMap] literal of [generateFallbackShortSummary]: for each
    language its template and its shorter fallback sentence. *)
Definition shortLanguageMap (translatedCategories : list jsstring)
  (request : SummaryRequest) : list (string * (jsstring * jsstring)) :=
  [("es", (short_template_es translatedCategories request,
           short_fallback_es translatedCategories request));
   ("en", (short_template_en translatedCategories request,
           short_fallback_en translatedCategories request));
   ("fr", (short_template_fr translatedCategories request,
           short_fallback_fr translatedCategories request));
   ("de", (short_template_de translatedCategories request,
           short_fallback_de translatedCategories request));
   ("pt", (short_template_pt translatedCategories request,
           short_fallback_pt translatedCategories request));
   ("it", (short_template_it translatedCategories request,
           short_fallback_it translatedCategories request))].

Definition detailedLanguageMap (translatedCategories : list jsstring)
  (request : SummaryRequest) : list (string * (jsstring * jsstring)) :=
  [("es", (detailed_template_es translatedCategories request,
           detailed_fallback_es translatedCategories request));
   ("en", (detailed_template_en translatedCategories request,
           detailed_fallback_en translatedCategories request));
   ("fr", (detailed_template_fr translatedCategories request,
           detailed_fallback_fr translatedCategories request));
   ("de", (detailed_template_de translatedCategories request,
           detailed_fallback_de translatedCategories request));
   ("pt", (detailed_template_pt translatedCategories request,
           detailed_fallback_pt translatedCategories request));
   ("it", (detailed_template_it translatedCategories request,
           detailed_fallback_it translatedCategories request))].

(** [languageMap[request.targetLanguage] || languageMap['en']], as far as the
    next line can use it: a member of [Object.prototype] is truthy, so
    English is not taken in its place, and it has no [template], so
    [lang.template.length] throws a [TypeError]; that is [None]. *)
Definition pickLanguage (languageMap : list (string * (jsstring * jsstring)))
  (targetLanguage : jsstring) : option (jsstring * jsstring) :=
  match getProperty targetLanguage languageMap with
  | Own lang => Some lang
  | Inherited _ => None
  | Absent => lookupLit (u16 "en") languageMap
  end.

(** The text returned, or [None] when the function throws. *)
Definition generateFallbackShortSummary (request : SummaryRequest)
  : option jsstring :=
  match translateCategories (categories request) (targetLanguage request) with
  | None => None
  | Some translatedCategories =>
      match pickLanguage (shortLanguageMap translatedCategories request)
                         (targetLanguage request) with
      | None => None
      | Some lang =>
          let summary := if len (fst lang) <=? 300 then fst lang else snd lang in
          Some (ensureCharacterLimit
                  (cleanMixedLanguageText summary (targetLanguage request)) 300)
      end
  end.

Definition generateFallbackDetailedSummary (request : SummaryRequest)
  : option jsstring :=
  match translateCategories (categories request) (targetLanguage request) with
  | None => None
  | Some translatedCategories =>
      match pickLanguage (detailedLanguageMap translatedCategories request)
                         (targetLanguage request) with
      | None => None
      | Some lang =>
          let summary :=
            if len (fst lang) <=? 1000 then fst lang else snd lang in
          Some (ensureCharacterLimit
                  (cleanMixedLanguageText summary (targetLanguage request))
                  1000)
      end
  end.

End FallbackGenerator.

(** ** The counters in Firestore *)

Record CounterDoc := { count : Z; timestamp : Z }.

(** What a request does to the outside world, in order. *)
Inductive Event :=
  | DbGet (collection : string) (docId : jsstring)
  | DbSet (collection : string) (docId : jsstring) (doc : CounterDoc)
  | ApiCall (attempt : nat)
  | Sleep (ms : Z).

Record World := {
  rateLimits : gmap jsstring CounterDoc;
  globalUsage : gmap jsstring CounterDoc;
  trace : list Event
}.

Definition emptyWorld : World :=
  {| rateLimits := ∅; globalUsage := ∅; trace := [] |}.

Definition record (evs : list Event) (w : World) : World :=
  {| rateLimits := rateLimits w;
     globalUsage := globalUsage w;
     trace := trace w ++ evs |}.

Definition setRateLimit (docId : jsstring) (doc : CounterDoc) (w : World) : World :=
  {| rateLimits := <[docId := doc]> (rateLimits w);
     globalUsage := globalUsage w;
     trace := trace w ++ [DbSet "rateLimits" docId doc] |}.

Definition setGlobalUsage (docId : jsstring) (doc : CounterDoc) (w : World) : World :=
  {| rateLimits := rateLimits w;
     globalUsage := <[docId := doc]> (globalUsage w);
     trace := trace w ++ [DbSet "globalUsage" docId doc] |}.

(** The upstream error object, as far as the code looks at it. *)
Record JsError := { err_status : option Z; err_message : option jsstring }.

(** What one call of [openai.chat.completions.create] does:
    it resolves with [choices[0]?.message?.content], or rejects. *)
Inductive CallOutcome :=
  | Resolved (content : option jsstring)
  | Rejected (error : JsError).

(** What the clock, the secret store and the upstream service answer while one
    request is served: [now] is the [Date.now()] of the hourly check, which
    the monthly check repeats, [fullYear] and [monthIndex] are those of the
    monthly check, and [summaryDate] is the [new Date()] read when the
    summary object is built, after the upstream calls and the waits between
    them. *)
Record Env := {
  now : Z;
  fullYear : Z;
  monthIndex : Z;
  summaryDate : Z;
  apiKey : jsstring;
  create : nat -> CallOutcome
}.

Record HttpRequest := {
  req_method : jsstring;
  req_forwardedFor : option jsstring;
  req_remoteAddress : option jsstring;
  req_body : option SummaryRequest
}.

Inductive ResponseBody :=
  | ErrorBody (success : option bool) (error : jsstring)
      (suggestion : option jsstring)
  | DataBody (data : AIBookSummary) (fallback : option bool)
      (translated : option bool).

Record HttpResponse := { status : Z; body : ResponseBody }.

(** What becomes of a request: a response is sent, or the handler throws
    before it sends one. *)
Inductive Reply :=
  | Sent (response : HttpResponse)
  | NoResponse.

(** [s.split(",")[0]] *)
Fixpoint beforeComma (s : jsstring) : jsstring :=
  match s with
  | [] => []
  | c :: s' => if (c =? 44)%N then [] else c :: beforeComma s'
  end.

Definition getClientIp (req : HttpRequest) : jsstring :=
  orElse (match req_forwardedFor req with
          | Some h => beforeComma h
          | None => []
          end)
    (orElse (match req_remoteAddress req with
             | Some a => a
             | None => []
             end)
       (u16 "unknown")).

Definition MAX_REQUESTS_PER_HOUR : Z := 10.

Definition hourStartOf (t : Z) : Z := t - Z.rem t (60 * 60 * 1000).

Definition rateLimitDocId (ip : jsstring) (t : Z) : jsstring :=
  ip ++ u16 "_" ++ numToString (hourStartOf t).

(** [doc.data()?.count || 0] *)
Definition countOrZero (doc : option CounterDoc) : Z :=
  match doc with
  | Some d => count d
  | None => 0
  end.

(** [doc.exists && doc.data()?.count >= cap] *)
Definition atCap (doc : option CounterDoc) (cap : Z) : bool :=
  match doc with
  | Some d => cap <=? count d
  | None => false
  end.

Definition isRateLimited (env : Env) (ip : jsstring) (w : World) : bool * World :=
  let hourStart := hourStartOf (now env) in
  let docId := rateLimitDocId ip (now env) in
  let doc := rateLimits w !! docId in
  let w1 := record [DbGet "rateLimits" docId] w in
  if atCap doc MAX_REQUESTS_PER_HOUR then (true, w1)
  else
    (false,
     setRateLimit docId
       {| count := countOrZero doc + 1; timestamp := hourStart |} w1).

Definition MAX_GLOBAL_REQUESTS_PER_MONTH : Z := 1000.

(** [`${now.getFullYear()}-${now.getMonth() + 1}`] *)
Definition monthKey (env : Env) : jsstring :=
  numToString (fullYear env) ++ u16 "-" ++ numToString (monthIndex env + 1).

Definition isGlobalLimitReached (env : Env) (w : World) : bool * World :=
  let docId := monthKey env in
  let doc := globalUsage w !! docId in
  let w1 := record [DbGet "globalUsage" docId] w in
  if atCap doc MAX_GLOBAL_REQUESTS_PER_MONTH then (true, w1)
  else
    (false,
     setGlobalUsage docId
       {| count := countOrZero doc + 1; timestamp := now env |} w1).

(** ** SummaryInvoker: retry *)

Definition statusIs (code : Z) (e : JsError) : bool :=
  match err_status e with
  | Some s => s =? code
  | None => false
  end.

(** [error.message?.includes(p)] *)
Definition messageIncludes (p : string) (e : JsError) : bool :=
  match err_message e with
  | Some m => includes (u16 p) m
  | None => false
  end.

(** The [isRateLimit] of [callOpenAIWithRetry]. *)
Definition isRateLimitForRetry (e : JsError) : bool :=
  statusIs 429 e || messageIncludes "rate limit" e.

Inductive CallResult :=
  | Returned (content : option jsstring)
  | Threw (e : JsError)
  | LoopFellThrough.

(** The [for] loop of [callOpenAIWithRetry] from [attempt] on; [fuel] bounds
    the iterations left. The delay is [Math.pow(2, attempt) * 500]. *)
Fixpoint retryLoop (create : nat -> CallOutcome) (maxRetries : nat)
  (fuel attempt : nat) : CallResult * list Event :=
  match fuel with
  | O => (LoopFellThrough, [])
  | S fuel' =>
      if (attempt <? maxRetries)%nat then
        match create attempt with
        | Resolved content => (Returned content, [ApiCall attempt])
        | Rejected error =>
            if isRateLimitForRetry error && (attempt <? maxRetries - 1)%nat
            then
              let delay := 2 ^ Z.of_nat attempt * 500 in
              let (result, events) :=
                retryLoop create maxRetries fuel' (S attempt) in
              (result, ApiCall attempt :: Sleep delay :: events)
            else (Threw error, [ApiCall attempt])
        end
      else (LoopFellThrough, [])
  end.

Definition callOpenAIWithRetry (create : nat -> CallOutcome) (maxRetries : nat)
  : CallResult * list Event :=
  retryLoop create maxRetries (S maxRetries) 0.

(** ** Attribution record of the Cloud Function *)

Record EnhancedData := {
  ed_sourceAttribution : list SourceAttribution;
  ed_detailedConfidenceFactors : DetailedConfidenceFactors;
  ed_processingMethod : ProcessingMethod;
  ed_translationApplied : bool
}.

Definition generateCloudFunctionSourceAttribution (request : SummaryRequest)
  (usesFallback : bool) : EnhancedData :=
  let translationApplied :=
    negb (jsstring_eqb (language request) (targetLanguage request)) in
  let sourceAttribution :=
    [ {| sa_type := book_description;
         sa_content :=
           orElse (substring0 200 (description request) ++ u16 "...")
                  (u16 "No description available");
         sa_reliability := if 100 <? len (description request) then 90 else 60;
         sa_relevance := 95;
         sa_length := len (description request);
         sa_source := u16 "Google Books API";
         sa_weight := 4 # 10 |};
      {| sa_type := metadata;
         sa_content :=
           title request ++ u16 " by " ++ join (u16 ", ") (authors request) ++
           u16 " (" ++ publisher request ++ u16 ", " ++
           publishedDate request ++ u16 ")";
         sa_reliability := 95;
         sa_relevance := 85;
         sa_length :=
           len (title request) + len (join (u16 ", ") (authors request));
         sa_source := u16 "Google Books API";
         sa_weight := 25 # 100 |};
      {| sa_type := category_data;
         sa_content := join (u16 ", ") (categories request);
         sa_reliability :=
           if (0 <? length (categories request))%nat then 85 else 40;
         sa_relevance := 80;
         sa_length := len (join (u16 ", ") (categories request));
         sa_source := u16 "Google Books API";
         sa_weight := 15 # 100 |};
      {| sa_type := if usesFallback then src_fallback_template else ai_knowledge;
         sa_content :=
           if usesFallback then u16 "SmartLibroAI language-specific template"
           else u16 "OpenAI GPT-3.5 knowledge base";
         sa_reliability := if usesFallback then 85 else 90;
         sa_relevance := 75;
         sa_length := 0;
         sa_source :=
           if usesFallback then u16 "SmartLibroAI" else u16 "OpenAI GPT-3.5";
         sa_weight := 2 # 10 |} ] in
  let detailedConfidenceFactors :=
    {| dataQuality :=
         {| score := 85;
            factors :=
              {| descriptionLength := len (description request);
                 metadataCompleteness := 90;
                 publisherReliability := 80;
                 authorCredibility := 75 |} |};
       sourceReliability :=
         {| score := if usesFallback then 82 else 88;
            factors :=
              {| primarySourcesCount := Z.of_nat (length sourceAttribution);
                 averageSourceReliability := if usesFallback then 80 else 85;
                 sourceConsistency := if usesFallback then 95 else 90;
                 verifiableInformation := 85 |} |};
       contentCoverage :=
         {| score := if usesFallback then 78 else 82;
            factors :=
              {| topicCoverage := if usesFallback then 75 else 85;
                 thematicDepth := if usesFallback then 75 else 80;
                 conceptualClarity := if usesFallback then 85 else 85;
                 structuralCompleteness := if usesFallback then 80 else 80 |} |};
       aiProcessing :=
         {| score :=
              if translationApplied then 75
              else if usesFallback then 88 else 90;
            factors :=
              {| languageConsistency :=
                   if translationApplied then 75
                   else if usesFallback then 95 else 95;
                 translationQuality := if translationApplied then 80 else 100;
                 summarizationAccuracy := if usesFallback then 80 else 85;
                 responseCoherence := if usesFallback then 90 else 90 |} |};
       crossValidation :=
         {| score := 85;
            factors :=
              {| multiSourceVerification := 80;
                 factualConsistency := if usesFallback then 90 else 85;
                 contextualRelevance := 90;
                 logicalCoherence := if usesFallback then 90 else 85 |} |} |} in
  {| ed_sourceAttribution := sourceAttribution;
     ed_detailedConfidenceFactors := detailedConfidenceFactors;
     ed_processingMethod := if usesFallback then fallback_template else openai_api;
     ed_translationApplied := translationApplied |}.

(** ** SummaryInvoker: [generateBookSummary] *)

Definition respond (code : Z) (b : ResponseBody) : HttpResponse :=
  {| status := code; body := b |}.

(** [new Error(message)] *)
Definition mkError (message : jsstring) : JsError :=
  {| err_status := None; err_message := Some message |}.

(** [Math.max] and [Math.min] of two numbers: [NaN] if either is. *)
Definition Math_max (a b : JsNumber) : JsNumber :=
  match a, b with
  | NaN, _ | _, NaN => NaN
  | Infinity false, _ | _, Infinity false => Infinity false
  | Infinity true, x | x, Infinity true => x
  | Num x, Num y => Num (Qmax x y)
  end.

Definition Math_min (a b : JsNumber) : JsNumber :=
  match a, b with
  | NaN, _ | _, NaN => NaN
  | Infinity true, _ | _, Infinity true => Infinity true
  | Infinity false, x | x, Infinity false => x
  | Num x, Num y => Num (Qmin x y)
  end.

(** [Math.min(100, Math.max(0, parsedResponse.confidenceScore || 75))] *)
Definition clampConfidence (c : option JsNumber) : JsNumber :=
  let given :=
    match c with
    | Some n => n
    | None => Num 75
    end in
  Math_min (Num 100) (Math_max (Num 0) given).

Definition orEmpty (s : option jsstring) : jsstring :=
  match s with
  | Some x => x
  | None => []
  end.

(** The [isRateLimit] of the [catch] block. *)
Definition isRateLimitForFallback (e : JsError) : bool :=
  statusIs 429 e || messageIncludes "429" e || messageIncludes "rate limit" e.

(** The [isQuotaExceeded] of the [catch] block. *)
Definition isQuotaExceeded (e : JsError) : bool :=
  messageIncludes "insufficient_quota" e || messageIncludes "quota" e.

Section SummaryInvoker.

Context {rt : Runtime}.

(** The object built on the success path. *)
Definition aiSummaryOf (env : Env) (summaryRequest : SummaryRequest)
  (parsedResponse : ParsedResponse) : AIBookSummary :=
  let enhancedData :=
    generateCloudFunctionSourceAttribution summaryRequest false in
  {| shortSummary :=
       ensureCharacterLimit (orEmpty (pr_shortSummary parsedResponse)) 300;
     detailedSummary :=
       ensureCharacterLimit (orEmpty (pr_detailedSummary parsedResponse)) 1000;
     confidenceScore := clampConfidence (pr_confidenceScore parsedResponse);
     reasoningFactors :=
       match pr_reasoningFactors parsedResponse with
       | Some l => l
       | None => []
       end;
     sourcesUsed :=
       match pr_sourcesUsed parsedResponse with
       | Some l => l
       | None => [u16 "Google Books API"; u16 "Book Description"]
       end;
     sourceAttribution := ed_sourceAttribution enhancedData;
     detailedConfidenceFactors := ed_detailedConfidenceFactors enhancedData;
     summaryLanguage := targetLanguage summaryRequest;
     generatedAt := summaryDate env;
     processingMethod := ed_processingMethod enhancedData;
     translationApplied := ed_translationApplied enhancedData |}.

(** The object built in the rate-limit branch of the [catch] block from the
    texts of the two generators. *)
Definition fallbackSummaryWith (env : Env) (summaryRequest : SummaryRequest)
  (short detailed : jsstring) : AIBookSummary :=
  let fallbackEnhancedData :=
    generateCloudFunctionSourceAttribution summaryRequest true in
  let differs :=
    negb (jsstring_eqb (language summaryRequest)
                       (targetLanguage summaryRequest)) in
  {| shortSummary := short;
     detailedSummary := detailed;
     confidenceScore := Num 50;
     reasoningFactors :=
       if differs
       then [u16 "Fallback summary with translation";
             u16 "Limited by API rate limits"]
       else [u16 "Fallback summary due to API rate limits"];
     sourcesUsed := [u16 "Book metadata"; u16 "Description"];
     sourceAttribution := ed_sourceAttribution fallbackEnhancedData;
     detailedConfidenceFactors :=
       ed_detailedConfidenceFactors fallbackEnhancedData;
     summaryLanguage := targetLanguage summaryRequest;
     generatedAt := summaryDate env;
     processingMethod := ed_processingMethod fallbackEnhancedData;
     translationApplied := ed_translationApplied fallbackEnhancedData |}.

(** The [fallbackSummary] of the [catch] block, or [None] when one of the
    generators throws while it is built. *)
Definition fallbackSummaryOf (env : Env) (summaryRequest : SummaryRequest)
  : option AIBookSummary :=
  match generateFallbackShortSummary summaryRequest,
        generateFallbackDetailedSummary summaryRequest with
  | Some short, Some detailed =>
      Some (fallbackSummaryWith env summaryRequest short detailed)
  | _, _ => None
  end.

(** The [catch] block. An error thrown inside it is caught by nothing: the
    callback ends without a response. *)
Definition handleError (env : Env) (summaryRequest : SummaryRequest)
  (error : JsError) : Reply :=
  if isRateLimitForFallback error then
    match fallbackSummaryOf env summaryRequest with
    | Some fallbackSummary =>
        Sent (respond 200
                (DataBody fallbackSummary (Some true)
                   (Some (negb (jsstring_eqb (language summaryRequest)
                                             (targetLanguage summaryRequest))))))
    | None => NoResponse
    end
  else if isQuotaExceeded error then
    Sent (respond 429
            (ErrorBody None
               (u16 "OpenAI quota exceeded. Please check your billing.")
               (Some (u16 "Your OpenAI account may need billing setup or has exceeded monthly limits."))))
  else if messageIncludes "API key" error then
    Sent (respond 401
            (ErrorBody None (u16 "Authentication failed with AI service") None))
  else
    Sent (respond 500
            (ErrorBody None
               (u16 "Failed to generate book summary. Please try again.") None)).

(** The [try] block: a response, or the error it throws. The prompt text is
    not modelled: what each call answers is given by [create env]. *)
Definition tryBlock (env : Env) (request : HttpRequest)
  (summaryRequest : SummaryRequest) : (HttpResponse + JsError) * list Event :=
  if negb (jsstring_eqb (req_method request) (u16 "POST")) then
    (inl (respond 405 (ErrorBody None (u16 "Method not allowed") None)), [])
  else if negb (truthy (apiKey env)) then
    (inl (respond 500 (ErrorBody None (u16 "AI service not configured") None)), [])
  else
    let (result, events) := callOpenAIWithRetry (create env) 3 in
    match result with
    | Threw error => (inr error, events)
    | LoopFellThrough =>
        (inr (mkError (u16 "Cannot read properties of undefined (reading 'choices')")),
         events)
    | Returned content =>
        if negb (truthy (orEmpty content)) then
          (inr (mkError (u16 "No response from OpenAI")), events)
        else
          match JSON_parse (orEmpty content) with
          | SyntaxError message => (inr (mkError message), events)
          | Parsed parsedResponse =>
              (inl (respond 200
                      (DataBody (aiSummaryOf env summaryRequest parsedResponse)
                         None None)),
               events)
          end
    end.

Definition validBody (b : option SummaryRequest) : option SummaryRequest :=
  match b with
  | Some r => if truthy (title r) && truthy (isbn r) then Some r else None
  | None => None
  end.

Definition generateBookSummary (env : Env) (request : HttpRequest) (w : World)
  : Reply * World :=
  let ip := getClientIp request in
  let (limited, w1) := isRateLimited env ip w in
  if limited then
    (Sent (respond 429
             (ErrorBody (Some false)
                (u16 "Rate limit exceeded. Please try again later.") None)),
     w1)
  else
    let (reached, w2) := isGlobalLimitReached env w1 in
    if reached then
      (Sent (respond 503
               (ErrorBody (Some false)
                  (u16 "Service temporarily unavailable: free tier usage limit reached.")
                  None)),
       w2)
    else
      match validBody (req_body request) with
      | None =>
          (Sent (respond 400
                   (ErrorBody None
                      (u16 "Invalid request. Title and ISBN are required.")
                      None)),
           w2)
      | Some summaryRequest =>
          let (outcome, events) := tryBlock env request summaryRequest in
          (match outcome with
           | inl response => Sent response
           | inr error => handleError env summaryRequest error
           end,
           record events w2)
      end.

End SummaryInvoker.

(** ** ConfidenceScorer: [calculateDetailedConfidence] of [book.service.ts] *)

Module Scorer.

Local Open Scope Q_scope.

(** [Math.round]: the nearest integer, halves going up. *)
Definition Math_round (x : Q) : Z := Qfloor (x + (1 # 2)).

(** [x > 0] on numbers. *)
Definition positive (x : Q) : bool := negb (Qle_bool x 0).

Record ConfidenceFactors := {
  f_sourcesUsed : Z;
  averageSourceRating : Z;
  f_descriptionLength : Z;
  reviewsCount : Z;
  f_dataQualityScore : Z;
  f_aiProcessingScore : Z;
  f_translationPenalty : Q
}.

Record DetailedBreakdown := {
  bd_dataQuality : Z;
  bd_sourceReliability : Z;
  bd_contentCoverage : Z;
  bd_aiProcessing : Z;
  bd_crossValidation : Z
}.

Record ConfidenceMetrics := {
  overallScore : Z;
  cm_sourceReliability : Z;
  cm_contentCoverage : Z;
  crossReferenceValidation : Z;
  cm_factors : ConfidenceFactors;
  detailedBreakdown : DetailedBreakdown;
  cm_sourceAttribution : list SourceAttribution
}.

(** The four constants the function picks for the AI processing score. *)
Record AiConstants := {
  languageConsistency : Q;
  translationQuality : Q;
  summarizationAccuracy : Q;
  responseCoherence : Q
}.

(** [bookData.description?.length || 0] *)
Definition descriptionLength (bookData : BookMetadata) : Z :=
  len (bm_description bookData).

Definition hasCompleteMetadata (bookData : BookMetadata) : bool :=
  truthy (bm_title bookData) && (0 <? length (bm_authors bookData))%nat &&
  truthy (bm_publisher bookData) && truthy (bm_publishedDate bookData).

Definition pageCountAvailable (bookData : BookMetadata) : bool :=
  (0 <? bm_pageCount bookData)%Z.

Definition categoriesAvailable (bookData : BookMetadata) : bool :=
  (0 <? length (bm_categories bookData))%nat.

Definition dataQualityScore (bookData : BookMetadata) : Q :=
  let descriptionLength := descriptionLength bookData in
  Qmin 100
    ((if (100 <? descriptionLength)%Z then 30
      else inject_Z descriptionLength / 100 * 30) +
     (if hasCompleteMetadata bookData then 25 else 0) +
     (if pageCountAvailable bookData then 15 else 0) +
     (if categoriesAvailable bookData then 15 else 0) +
     (if positive (bm_averageRating bookData) then 10 else 0) +
     (if (0 <? bm_ratingsCount bookData)%Z then 5 else 0)).

Definition publisherReliability (bookData : BookMetadata) : Q :=
  if negb (jsstring_eqb (bm_publisher bookData) (u16 "Unknown Publisher"))
  then 80 else 40.

(** [bookData.authors?.[0] !== 'Unknown Author']: with no author the left side
    is [undefined], which differs from the sentinel. *)
Definition authorCredibility (bookData : BookMetadata) : Q :=
  match bm_authors bookData with
  | first :: _ =>
      if negb (jsstring_eqb first (u16 "Unknown Author")) then 70 else 30
  | [] => 70
  end.

Definition metadataCompleteness (bookData : BookMetadata) : Q :=
  if hasCompleteMetadata bookData then 90 else 50.

Definition sourceReliabilityScore (bookData : BookMetadata) : Q :=
  Qmin 100
    (publisherReliability bookData * (3 # 10) +
     authorCredibility bookData * (3 # 10) +
     metadataCompleteness bookData * (4 # 10)).

Definition topicCoverage (bookData : BookMetadata) : Q :=
  Qmin 100 (inject_Z (descriptionLength bookData) / 10).

Definition thematicDepth (bookData : BookMetadata) : Q :=
  if categoriesAvailable bookData then 80 else 40.

Definition conceptualClarity (bookData : BookMetadata) : Q :=
  if (200 <? descriptionLength bookData)%Z then 90 else 60.

Definition contentCoverageScore (bookData : BookMetadata) : Q :=
  Qmin 100
    (topicCoverage bookData * (4 # 10) +
     thematicDepth bookData * (3 # 10) +
     conceptualClarity bookData * (3 # 10)).

Definition aiConstants (usesFallback translationApplied : bool) : AiConstants :=
  {| languageConsistency := if usesFallback then 95 else 85;
     translationQuality := if translationApplied then 75 else 95;
     summarizationAccuracy := if usesFallback then 80 else 90;
     responseCoherence := if usesFallback then 85 else 95 |}.

Definition aiProcessingScore (usesFallback translationApplied : bool) : Q :=
  let c := aiConstants usesFallback translationApplied in
  Qmin 100
    (languageConsistency c * (3 # 10) +
     translationQuality c * (3 # 10) +
     summarizationAccuracy c * (2 # 10) +
     responseCoherence c * (2 # 10)).

Definition crossValidationScore (bookData : BookMetadata) : Q :=
  let multiSourceVerification :=
    if hasCompleteMetadata bookData then 80 else 50 in
  let factualConsistency := 85 in
  let contextualRelevance :=
    if categoriesAvailable bookData then 90 else 70 in
  let logicalCoherence := 90 in
  Qmin 100
    (multiSourceVerification * (3 # 10) +
     factualConsistency * (2 # 10) +
     contextualRelevance * (3 # 10) +
     logicalCoherence * (2 # 10)).

Definition translationPenalty (translationApplied : bool) : Q :=
  if translationApplied then 10 else 0.

(** [overallScore] before it is rounded. *)
Definition overallScoreRaw (bookData : BookMetadata)
  (usesFallback translationApplied : bool) : Q :=
  Qmax 0
    (Qmin 100
       (dataQualityScore bookData * (25 # 100) +
        sourceReliabilityScore bookData * (25 # 100) +
        contentCoverageScore bookData * (2 # 10) +
        aiProcessingScore usesFallback translationApplied * (15 # 100) +
        crossValidationScore bookData * (15 # 100) -
        translationPenalty translationApplied)).

Definition scorerSourceAttribution (bookData : BookMetadata)
  (usesFallback : bool) : list SourceAttribution :=
  let descriptionLength := descriptionLength bookData in
  [ {| sa_type := book_description;
       sa_content :=
         orElse (substring0 200 (bm_description bookData) ++ u16 "...")
                (u16 "No description available");
       sa_reliability := if (100 <? descriptionLength)%Z then 90%Z else 60%Z;
       sa_relevance := 95;
       sa_length := descriptionLength;
       sa_source := u16 "Google Books API";
       sa_weight := if (0 <? descriptionLength)%Z then 4 # 10 else 0 |};
    {| sa_type := metadata;
       sa_content :=
         u16 "Title: " ++ bm_title bookData ++ u16 ", Authors: " ++
         join (u16 ", ") (bm_authors bookData) ++ u16 ", Publisher: " ++
         bm_publisher bookData;
       sa_reliability := if hasCompleteMetadata bookData then 95%Z else 70%Z;
       sa_relevance := 80;
       sa_length :=
         (len (bm_title bookData) +
          len (join (u16 ", ") (bm_authors bookData)))%Z;
       sa_source := u16 "Google Books API";
       sa_weight := 3 # 10 |};
    {| sa_type := category_data;
       sa_content :=
         orElse (join (u16 ", ") (bm_categories bookData))
                (u16 "Uncategorized");
       sa_reliability := if categoriesAvailable bookData then 85%Z else 40%Z;
       sa_relevance := 75;
       sa_length := len (join (u16 ", ") (bm_categories bookData));
       sa_source := u16 "Google Books API";
       sa_weight := if categoriesAvailable bookData then 15 # 100 else 5 # 100 |};
    {| sa_type := if usesFallback then src_fallback_template else ai_knowledge;
       sa_content :=
         if usesFallback then u16 "Language-specific template"
         else u16 "OpenAI GPT knowledge base";
       sa_reliability := if usesFallback then 85%Z else 90%Z;
       sa_relevance := 70;
       sa_length := 0;
       sa_source :=
         if usesFallback then u16 "SmartLibroAI Template"
         else u16 "OpenAI GPT-3.5";
       sa_weight := if usesFallback then 15 # 100 else 15 # 100 |} ].

(** The optional [aiSummary] argument is never read and is left out. *)
Definition calculateDetailedConfidence (bookData : BookMetadata)
  (usesFallback translationApplied : bool)
  : ConfidenceMetrics * list SourceAttribution :=
  let sourceAttribution := scorerSourceAttribution bookData usesFallback in
  let confidenceMetrics :=
    {| overallScore :=
         Math_round (overallScoreRaw bookData usesFallback translationApplied);
       cm_sourceReliability := Math_round (sourceReliabilityScore bookData);
       cm_contentCoverage := Math_round (contentCoverageScore bookData);
       crossReferenceValidation := Math_round (crossValidationScore bookData);
       cm_factors :=
         {| f_sourcesUsed :=
              Z.of_nat
                (length (filter (fun s => positive (sa_weight s))
                                sourceAttribution));
            averageSourceRating :=
              Math_round
                (inject_Z
                   (fold_left (fun sum s => (sum + sa_reliability s)%Z)
                              sourceAttribution 0%Z) /
                 inject_Z (Z.of_nat (length sourceAttribution)));
            f_descriptionLength := descriptionLength bookData;
            reviewsCount := bm_ratingsCount bookData;
            f_dataQualityScore := Math_round (dataQualityScore bookData);
            f_aiProcessingScore :=
              Math_round (aiProcessingScore usesFallback translationApplied);
            f_translationPenalty := translationPenalty translationApplied |};
       detailedBreakdown :=
         {| bd_dataQuality := Math_round (dataQualityScore bookData);
            bd_sourceReliability := Math_round (sourceReliabilityScore bookData);
            bd_contentCoverage := Math_round (contentCoverageScore bookData);
            bd_aiProcessing :=
              Math_round (aiProcessingScore usesFallback translationApplied);
            bd_crossValidation := Math_round (crossValidationScore bookData) |};
       cm_sourceAttribution := sourceAttribution |} in
  (confidenceMetrics, sourceAttribution).

End Scorer.

(** ** [calculateDetailedConfidence] with the arithmetic of doubles *)

(** [Scorer] computes with exact rationals: it is the function up to the
    rounding of each product, quotient and sum. [Scorer64] is the function as
    JavaScript computes it: the same tests on the same integers, and every
    arithmetic operation the one of IEEE-754 binary64, rounded to the nearest
    double with ties to even. *)
Module Scorer64.

(** JavaScript numbers are IEEE-754 doubles. *)
Definition float : Type := spec_float.

Definition prec : Z := 53.
Definition emax : Z := 1024.

(** An integer as a double: the nearest one. *)
Definition ofZ (n : Z) : float := binary_normalize prec emax n 0 false.

Definition add : float -> float -> float := SFadd prec emax.
Definition sub : float -> float -> float := SFsub prec emax.
Definition mul : float -> float -> float := SFmul prec emax.
Definition div : float -> float -> float := SFdiv prec emax.

(** A decimal literal [n / d], [d] a power of ten: the nearest double. *)
Definition dec (n d : Z) : float := div (ofZ n) (ofZ d).

(** [Math.min] and [Math.max] of two numbers. *)
Definition Math_min (x y : float) : float :=
  match SFcompare x y with
  | Some Lt => x
  | Some Gt => y
  | Some Eq => match x with S754_zero true => x | _ => y end
  | None => S754_nan
  end.

Definition Math_max (x y : float) : float :=
  match SFcompare x y with
  | Some Gt => x
  | Some Lt => y
  | Some Eq => match x with S754_zero false => x | _ => y end
  | None => S754_nan
  end.

(** [Math.round]: the integer nearest to [x], a half going up; computed
    exactly. *)
Definition Math_round (x : float) : float :=
  match x with
  | S754_finite s m e =>
      if 0 <=? e then x
      else
        let n := (2 * cond_Zopp s (Zpos m) + 2 ^ (- e)) / 2 ^ (- e + 1) in
        if n =? 0 then S754_zero s else ofZ n
  | _ => x
  end.

Definition dataQualityScore (bookData : BookMetadata) : float :=
  let descriptionLength := Scorer.descriptionLength bookData in
  Math_min (ofZ 100)
    (add (add (add (add (add
       (if 100 <? descriptionLength then ofZ 30
        else mul (div (ofZ descriptionLength) (ofZ 100)) (ofZ 30))
       (if Scorer.hasCompleteMetadata bookData then ofZ 25 else ofZ 0))
       (if Scorer.pageCountAvailable bookData then ofZ 15 else ofZ 0))
       (if Scorer.categoriesAvailable bookData then ofZ 15 else ofZ 0))
       (if Scorer.positive (bm_averageRating bookData) then ofZ 10 else ofZ 0))
       (if 0 <? bm_ratingsCount bookData then ofZ 5 else ofZ 0)).

Definition publisherReliability (bookData : BookMetadata) : float :=
  if negb (jsstring_eqb (bm_publisher bookData) (u16 "Unknown Publisher"))
  then ofZ 80 else ofZ 40.

Definition authorCredibility (bookData : BookMetadata) : float :=
  match bm_authors bookData with
  | first :: _ =>
      if negb (jsstring_eqb first (u16 "Unknown Author"))
      then ofZ 70 else ofZ 30
  | [] => ofZ 70
  end.

Definition metadataCompleteness (bookData : BookMetadata) : float :=
  if Scorer.hasCompleteMetadata bookData then ofZ 90 else ofZ 50.

Definition sourceReliabilityScore (bookData : BookMetadata) : float :=
  Math_min (ofZ 100)
    (add (add (mul (publisherReliability bookData) (dec 3 10))
              (mul (authorCredibility bookData) (dec 3 10)))
         (mul (metadataCompleteness bookData) (dec 4 10))).

Definition topicCoverage (bookData : BookMetadata) : float :=
  Math_min (ofZ 100) (div (ofZ (Scorer.descriptionLength bookData)) (ofZ 10)).

Definition thematicDepth (bookData : BookMetadata) : float :=
  if Scorer.categoriesAvailable bookData then ofZ 80 else ofZ 40.

Definition conceptualClarity (bookData : BookMetadata) : float :=
  if 200 <? Scorer.descriptionLength bookData then ofZ 90 else ofZ 60.

Definition contentCoverageScore (bookData : BookMetadata) : float :=
  Math_min (ofZ 100)
    (add (add (mul (topicCoverage bookData) (dec 4 10))
              (mul (thematicDepth bookData) (dec 3 10)))
         (mul (conceptualClarity bookData) (dec 3 10))).

Definition aiProcessingScore (usesFallback translationApplied : bool) : float :=
  let languageConsistency := if usesFallback then ofZ 95 else ofZ 85 in
  let translationQuality := if translationApplied then ofZ 75 else ofZ 95 in
  let summarizationAccuracy := if usesFallback then ofZ 80 else ofZ 90 in
  let responseCoherence := if usesFallback then ofZ 85 else ofZ 95 in
  Math_min (ofZ 100)
    (add (add (add (mul languageConsistency (dec 3 10))
                   (mul translationQuality (dec 3 10)))
              (mul summarizationAccuracy (dec 2 10)))
         (mul responseCoherence (dec 2 10))).

Definition crossValidationScore (bookData : BookMetadata) : float :=
  let multiSourceVerification :=
    if Scorer.hasCompleteMetadata bookData then ofZ 80 else ofZ 50 in
  let factualConsistency := ofZ 85 in
  let contextualRelevance :=
    if Scorer.categoriesAvailable bookData then ofZ 90 else ofZ 70 in
  let logicalCoherence := ofZ 90 in
  Math_min (ofZ 100)
    (add (add (add (mul multiSourceVerification (dec 3 10))
                   (mul factualConsistency (dec 2 10)))
              (mul contextualRelevance (dec 3 10)))
         (mul logicalCoherence (dec 2 10))).

Definition translationPenalty (translationApplied : bool) : float :=
  if translationApplied then ofZ 10 else ofZ 0.

(** [overallScore] before it is rounded. *)
Definition overallScoreRaw (bookData : BookMetadata)
  (usesFallback translationApplied : bool) : float :=
  Math_max (ofZ 0)
    (Math_min (ofZ 100)
       (sub
          (add (add (add (add
             (mul (dataQualityScore bookData) (dec 25 100))
             (mul (sourceReliabilityScore bookData) (dec 25 100)))
             (mul (contentCoverageScore bookData) (dec 2 10)))
             (mul (aiProcessingScore usesFallback translationApplied)
                  (dec 15 100)))
             (mul (crossValidationScore bookData) (dec 15 100)))
          (translationPenalty translationApplied))).

Record ConfidenceFactors := {
  f_sourcesUsed : Z;
  averageSourceRating : float;
  f_descriptionLength : Z;
  reviewsCount : Z;
  f_dataQualityScore : float;
  f_aiProcessingScore : float;
  f_translationPenalty : float
}.

Record DetailedBreakdown := {
  bd_dataQuality : float;
  bd_sourceReliability : float;
  bd_contentCoverage : float;
  bd_aiProcessing : float;
  bd_crossValidation : float
}.

Record ConfidenceMetrics := {
  overallScore : float;
  cm_sourceReliability : float;
  cm_contentCoverage : float;
  crossReferenceValidation : float;
  cm_factors : ConfidenceFactors;
  detailedBreakdown : DetailedBreakdown;
  cm_sourceAttribution : list SourceAttribution
}.

(** The optional [aiSummary] argument is never read and is left out. The
    attribution list holds no computed number and is the one of [Scorer]. *)
Definition calculateDetailedConfidence (bookData : BookMetadata)
  (usesFallback translationApplied : bool)
  : ConfidenceMetrics * list SourceAttribution :=
  let sourceAttribution :=
    Scorer.scorerSourceAttribution bookData usesFallback in
  let confidenceMetrics :=
    {| overallScore :=
         Math_round (overallScoreRaw bookData usesFallback translationApplied);
       cm_sourceReliability := Math_round (sourceReliabilityScore bookData);
       cm_contentCoverage := Math_round (contentCoverageScore bookData);
       crossReferenceValidation := Math_round (crossValidationScore bookData);
       cm_factors :=
         {| f_sourcesUsed :=
              Z.of_nat
                (length (List.filter (fun s => Scorer.positive (sa_weight s))
                                     sourceAttribution));
            averageSourceRating :=
              Math_round
                (div
                   (fold_left (fun sum s => add sum (ofZ (sa_reliability s)))
                              sourceAttribution (ofZ 0))
                   (ofZ (Z.of_nat (length sourceAttribution))));
            f_descriptionLength := Scorer.descriptionLength bookData;
            reviewsCount := bm_ratingsCount bookData;
            f_dataQualityScore := Math_round (dataQualityScore bookData);
            f_aiProcessingScore :=
              Math_round (aiProcessingScore usesFallback translationApplied);
            f_translationPenalty := translationPenalty translationApplied |};
       detailedBreakdown :=
         {| bd_dataQuality := Math_round (dataQualityScore bookData);
            bd_sourceReliability := Math_round (sourceReliabilityScore bookData);
            bd_contentCoverage := Math_round (contentCoverageScore bookData);
            bd_aiProcessing :=
              Math_round (aiProcessingScore usesFallback translationApplied);
            bd_crossValidation := Math_round (crossValidationScore bookData) |};
       cm_sourceAttribution := sourceAttribution |} in
  (confidenceMetrics, sourceAttribution).

End Scorer64.

(** ** [calculateConfidenceMetrics] of [book.service.ts] *)

(** [BookSummary] of [book.interface.ts]. *)
Record BookSummary := {
  bs_short : jsstring;
  bs_detailed : jsstring;
  bs_language : jsstring;
  bs_generatedAt : Z
}.

(** The wrapper around the scorer; the scorer throws nothing, so the [catch]
    block is never entered. *)
Definition calculateConfidenceMetrics (bookData : BookMetadata)
  (summaries : BookSummary) (aiSummary : option AIBookSummary)
  : Scorer.ConfidenceMetrics :=
  let usesFallback :=
    match aiSummary with
    | None => true
    | Some a =>
        match processingMethod a with
        | fallback_template => true
        | openai_api => false
        end
    end in
  let translationApplied :=
    negb (jsstring_eqb (bm_language bookData) (bs_language summaries)) in
  fst (Scorer.calculateDetailedConfidence bookData usesFallback
         translationApplied).

(** ** The mock summary of [openai.service.ts]: confidence and reasons *)

Definition calculateMockConfidence (request : SummaryRequest) : Z :=
  let confidence := 50 in
  let confidence :=
    if truthy (description request) && (200 <? len (description request))
    then confidence + 20
    else if truthy (description request) && (100 <? len (description request))
    then confidence + 10
    else confidence in
  let confidence :=
    if (0 <? length (authors request))%nat &&
       negb (jsstring_eqb (hd [] (authors request)) (u16 "Unknown Author"))
    then confidence + 10 else confidence in
  let confidence :=
    if truthy (publisher request) &&
       negb (jsstring_eqb (publisher request) (u16 "Unknown Publisher"))
    then confidence + 10 else confidence in
  let confidence :=
    if 0 <? pageCount request then confidence + 5 else confidence in
  let confidence :=
    if (0 <? length (categories request))%nat &&
       negb (jsstring_eqb (hd [] (categories request)) (u16 "Uncategorized"))
    then confidence + 5 else confidence in
  Z.min 95 confidence.

(** [factors.slice(0, 5)] of the reasons collected in order. *)
Definition generateMockReasoningFactors (request : SummaryRequest)
  : list jsstring :=
  let factors := [] in
  let factors :=
    if truthy (description request) && (200 <? len (description request))
    then factors ++ [u16 "Comprehensive book description provides detailed content analysis"]
    else if truthy (description request) && (50 <? len (description request))
    then factors ++ [u16 "Book description available for content extraction"]
    else factors ++ [u16 "Limited description affects content analysis depth"] in
  let factors :=
    factors ++ [u16 "Google Books API provides reliable metadata"] in
  let factors :=
    if 300 <? pageCount request
    then factors ++ [u16 "Substantial page count indicates comprehensive coverage"]
    else if 0 <? pageCount request
    then factors ++ [u16 "Page count information available for scope assessment"]
    else factors in
  let factors :=
    if (1 <? length (categories request))%nat
    then factors ++ [u16 "Multiple categories provide context for analysis"]
    else factors in
  let factors :=
    factors ++ [u16 "SmartLibro AI analysis algorithms applied"] in
  firstn 5 factors.

(** ** ISBN validation ([book-summary.component.ts]) *)

Module Isbn.

(** A JavaScript number that may be [NaN] ([None]). *)
Definition nanAdd (a b : option Z) : option Z :=
  match a with
  | None => None
  | Some x => match b with Some y => Some (x + y) | None => None end
  end.

Definition nanMul (a b : option Z) : option Z :=
  match a with
  | None => None
  | Some x => match b with Some y => Some (x * y) | None => None end
  end.

(** [parseInt(isbn[i])] for one code unit, or for [undefined] past the end:
    the value of a decimal digit, [NaN] for anything else. *)
Definition parseInt1 (c : option N) : option Z :=
  match c with
  | Some d => if isDigit d then Some (Z.of_N d - 48) else None
  | None => None
  end.

(** [\s] of a JavaScript regular expression, on code units. *)
Definition isWhiteSpace (c : N) : bool :=
  ((9 <=? c) && (c <=? 13) || (c =? 32) || (c =? 160) || (c =? 5760) ||
   (8192 <=? c) && (c <=? 8202) || (c =? 8232) || (c =? 8233) ||
   (c =? 8239) || (c =? 8287) || (c =? 12288) || (c =? 65279))%N.

(** [/^[\dX]{10}$/.test(isbn)] *)
Definition test10 (isbn : jsstring) : bool :=
  (length isbn =? 10)%nat &&
  forallb (fun c => isDigit c || (c =? 88)%N) isbn.

(** [/^\d{13}$/.test(isbn)] *)
Definition test13 (isbn : jsstring) : bool :=
  (length isbn =? 13)%nat && forallb isDigit isbn.

Definition validateISBN10 (isbn : jsstring) : bool :=
  if negb (test10 isbn) then false
  else
    let sum :=
      fold_left
        (fun sum i =>
           nanAdd sum
             (nanMul (Some (10 - Z.of_nat i)) (parseInt1 (isbn !! i))))
        (seq 0 9) (Some 0) in
    let check :=
      if match isbn !! 9%nat with Some c => (c =? 88)%N | None => false end
      then Some 10
      else parseInt1 (isbn !! 9%nat) in
    match nanAdd sum check with
    | Some total => Z.rem total 11 =? 0
    | None => false
    end.

Definition validateISBN13 (isbn : jsstring) : bool :=
  if negb (test13 isbn) then false
  else
    let sum :=
      fold_left
        (fun sum i =>
           nanAdd sum
             (nanMul (parseInt1 (isbn !! i))
                     (Some (if (Z.rem (Z.of_nat i) 2 =? 0) then 1 else 3))))
        (seq 0 12) (Some 0) in
    let checkDigit := parseInt1 (isbn !! 12%nat) in
    let calculatedCheck :=
      match sum with
      | Some total => Some (Z.rem (10 - Z.rem total 10) 10)
      | None => None
      end in
    match checkDigit, calculatedCheck with
    | Some a, Some b => a =? b
    | _, _ => false
    end.

(** [isbn.replace(/[-\s]/g, '')] *)
Definition cleanIsbn (isbn : jsstring) : jsstring :=
  List.filter (fun c => negb ((c =? 45)%N || isWhiteSpace c)) isbn.

(** [isbnValidator]: [true] for the error object [{ invalidIsbn: true }],
    [false] for [null]. The control's value may be missing. *)
Definition isbnValidator (controlValue : option jsstring) : bool :=
  match controlValue with
  | None => false
  | Some raw =>
      let value := cleanIsbn raw in
      if negb (truthy value) then false
      else if (len value =? 10) && negb (validateISBN10 value) then true
      else if (len value =? 13) && negb (validateISBN13 value) then true
      else if negb (len value =? 10) && negb (len value =? 13) then true
      else false
  end.

(** [s.slice(a, b)] and [s.slice(a)] for indices that are not negative. *)
Definition slice (a b : nat) (s : jsstring) : jsstring :=
  firstn (b - a) (skipn a s).

Definition sliceFrom (a : nat) (s : jsstring) : jsstring := skipn a s.

Definition formatISBN (isbn : jsstring) : jsstring :=
  let cleanISBN := cleanIsbn isbn in
  if len cleanISBN =? 10 then
    slice 0 1 cleanISBN ++ u16 "-" ++ slice 1 5 cleanISBN ++ u16 "-" ++
    slice 5 9 cleanISBN ++ u16 "-" ++ sliceFrom 9 cleanISBN
  else if len cleanISBN =? 13 then
    slice 0 3 cleanISBN ++ u16 "-" ++ slice 3 4 cleanISBN ++ u16 "-" ++
    slice 4 6 cleanISBN ++ u16 "-" ++ slice 6 12 cleanISBN ++ u16 "-" ++
    sliceFrom 12 cleanISBN
  else isbn.

(** The code unit of a decimal digit. *)
Definition digitChar (d : Z) : N := Z.to_N (d + 48).

End Isbn.

(** ** The client of the Cloud Function ([cloud-function.service.ts]) *)

Module CloudClient.

(** [CloudFunctionResponse] of the interfaces. *)
Record CloudFunctionResponse := {
  cf_success : bool;
  cf_data : option AIBookSummary;
  cf_error : option jsstring
}.

(** What the [catch] block looks at in the value it caught: [status],
    [error.status], [message] and whether it is an [Error]. *)
Record Caught := {
  c_status : option Z;
  c_errorStatus : option Z;
  c_message : option jsstring;
  c_isError : bool
}.

(** [new Error(message)] *)
Definition newError (message : jsstring) : Caught :=
  {| c_status := None; c_errorStatus := None; c_message := Some message;
     c_isError := true |}.

(** What one [http.post(...).toPromise()] does: it resolves with the body
    (or with nothing), or it rejects. *)
Inductive PostOutcome :=
  | Answered (response : option CloudFunctionResponse)
  | PostFailed (error : Caught).

(** The network: what the post of each attempt does and how long it takes. *)
Record Http := {
  post : nat -> PostOutcome;
  duration : nat -> Z
}.

(** The clock and the service's [lastRequestTime]. Time passes only while
    the client sleeps or waits for the answer. *)
Record ClientState := { clock : Z; lastRequestTime : Z }.

Inductive ClientEvent :=
  | Wait (ms : Z)
  | Post (attempt : nat).

Inductive ClientResult :=
  | Data (data : AIBookSummary)
  | Thrown (message : jsstring)
  | OutOfFuel.

Definition MIN_REQUEST_INTERVAL : Z := 500.

(** [await new Promise(resolve => setTimeout(resolve, ms))] *)
Definition sleep (ms : Z) (st : ClientState) : ClientState :=
  {| clock := clock st + Z.max 0 ms; lastRequestTime := lastRequestTime st |}.

(** The two throttling blocks: wait for what is left of the interval. *)
Definition throttle (st : ClientState) : ClientState * list ClientEvent :=
  let now := clock st in
  let timeSinceLastRequest := now - lastRequestTime st in
  if timeSinceLastRequest <? MIN_REQUEST_INTERVAL then
    let waitTime := MIN_REQUEST_INTERVAL - timeSinceLastRequest in
    (sleep waitTime st, [Wait waitTime])
  else (st, []).

Definition touch (st : ClientState) : ClientState :=
  {| clock := clock st; lastRequestTime := clock st |}.

Definition statusEquals (code : Z) (s : option Z) : bool :=
  match s with
  | Some v => v =? code
  | None => false
  end.

Definition messageHas (p : string) (error : Caught) : bool :=
  match c_message error with
  | Some m => includes (u16 p) m
  | None => false
  end.

(** The [isRateLimit] of the client's [catch] block. *)
Definition isRateLimit (error : Caught) : bool :=
  statusEquals 429 (c_status error) || statusEquals 429 (c_errorStatus error) ||
  messageHas "429" error || messageHas "rate limit" error ||
  messageHas "Too many requests" error.

(** The [try] block of one attempt: the data, or the value thrown. *)
Definition attemptOnce (http : Http) (attempt : nat) (st : ClientState)
  : (AIBookSummary + Caught) * ClientState * list ClientEvent :=
  let (st1, waited) := throttle st in
  let st2 := sleep (duration http attempt) st1 in
  match post http attempt with
  | PostFailed error => (inr error, st2, waited ++ [Post attempt])
  | Answered response =>
      let st3 := touch st2 in
      match response with
      | None =>
          (inr (newError (u16 "No response from cloud function")), st3,
           waited ++ [Post attempt])
      | Some r =>
          match cf_data r with
          | Some data =>
              if cf_success r then (inl data, st3, waited ++ [Post attempt])
              else
                (inr (newError
                        (orElse (orEmpty (cf_error r))
                           (u16 "Failed to generate summary via cloud function"))),
                 st3, waited ++ [Post attempt])
          | None =>
              (inr (newError
                      (orElse (orEmpty (cf_error r))
                         (u16 "Failed to generate summary via cloud function"))),
               st3, waited ++ [Post attempt])
          end
      end
  end.

(** The error thrown to the caller once no attempt is left. *)
Definition finalError (error : Caught) : jsstring :=
  if isRateLimit error then
    u16 "Rate limit exceeded. Please wait a few minutes before trying again."
  else if c_isError error then
    u16 "Cloud function error: " ++
    match c_message error with
    | Some message => message
    | None => u16 "undefined"
    end
  else u16 "Unknown error occurred while calling cloud function".

(** [generateBookSummaryWithRetry]; [fuel] bounds the recursive calls. *)
Fixpoint generateBookSummaryWithRetry (http : Http) (fuel attempt : nat)
  (st : ClientState) : ClientResult * ClientState * list ClientEvent :=
  match fuel with
  | O => (OutOfFuel, st, [])
  | S fuel' =>
      let maxAttempts := 3%nat in
      let baseDelay := 1000 in
      let (st1, waited) := throttle st in
      let st2 := touch st1 in
      let '(outcome, st3, events) := attemptOnce http attempt st2 in
      match outcome with
      | inl data => (Data data, st3, waited ++ events)
      | inr error =>
          if isRateLimit error && (attempt <? maxAttempts - 1)%nat then
            let delay := baseDelay * 2 ^ Z.of_nat attempt in
            let st4 := sleep delay st3 in
            let '(result, st5, later) :=
              generateBookSummaryWithRetry http fuel' (S attempt) st4 in
            (result, st5, waited ++ events ++ Wait delay :: later)
          else (Thrown (finalError error), st3, waited ++ events)
      end
  end.

Definition generateBookSummary (http : Http) (st : ClientState)
  : ClientResult * ClientState * list ClientEvent :=
  generateBookSummaryWithRetry http 3 0 st.

Definition postsOf (events : list ClientEvent) : list nat :=
  omap (fun ev => match ev with Post k => Some k | Wait _ => None end) events.

Definition waitsOf (events : list ClientEvent) : list Z :=
  omap (fun ev => match ev with Wait ms => Some ms | Post _ => None end) events.

(** What the [try] block of attempt [k] yields; it does not depend on the
    clock. *)
Definition tryOutcome (http : Http) (k : nat) : AIBookSummary + Caught :=
  fst (fst (attemptOnce http k {| clock := 0; lastRequestTime := 0 |})).

(** Every attempt fails with a rate-limit signal. *)
Definition alwaysRateLimited (http : Http) : Prop :=
  forall k, (k < 3)%nat ->
    exists error, tryOutcome http k = inr error /\ isRateLimit error = true.

Definition totalWait (events : list ClientEvent) : Z :=
  foldr Z.add 0 (waitsOf events).

End CloudClient.

(** ** The list of recent summaries ([recent-activity.service.ts]) *)

Module RecentActivity.

Record ImageLinks := {
  thumbnail : option jsstring;
  smallThumbnail : option jsstring
}.

Record SummaryText := {
  overview : jsstring;
  keyPoints : list jsstring;
  electoralRelevance : jsstring
}.

Record RecentSummary := {
  rs_id : jsstring;
  rs_isbn : jsstring;
  rs_title : jsstring;
  rs_authors : list jsstring;
  rs_publishedDate : option jsstring;
  rs_imageLinks : option ImageLinks;
  rs_language : jsstring;
  rs_generatedAt : Z;
  rs_isSaved : bool;
  rs_summary : option SummaryText
}.

(** The item of [localStorage] under the service's key, as the list it
    encodes; [None] when there is no item. Writing and reading back a list
    is taken to give the same list, and writing to succeed. *)
Definition Storage : Type := option (list RecentSummary).

Definition MAX_ITEMS : nat := 5.

Definition getRecentSummaries (storage : Storage) : list RecentSummary :=
  match storage with
  | Some summaries => summaries
  | None => []
  end.

Definition saveToStorage (summaries : list RecentSummary) : Storage :=
  Some summaries.

(** [{ ...summary, id: this.generateId(), generatedAt: new Date() }] *)
Definition stamp (summary : RecentSummary) (id : jsstring) (now : Z)
  : RecentSummary :=
  {| rs_id := id;
     rs_isbn := rs_isbn summary;
     rs_title := rs_title summary;
     rs_authors := rs_authors summary;
     rs_publishedDate := rs_publishedDate summary;
     rs_imageLinks := rs_imageLinks summary;
     rs_language := rs_language summary;
     rs_generatedAt := now;
     rs_isSaved := rs_isSaved summary;
     rs_summary := rs_summary summary |}.

(** [id] and [now] are what [generateId()] and [new Date()] answer. *)
Definition addRecentSummary (summary : RecentSummary) (id : jsstring) (now : Z)
  (storage : Storage) : Storage :=
  let recentSummaries := getRecentSummaries storage in
  let newSummary := stamp summary id now in
  let filteredSummaries :=
    List.filter (fun s => negb (jsstring_eqb (rs_isbn s) (rs_isbn summary)))
                recentSummaries in
  let updatedSummaries := newSummary :: filteredSummaries in
  let trimmedSummaries := firstn MAX_ITEMS updatedSummaries in
  saveToStorage trimmedSummaries.

(** [{ ...summary, isSaved: true }] *)
Definition saved (summary : RecentSummary) : RecentSummary :=
  {| rs_id := rs_id summary;
     rs_isbn := rs_isbn summary;
     rs_title := rs_title summary;
     rs_authors := rs_authors summary;
     rs_publishedDate := rs_publishedDate summary;
     rs_imageLinks := rs_imageLinks summary;
     rs_language := rs_language summary;
     rs_generatedAt := rs_generatedAt summary;
     rs_isSaved := true;
     rs_summary := rs_summary summary |}.

Definition markAsSaved (isbn : jsstring) (storage : Storage) : Storage :=
  let summaries := getRecentSummaries storage in
  let updatedSummaries :=
    map (fun summary =>
           if jsstring_eqb (rs_isbn summary) isbn then saved summary
           else summary)
        summaries in
  saveToStorage updatedSummaries.

Definition removeSummary (id : jsstring) (storage : Storage) : Storage :=
  let summaries := getRecentSummaries storage in
  let filteredSummaries :=
    List.filter (fun summary => negb (jsstring_eqb (rs_id summary) id))
                summaries in
  saveToStorage filteredSummaries.

Definition clearAll (storage : Storage) : Storage := None.

Definition getSummaryByIsbn (isbn : jsstring) (storage : Storage)
  : option RecentSummary :=
  List.find (fun summary => jsstring_eqb (rs_isbn summary) isbn)
            (getRecentSummaries storage).

End RecentActivity.

(** ** The overall formula as the specification writes it *)

Definition clamp (lo hi x : Q) : Q := Qmax lo (Qmin hi x).

Definition spec_translationPenalty (translationApplied : bool) : Q :=
  if translationApplied then 10 else 0.

Definition spec_overall (dataQuality sourceReliability contentCoverage
  aiProcessing crossValidation : Q) (translationApplied : bool) : Q :=
  clamp 0 100
    ((1 # 4) * dataQuality + (1 # 4) * sourceReliability +
     (1 # 5) * contentCoverage + (3 # 20) * aiProcessing +
     (3 # 20) * crossValidation -
     spec_translationPenalty translationApplied)%Q.

(** The formula of the specification with the arithmetic of doubles: every
    product and every sum is rounded to the nearest double, in the order in
    which the formula is written. *)
Definition spec_overall64 (dataQuality sourceReliability contentCoverage
  aiProcessing crossValidation : Scorer64.float) (translationApplied : bool)
  : Scorer64.float :=
  let weighted :=
    Scorer64.add
      (Scorer64.add
         (Scorer64.add
            (Scorer64.add
               (Scorer64.mul (Scorer64.dec 25 100) dataQuality)
               (Scorer64.mul (Scorer64.dec 25 100) sourceReliability))
            (Scorer64.mul (Scorer64.dec 2 10) contentCoverage))
         (Scorer64.mul (Scorer64.dec 15 100) aiProcessing))
      (Scorer64.mul (Scorer64.dec 15 100) crossValidation) in
  let translationPenalty :=
    if translationApplied then Scorer64.ofZ 10 else Scorer64.ofZ 0 in
  Scorer64.Math_max (Scorer64.ofZ 0)
    (Scorer64.Math_min (Scorer64.ofZ 100)
       (Scorer64.sub weighted translationPenalty)).

(** ** Vocabulary of the statements *)

(** No pattern of a rule list contains a space: each is one word. *)
Definition singleWords (rules : list (string * string)) : bool :=
  forallb (fun rule => negb (includes (u16 " ") (u16 (fst rule)))) rules.

(** *** Whole-word, case-insensitive substitution as the specification
    describes it *)

(** The text cut into its words, which are the maximal runs of word
    characters, and the single units between them. *)
Fixpoint tokens (s : jsstring) : list jsstring :=
  match s with
  | [] => []
  | c :: s' =>
      if isWordChar c then
        match tokens s' with
        | (d :: run) :: rest =>
            if isWordChar d then (c :: d :: run) :: rest
            else [c] :: (d :: run) :: rest
        | rest => [c] :: rest
        end
      else [c] :: tokens s'
  end.

(** The ASCII letters of a text put in lower case. *)
Definition asciiToLowerCase (s : jsstring) : jsstring :=
  map (fun c => if isUpper c then (c + 32)%N else c) s.

(** Two texts are the same word when they differ in the case of ASCII
    letters only. *)
Definition sameWord (a b : jsstring) : bool :=
  jsstring_eqb (asciiToLowerCase a) (asciiToLowerCase b).

(** Every word of the text that is [word], in whatever case, becomes
    [replacement]; everything else stays. *)
Definition replaceWholeWords (word replacement text : jsstring) : jsstring :=
  concat
    (map (fun token => if sameWord word token then replacement else token)
         (tokens text)).

(** The rule list of [cleanMixedLanguageText] for a target language. *)
Definition wordRulesFor (targetLanguage : jsstring) : list (string * string) :=
  if jsstring_eqb targetLanguage (u16 "es") then wordRules_es
  else if jsstring_eqb targetLanguage (u16 "de") then wordRules_de
  else if jsstring_eqb targetLanguage (u16 "pt") then wordRules_pt
  else if jsstring_eqb targetLanguage (u16 "it") then wordRules_it
  else [].

(** The guard of the Cloud Function: the single-word rules of the target
    language, one after the other. *)
Definition spec_cloudGuard (targetLanguage text : jsstring) : jsstring :=
  fold_left
    (fun t rule => replaceWholeWords (u16 (fst rule)) (u16 (snd rule)) t)
    (wordRulesFor targetLanguage) text.

Section GuardSpecification.

Context {rt : Runtime} {re : RegExpEngine}.

Variable FORBIDDEN_ENGLISH_WORDS : list jsstring.
Variable LANGUAGE_REPLACEMENTS : list (jsstring * list (jsstring * jsstring)).
Variable LANGUAGE_PHRASE_PATTERNS : list (jsstring * list (jsstring * jsstring)).
Variable LANGUAGE_WORD_PATTERNS : list (jsstring * list (jsstring * jsstring)).

(** A phrase pattern is a regular expression with the flags [gi]: where it
    matches, its matches are replaced. *)
Definition spec_phraseRule (text : jsstring) (entry : jsstring * jsstring)
  : jsstring :=
  if regexTest (fst entry) text
  then regexReplace (fst entry) (snd entry) text
  else text.

(** A word pattern replaces the whole words that it names. *)
Definition spec_wordRule (text : jsstring) (entry : jsstring * jsstring)
  : jsstring :=
  replaceWholeWords (fst entry) (snd entry) text.

(** A forbidden word is replaced, as a whole word, by what the replacement
    table of the language gives for it in lower case, if it gives anything. *)
Definition spec_forbiddenRule (targetLanguage text word : jsstring)
  : jsstring :=
  match lookupKey (toLowerCase word)
          (tableFor LANGUAGE_REPLACEMENTS targetLanguage) with
  | Some replacement =>
      if truthy replacement then replaceWholeWords word replacement text
      else text
  | None => text
  end.

(** The guard of the client: every phrase pattern, then every word pattern,
    then the forbidden words, each list in its order. *)
Definition spec_guard (targetLanguage text : jsstring) : jsstring :=
  fold_left (spec_forbiddenRule targetLanguage) FORBIDDEN_ENGLISH_WORDS
    (fold_left spec_wordRule
       (tableFor LANGUAGE_WORD_PATTERNS targetLanguage)
       (fold_left spec_phraseRule
          (tableFor LANGUAGE_PHRASE_PATTERNS targetLanguage) text)).

(** The tables hold words for the target language: every word pattern and
    every forbidden word is a word of word characters, no forbidden word
    names in lower case a member that every object inherits, and no
    replacement holds a [$]. *)
Definition wordTables (targetLanguage : jsstring) : Prop :=
  Forall (fun entry => plainWord (fst entry) = true /\
                       plainReplacement (snd entry) = true)
         (tableFor LANGUAGE_WORD_PATTERNS targetLanguage) /\
  Forall (fun word => plainWord word = true /\
                      inheritedMember (toLowerCase word) = None)
         FORBIDDEN_ENGLISH_WORDS /\
  Forall (fun entry => plainReplacement (snd entry) = true)
         (tableFor LANGUAGE_REPLACEMENTS targetLanguage).

End GuardSpecification.

(** The AI-processing group of the Cloud Function's attribution record. *)
Definition cloudAiProcessing (request : SummaryRequest) (usesFallback : bool)
  : Scored AiProcessingFactors :=
  aiProcessing
    (ed_detailedConfidenceFactors
       (generateCloudFunctionSourceAttribution request usesFallback)).

Definition cloudLanguageConsistency (request : SummaryRequest)
  (usesFallback : bool) : Z :=
  languageConsistency (factors (cloudAiProcessing request usesFallback)).

Definition cloudTranslationApplied (request : SummaryRequest) : bool :=
  ed_translationApplied (generateCloudFunctionSourceAttribution request false).

(** The refusal of the hourly check. *)
Definition rateLimitRefusal : Reply :=
  Sent (respond 429
          (ErrorBody (Some false)
             (u16 "Rate limit exceeded. Please try again later.") None)).

Definition isRateLimitRefusal (r : Reply) : bool :=
  match r with
  | Sent response =>
      (status response =? 429) &&
      match body response with
      | ErrorBody (Some false) _ _ => true
      | _ => false
      end
  | NoResponse => false
  end.

(** The status of the response, if one is sent. *)
Definition statusOf (r : Reply) : option Z :=
  match r with
  | Sent response => Some (status response)
  | NoResponse => None
  end.

(** The summary a response carries, if any. *)
Definition summaryOf (r : Reply) : option AIBookSummary :=
  match r with
  | Sent response =>
      match body response with
      | DataBody data _ _ => Some data
      | ErrorBody _ _ _ => None
      end
  | NoResponse => None
  end.

(** The response is flagged as a fallback. *)
Definition isFallbackResponse (r : Reply) : bool :=
  match r with
  | Sent response =>
      match body response with
      | DataBody _ (Some true) _ => true
      | _ => false
      end
  | NoResponse => false
  end.

(** The key names none of the members that every object inherits. *)
Definition ownOrAbsent (key : jsstring) : Prop := inheritedMember key = None.

Definition sleepsOf (events : list Event) : list Z :=
  omap (fun ev => match ev with Sleep ms => Some ms | _ => None end) events.

Definition apiCallsOf (events : list Event) : list nat :=
  omap (fun ev => match ev with ApiCall k => Some k | _ => None end) events.

(** The request gets as far as the upstream call: both counters are under
    their caps, the body carries a title and an ISBN, the method is POST and
    the API key is configured. *)
Definition reachesUpstream (env : Env) (request : HttpRequest) (w : World)
  (summaryRequest : SummaryRequest) : Prop :=
  atCap (rateLimits w !! rateLimitDocId (getClientIp request) (now env))
        MAX_REQUESTS_PER_HOUR = false /\
  atCap (globalUsage w !! monthKey env) MAX_GLOBAL_REQUESTS_PER_MONTH = false /\
  validBody (req_body request) = Some summaryRequest /\
  req_method request = u16 "POST" /\
  truthy (apiKey env) = true.

(** Every attempt of the upstream call is rejected with a rate-limit signal,
    so that the three attempts are used up. *)
Definition retriesExhaustedByRateLimit (create : nat -> CallOutcome) : Prop :=
  forall k, (k < 3)%nat ->
    exists e, create k = Rejected e /\ isRateLimitForRetry e = true.

(** A request of the client [ip] at a time in the clock hour that starts at
    [h]. *)
Definition inWindow (ip : jsstring) (h : Z) (er : Env * HttpRequest) : Prop :=
  getClientIp (snd er) = ip /\ hourStartOf (now (fst er)) = h.

(** The state of one client's hourly document after [c] requests were let
    through in the window that starts at [h]. *)
Definition counted (w : World) (key : jsstring) (h : Z) (c : nat) : Prop :=
  match c with
  | O => rateLimits w !! key = None
  | S _ => rateLimits w !! key = Some {| count := Z.of_nat c; timestamp := h |}
  end.

Section Serving.

Context {rt : Runtime}.

(** Requests served one after the other. *)
Fixpoint serve (requests : list (Env * HttpRequest)) (w : World)
  : list Reply * World :=
  match requests with
  | [] => ([], w)
  | (env, request) :: rest =>
      let (response, w1) := generateBookSummary env request w in
      let (responses, w2) := serve rest w1 in
      (response :: responses, w2)
  end.

(** The attempt fails with [e]: the invoker throws [e], or the completion has
    no content, or its content does not parse and [e] is the syntax error. *)
Definition upstreamFailsWith (env : Env) (e : JsError) : Prop :=
  match fst (callOpenAIWithRetry (create env) 3) with
  | Threw thrown => e = thrown
  | Returned content =>
      if truthy (orEmpty content) then
        match JSON_parse (orEmpty content) with
        | SyntaxError message => e = mkError message
        | Parsed _ => False
        end
      else e = mkError (u16 "No response from OpenAI")
  | LoopFellThrough =>
      e = mkError (u16 "Cannot read properties of undefined (reading 'choices')")
  end.

End Serving.

(** ** More vocabulary for the Cloud Function *)

Section ServingEvents.

Context {rt : Runtime}.

(** What one request adds to the trace. *)
Definition eventsOf (env : Env) (request : HttpRequest) (w : World)
  : list Event :=
  drop (length (trace w)) (trace (snd (generateBookSummary env request w))).

End ServingEvents.

Definition totalSleep (events : list Event) : Z :=
  foldr Z.add 0 (sleepsOf events).

(** The request with another target language. *)
Definition withTargetLanguage (request : SummaryRequest) (code : jsstring)
  : SummaryRequest :=
  {| title := title request;
     authors := authors request;
     isbn := isbn request;
     description := description request;
     categories := categories request;
     publisher := publisher request;
     publishedDate := publishedDate request;
     pageCount := pageCount request;
     language := language request;
     targetLanguage := code |}.

(** The six language codes that have templates. *)
Definition templateLanguages : list jsstring :=
  [u16 "es"; u16 "en"; u16 "fr"; u16 "de"; u16 "pt"; u16 "it"].

(** [w] occurs in [s] when case is ignored. *)
Definition mentionsWord (w s : jsstring) : bool :=
  includes (map canonicalize w) (map canonicalize s).

(** The book with another description. *)
Definition withDescription (bookData : BookMetadata) (text : jsstring)
  : BookMetadata :=
  {| bm_isbn := bm_isbn bookData;
     bm_title := bm_title bookData;
     bm_authors := bm_authors bookData;
     bm_publisher := bm_publisher bookData;
     bm_publishedDate := bm_publishedDate bookData;
     bm_description := text;
     bm_pageCount := bm_pageCount bookData;
     bm_categories := bm_categories bookData;
     bm_averageRating := bm_averageRating bookData;
     bm_ratingsCount := bm_ratingsCount bookData;
     bm_language := bm_language bookData |}.

(** The summaries in another language. *)
Definition withLanguage (summaries : BookSummary) (code : jsstring)
  : BookSummary :=
  {| bs_short := bs_short summaries;
     bs_detailed := bs_detailed summaries;
     bs_language := code;
     bs_generatedAt := bs_generatedAt summaries |}.

(** ** Inputs for the examples *)

Definition exampleParsed : ParsedResponse :=
  {| pr_shortSummary := Some (u16 "Nexus recorre la historia de las redes de información.");
     pr_detailedSummary := Some (u16 "Harari examina cómo las redes de información han dado forma a las sociedades humanas.");
     pr_confidenceScore := Some (Num 85);
     pr_reasoningFactors := Some [u16 "Descripción disponible"];
     pr_sourcesUsed := None |}.

(** A string literal of JSON. *)
Definition quoted (s : string) : jsstring := dquote ++ u16 s ++ dquote.

(** The JSON text of [exampleParsed]. *)
Definition exampleContent : jsstring :=
  u16 "{" ++ quoted "shortSummary" ++ u16 ": " ++
  quoted "Nexus recorre la historia de las redes de información." ++
  u16 ", " ++ quoted "detailedSummary" ++ u16 ": " ++
  quoted "Harari examina cómo las redes de información han dado forma a las sociedades humanas." ++
  u16 ", " ++ quoted "confidenceScore" ++ u16 ": 85, " ++
  quoted "reasoningFactors" ++ u16 ": [" ++
  quoted "Descripción disponible" ++ u16 "]}".

(** A runtime for the examples: [toLowerCase] as it is on ASCII text, and
    [JSON.parse] as it is on [exampleContent]; the examples hand it no other
    text, and any other text counts as cut short. No example prints a page
    count beyond 2^53. *)
Definition exampleRuntime : Runtime :=
  {| toLowerCase := asciiToLowerCase;
     JSON_parse := fun s =>
       if jsstring_eqb s exampleContent then Parsed exampleParsed
       else SyntaxError (u16 "Unexpected end of JSON input");
     largeNumberToString := fun _ => u16 "1e+21" |}.

(** An engine for the examples: it reads a source of the shape
    [\bphrase\b], where the phrase is made of letters and single spaces, as
    JavaScript does; the examples hand it no other source. *)
Definition phraseOf (source : jsstring) : option jsstring :=
  let inner := rev (skipn 2 (rev (skipn 2 source))) in
  if jsstring_eqb source (u16 "\b" ++ inner ++ u16 "\b") then Some inner
  else None.

Definition exampleEngine : RegExpEngine :=
  {| regexTest := fun source text =>
       match phraseOf source with
       | Some phrase => testWord phrase text
       | None => false
       end;
     regexReplace := fun source replacement text =>
       match phraseOf source with
       | Some phrase => replaceWord phrase replacement text
       | None => text
       end |}.

(** Tables of the shape [validateAndCleanSummaryLanguage] is written for. *)
Definition exampleForbiddenWords : list jsstring := [u16 "the"; u16 "And"].

Definition exampleReplacements
  : list (jsstring * list (jsstring * jsstring)) :=
  [(u16 "es", [(u16 "the", u16 "el"); (u16 "and", u16 "y")])].

Definition examplePhrasePatterns
  : list (jsstring * list (jsstring * jsstring)) :=
  [(u16 "es", [(u16 "\bthis book\b", u16 "este libro")])].

Definition exampleWordPatterns
  : list (jsstring * list (jsstring * jsstring)) :=
  [(u16 "es", [(u16 "book", u16 "libro"); (u16 "history", u16 "historia")])].

(** The request of the specification's scenario. *)
Definition nexus : SummaryRequest :=
  {| title := u16 "Nexus";
     authors := [u16 "Yuval Noah Harari"];
     isbn := u16 "9780525520024";
     description := u16 "A brief history of information networks from the Stone Age to AI.";
     categories := [u16 "History"];
     publisher := u16 "Random House";
     publishedDate := u16 "2024-09-10";
     pageCount := 528;
     language := u16 "en";
     targetLanguage := u16 "es" |}.

Definition nexusRequest : HttpRequest :=
  {| req_method := u16 "POST";
     req_forwardedFor := Some (u16 "203.0.113.7, 10.0.0.1");
     req_remoteAddress := None;
     req_body := Some nexus |}.

(** The summary is built a second and a half after the hourly check. *)
Definition envAt (t : Z) (create : nat -> CallOutcome) : Env :=
  {| now := t;
     fullYear := 2024;
     monthIndex := 9;
     summaryDate := t + 1500;
     apiKey := u16 "sk-test";
     create := create |}.

Definition exampleEnv (create : nat -> CallOutcome) : Env :=
  envAt 1730000000000 create.

Definition rateLimitError : JsError :=
  {| err_status := Some 429; err_message := Some (u16 "Rate limit reached for requests") |}.

(** Requests of one client, [n] of them, one millisecond apart from [t] on. *)
Fixpoint burst (create : nat -> CallOutcome) (t : Z) (n : nat)
  : list (Env * HttpRequest) :=
  match n with
  | O => []
  | S n' =>
      (envAt t create, nexusRequest) :: burst create (t + 1) n'
  end.

(** The scenario's book as the client holds it. *)
Definition nexusBook : BookMetadata :=
  {| bm_isbn := u16 "9780525520024";
     bm_title := u16 "Nexus";
     bm_authors := [u16 "Yuval Noah Harari"];
     bm_publisher := u16 "Random House";
     bm_publishedDate := u16 "2024-09-10";
     bm_description := u16 "A brief history of information networks from the Stone Age to AI.";
     bm_pageCount := 528;
     bm_categories := [u16 "History"];
     bm_averageRating := 9 # 2;
     bm_ratingsCount := 120;
     bm_language := u16 "en" |}.

(** A summary that mixes languages. *)
Definition mixedSummary : AIBookSummary :=
  setSummaries
    (aiSummaryOf (exampleEnv (fun _ => Resolved (Some exampleContent)))
       nexus exampleParsed)
    (u16 "This Book and the History of a notebook")
    (u16 "The history of information networks.").

(** A sparse record: a long description and a category, but no date, no page
    count, no rating, and the placeholders for publisher and author. *)
Definition sparseBook : BookMetadata :=
  {| bm_isbn := u16 "9780000000002";
     bm_title := u16 "Field Notes";
     bm_authors := [u16 "Unknown Author"];
     bm_publisher := u16 "Unknown Publisher";
     bm_publishedDate := [];
     bm_description := repeat 120%N 700;
     bm_pageCount := 0;
     bm_categories := [u16 "History"];
     bm_averageRating := 0;
     bm_ratingsCount := 0;
     bm_language := u16 "en" |}.

(** A rejection that mentions 429 in its message only. *)
Definition messageOnly429 : JsError :=
  {| err_status := None;
     err_message := Some (u16 "Request failed with status code 429") |}.

(** The upstream answer to an exhausted quota: HTTP 429 with this message. *)
Definition quotaError429 : JsError :=
  {| err_status := Some 429;
     err_message := Some (u16 "You exceeded your current quota, please check your plan and billing details.") |}.

(** A quota error that carries no rate-limit signal. *)
Definition quotaErrorPlain : JsError :=
  {| err_status := Some 403;
     err_message := Some (u16 "insufficient_quota") |}.

(** A request that reaches the function without a proxy: the forwarding
    header is empty and the connection gives the address. *)
Definition directRequest : HttpRequest :=
  {| req_method := u16 "POST";
     req_forwardedFor := Some [];
     req_remoteAddress := Some (u16 "198.51.100.23");
     req_body := Some nexus |}.

(** A request without a body, and a store whose monthly counter stands at
    the cap. *)
Definition emptyRequest : HttpRequest :=
  {| req_method := u16 "GET";
     req_forwardedFor := None;
     req_remoteAddress := None;
     req_body := None |}.

Definition monthlyCapWorld : World :=
  {| rateLimits := ∅;
     globalUsage := {[ u16 "2024-10" := {| count := 1000; timestamp := 0 |} ]};
     trace := [] |}.

(** A network on which every post is rejected with status 429. *)
Definition busyNetwork : CloudClient.Http :=
  {| CloudClient.post := fun _ =>
       CloudClient.PostFailed
         {| CloudClient.c_status := Some 429;
            CloudClient.c_errorStatus := None;
            CloudClient.c_message := None;
            CloudClient.c_isError := false |};
     CloudClient.duration := fun _ => 120 |}.

(** * Properties *)

(** ** Strings *)

Lemma len_nonneg (s : jsstring) : 0 <= len s.
Proof. unfold len. lia. Qed.

Lemma len_app (a b : jsstring) : len (a ++ b) = len a + len b.
Proof. unfold len. rewrite length_app. lia. Qed.

Lemma len_substring0_le (n : Z) (s : jsstring) : len (substring0 n s) <= len s.
Proof. unfold len, substring0. rewrite length_take. lia. Qed.

Lemma len_substring0_bound (n : Z) (s : jsstring) :
  0 <= n -> len (substring0 n s) <= n.
Proof. intros Hn. unfold len, substring0. rewrite length_take. lia. Qed.

Lemma substring0_nonpos (n : Z) (s : jsstring) : n <= 0 -> substring0 n s = [].
Proof.
  intros Hn. unfold substring0.
  replace (Z.to_nat n) with O by lia. reflexivity.
Qed.

Lemma truthy_false (s : jsstring) : truthy s = false -> s = [].
Proof. destruct s; [reflexivity | discriminate]. Qed.

Lemma truthy_len (s : jsstring) : truthy s = true -> 0 < len s.
Proof. destruct s; [discriminate | unfold len; simpl; lia]. Qed.

Lemma jsstring_eqb_eq (a b : jsstring) : jsstring_eqb a b = true <-> a = b.
Proof.
  revert b. induction a as [|x a IH]; intros [|y b]; simpl;
    try (split; [discriminate | discriminate]); [tauto |].
  rewrite andb_true_iff, N.eqb_eq, IH.
  split; [intros [-> ->]; reflexivity | intros [= -> ->]; auto].
Qed.

Lemma jsstring_eqb_refl (a : jsstring) : jsstring_eqb a a = true.
Proof. apply jsstring_eqb_eq. reflexivity. Qed.

Lemma jsstring_eqb_neq (a b : jsstring) : jsstring_eqb a b = false <-> a <> b.
Proof.
  rewrite <- jsstring_eqb_eq. destruct (jsstring_eqb a b); split;
    congruence.
Qed.

(** ** CharacterLimitTruncator *)

Lemma ensureCharacterLimit_unchanged (s : jsstring) (L : Z) :
  len s <= L -> ensureCharacterLimit s L = s.
Proof.
  intros Hle. unfold ensureCharacterLimit.
  destruct s as [|c s]; [reflexivity |]. cbn [truthy negb].
  apply Z.leb_le in Hle. rewrite Hle. reflexivity.
Qed.

Lemma ensureCharacterLimit_bound (s : jsstring) (L : Z) :
  3 <= L -> len (ensureCharacterLimit s L) <= L.
Proof.
  intros HL. unfold ensureCharacterLimit.
  destruct (truthy s); cbn [negb]; [| unfold len; simpl; lia].
  destruct (Z.leb_spec (len s) L) as [Hle | Hgt]; [exact Hle |].
  pose proof (len_substring0_bound (L - 3) s ltac:(lia)) as Htrim.
  destruct (4 * L <? 5 * lastIndexOf space (substring0 (L - 3) s));
    rewrite len_app; change (len (u16 "...")) with 3.
  - pose proof (len_substring0_le (lastIndexOf space (substring0 (L - 3) s))
                  (substring0 (L - 3) s)).
    lia.
  - lia.
Qed.

Lemma ensureCharacterLimit_small_limit (s : jsstring) (L : Z) :
  L < 3 -> L < len s -> truthy s = true ->
  ensureCharacterLimit s L = u16 "...".
Proof.
  intros HL Hlen Hs. unfold ensureCharacterLimit. rewrite Hs. cbn [negb].
  destruct (Z.leb_spec (len s) L) as [Hle | _]; [lia |].
  rewrite (substring0_nonpos (L - 3) s) by lia.
  change (lastIndexOf space []) with (-1).
  destruct (4 * L <? 5 * -1); reflexivity.
Qed.

Lemma ensureCharacterLimit_idempotent (s : jsstring) (L : Z) :
  ensureCharacterLimit (ensureCharacterLimit s L) L = ensureCharacterLimit s L.
Proof.
  destruct (Z.le_gt_cases (len s) L) as [Hle | Hgt].
  { rewrite (ensureCharacterLimit_unchanged s L Hle).
    apply ensureCharacterLimit_unchanged, Hle. }
  destruct (Z.le_gt_cases 3 L) as [H3 | H3].
  { apply ensureCharacterLimit_unchanged, ensureCharacterLimit_bound, H3. }
  destruct (truthy s) eqn:Hs.
  - rewrite (ensureCharacterLimit_small_limit s L) by (auto; lia).
    apply ensureCharacterLimit_small_limit; [lia | | reflexivity].
    change (len (u16 "...")) with 3. lia.
  - apply truthy_false in Hs. subst s. reflexivity.
Qed.

(** C8 (as amended). [ensureCharacterLimit] is idempotent for every string and
    every limit, it returns its input unchanged when the input is no longer
    than the limit, and its output is no longer than the limit once the limit
    is at least 3; under a smaller limit a longer, non-empty input becomes the
    three characters of the ellipsis. *)
Theorem truncate_idempotent_and_bounded (s : jsstring) (L : Z) :
  ensureCharacterLimit (ensureCharacterLimit s L) L = ensureCharacterLimit s L /\
  (len s <= L -> ensureCharacterLimit s L = s) /\
  (3 <= L -> len (ensureCharacterLimit s L) <= L) /\
  (L < 3 -> L < len s -> truthy s = true ->
   ensureCharacterLimit s L = u16 "...").
Proof.
  split; [apply ensureCharacterLimit_idempotent |].
  split; [apply ensureCharacterLimit_unchanged |].
  split; [apply ensureCharacterLimit_bound |].
  apply ensureCharacterLimit_small_limit.
Qed.

(** The amended C8 at the two limits the pipeline uses and at a tiny one. *)
Lemma truncate_idempotent_and_bounded_witness :
  ensureCharacterLimit
    (ensureCharacterLimit (u16 "hello brave new world") 20) 20 =
  ensureCharacterLimit (u16 "hello brave new world") 20 /\
  ensureCharacterLimit (u16 "hello") 20 = u16 "hello" /\
  len (ensureCharacterLimit (u16 "hello brave new world") 20) <= 20 /\
  ensureCharacterLimit (u16 "abcd") 2 = u16 "...".
Proof.
  destruct (truncate_idempotent_and_bounded (u16 "hello brave new world") 20)
    as (Hidem & _ & Hbound & _).
  destruct (truncate_idempotent_and_bounded (u16 "hello") 20)
    as (_ & Hsame & _ & _).
  destruct (truncate_idempotent_and_bounded (u16 "abcd") 2)
    as (_ & _ & _ & Hsmall).
  split; [exact Hidem |].
  split; [apply Hsame; vm_compute; discriminate |].
  split; [apply Hbound; lia |].
  apply Hsmall; [lia | vm_compute; reflexivity | reflexivity].
Defined.

(** C8 as stated fails: under the limit 2 the output for a four-character
    text is the ellipsis, three characters long. *)
Lemma truncate_exceeds_small_limit :
  ensureCharacterLimit (u16 "abcd") 2 = u16 "..." /\
  ~ (len (ensureCharacterLimit (u16 "abcd") 2) <= 2).
Proof. split; [reflexivity | vm_compute; intros H; apply H; reflexivity]. Qed.

(** A cut at the last space, when it lies past four fifths of the limit, and
    a hard cut otherwise. *)
Example ensureCharacterLimit_word_boundary :
  ensureCharacterLimit (u16 "a summary that stops in a longword") 30 =
  u16 "a summary that stops in a...".
Proof. reflexivity. Qed.

Example ensureCharacterLimit_hard_cut :
  ensureCharacterLimit (u16 "hello brave new world") 20 =
  u16 "hello brave new w...".
Proof. reflexivity. Qed.

(** ** Lengths of the summaries the pipeline returns *)

Section PipelineLengths.

Context {rt : Runtime}.

Lemma generateFallbackShortSummary_bound (r : SummaryRequest)
  (text : jsstring) :
  generateFallbackShortSummary r = Some text -> len text <= 300.
Proof.
  unfold generateFallbackShortSummary.
  destruct (translateCategories _ _) as [cats |]; [| discriminate].
  destruct (pickLanguage _ _) as [lang |]; [| discriminate].
  intros [= <-]. apply ensureCharacterLimit_bound. lia.
Qed.

Lemma generateFallbackDetailedSummary_bound (r : SummaryRequest)
  (text : jsstring) :
  generateFallbackDetailedSummary r = Some text -> len text <= 1000.
Proof.
  unfold generateFallbackDetailedSummary.
  destruct (translateCategories _ _) as [cats |]; [| discriminate].
  destruct (pickLanguage _ _) as [lang |]; [| discriminate].
  intros [= <-]. apply ensureCharacterLimit_bound. lia.
Qed.

Lemma aiSummaryOf_bound (env : Env) (r : SummaryRequest) (p : ParsedResponse) :
  len (shortSummary (aiSummaryOf env r p)) <= 300 /\
  len (detailedSummary (aiSummaryOf env r p)) <= 1000.
Proof. split; apply ensureCharacterLimit_bound; lia. Qed.

(** The fallback summary, when it is built, carries the texts of the two
    generators. *)
Lemma fallbackSummaryOf_texts (env : Env) (r : SummaryRequest)
  (d : AIBookSummary) :
  fallbackSummaryOf env r = Some d ->
  exists short detailed,
    generateFallbackShortSummary r = Some short /\
    generateFallbackDetailedSummary r = Some detailed /\
    d = fallbackSummaryWith env r short detailed.
Proof.
  unfold fallbackSummaryOf.
  destruct (generateFallbackShortSummary r) as [short |]; [| discriminate].
  destruct (generateFallbackDetailedSummary r) as [detailed |];
    [| discriminate].
  intros [= <-]. exists short, detailed. repeat split.
Qed.

Lemma fallbackSummaryOf_bound (env : Env) (r : SummaryRequest)
  (d : AIBookSummary) :
  fallbackSummaryOf env r = Some d ->
  len (shortSummary d) <= 300 /\ len (detailedSummary d) <= 1000.
Proof.
  intros Hd.
  destruct (fallbackSummaryOf_texts env r d Hd) as (s1 & s2 & H1 & H2 & ->).
  split;
    [exact (generateFallbackShortSummary_bound r s1 H1)
    | exact (generateFallbackDetailedSummary_bound r s2 H2)].
Qed.

(** Whatever the [catch] block answers with is the fallback summary or no
    summary at all. *)
Lemma handleError_summary (env : Env) (r : SummaryRequest) (e : JsError) :
  summaryOf (handleError env r e) =
  if isRateLimitForFallback e then fallbackSummaryOf env r else None.
Proof.
  unfold handleError.
  destruct (isRateLimitForFallback e);
    [destruct (fallbackSummaryOf env r); reflexivity |].
  destruct (isQuotaExceeded e); [reflexivity |].
  destruct (messageIncludes "API key" e); reflexivity.
Qed.

(** A response of the [try] block carries the AI summary or none. *)
Lemma tryBlock_summary (env : Env) (req : HttpRequest) (r : SummaryRequest)
  (resp : HttpResponse) (events : list Event) (d : AIBookSummary) :
  tryBlock env req r = (inl resp, events) ->
  summaryOf (Sent resp) = Some d ->
  exists p, d = aiSummaryOf env r p.
Proof.
  unfold tryBlock.
  destruct (negb (jsstring_eqb (req_method req) (u16 "POST")));
    [intros [= <- _]; discriminate |].
  destruct (negb (truthy (apiKey env))); [intros [= <- _]; discriminate |].
  destruct (callOpenAIWithRetry (create env) 3) as [result evs].
  destruct result as [content | e |]; try (intros [= ]; fail).
  destruct (negb (truthy (orEmpty content))); [intros [= ] |].
  destruct (JSON_parse (orEmpty content)) as [m | p]; [intros [= ] |].
  intros [= <- _] [= <-]. exists p. reflexivity.
Qed.

(** Every summary that [generateBookSummary] returns is the AI summary of some
    parsed completion or the fallback summary of the request. *)
Lemma generateBookSummary_summary (env : Env) (req : HttpRequest) (w : World)
  (d : AIBookSummary) :
  summaryOf (fst (generateBookSummary env req w)) = Some d ->
  exists r, validBody (req_body req) = Some r /\
    ((exists p, d = aiSummaryOf env r p) \/ fallbackSummaryOf env r = Some d).
Proof.
  unfold generateBookSummary, isRateLimited, isGlobalLimitReached.
  destruct (atCap _ MAX_REQUESTS_PER_HOUR); [discriminate |].
  destruct (atCap _ MAX_GLOBAL_REQUESTS_PER_MONTH); [discriminate |].
  destruct (validBody (req_body req)) as [r |]; [| discriminate].
  destruct (tryBlock env req r) as [[resp | e] events] eqn:Htry; cbn [fst].
  - intros Hd. exists r. split; [reflexivity |]. left.
    eapply tryBlock_summary; eauto.
  - rewrite handleError_summary.
    destruct (isRateLimitForFallback e); [| discriminate].
    intros Hd. exists r. split; [reflexivity |]. right. exact Hd.
Qed.

(** C7. Every summary the pipeline returns, on the AI path as on the fallback
    path, has a short text of at most 300 characters and a detailed text of at
    most 1000. *)
Theorem summary_lengths_bounded (env : Env) (req : HttpRequest) (w : World)
  (d : AIBookSummary) :
  summaryOf (fst (generateBookSummary env req w)) = Some d ->
  len (shortSummary d) <= 300 /\ len (detailedSummary d) <= 1000.
Proof.
  intros Hd. apply generateBookSummary_summary in Hd.
  destruct Hd as (r & _ & [[p ->] | Hfb]).
  - apply aiSummaryOf_bound.
  - exact (fallbackSummaryOf_bound env r d Hfb).
Qed.

End PipelineLengths.

(** The bounds of C7 on a completed AI run and on a run that falls back. *)
Lemma summary_lengths_bounded_witness :
  (len (shortSummary
          (aiSummaryOf (exampleEnv (fun _ => Resolved (Some exampleContent)))
             nexus exampleParsed)) <= 300 /\
   len (detailedSummary
          (aiSummaryOf (exampleEnv (fun _ => Resolved (Some exampleContent)))
             nexus exampleParsed)) <= 1000) /\
  match @fallbackSummaryOf exampleRuntime
          (exampleEnv (fun _ => Rejected rateLimitError)) nexus with
  | Some d => len (shortSummary d) <= 300 /\ len (detailedSummary d) <= 1000
  | None => False
  end.
Proof.
  split.
  - apply (@summary_lengths_bounded exampleRuntime
             (exampleEnv (fun _ => Resolved (Some exampleContent)))
             nexusRequest emptyWorld).
    vm_compute. reflexivity.
  - destruct (@fallbackSummaryOf exampleRuntime
                (exampleEnv (fun _ => Rejected rateLimitError)) nexus)
      as [d |] eqn:Hd.
    + apply (@summary_lengths_bounded exampleRuntime
               (exampleEnv (fun _ => Rejected rateLimitError))
               nexusRequest emptyWorld).
      transitivity (@fallbackSummaryOf exampleRuntime
                      (exampleEnv (fun _ => Rejected rateLimitError)) nexus);
        [vm_compute; reflexivity | exact Hd].
    + vm_compute in Hd. discriminate.
Defined.

(** ** Retry *)

(** The three attempts, case by case. *)
Lemma callOpenAIWithRetry_cases (create : nat -> CallOutcome) :
  callOpenAIWithRetry create 3 =
  match create 0%nat with
  | Resolved c => (Returned c, [ApiCall 0])
  | Rejected e0 =>
      if isRateLimitForRetry e0 then
        match create 1%nat with
        | Resolved c => (Returned c, [ApiCall 0; Sleep 500; ApiCall 1])
        | Rejected e1 =>
            if isRateLimitForRetry e1 then
              match create 2%nat with
              | Resolved c =>
                  (Returned c,
                   [ApiCall 0; Sleep 500; ApiCall 1; Sleep 1000; ApiCall 2])
              | Rejected e2 =>
                  (Threw e2,
                   [ApiCall 0; Sleep 500; ApiCall 1; Sleep 1000; ApiCall 2])
              end
            else (Threw e1, [ApiCall 0; Sleep 500; ApiCall 1])
        end
      else (Threw e0, [ApiCall 0])
  end.
Proof.
  unfold callOpenAIWithRetry. cbn [retryLoop Nat.ltb Nat.leb Nat.sub].
  destruct (create 0%nat) as [c | e0]; [reflexivity |].
  destruct (isRateLimitForRetry e0); cbn [andb]; [| reflexivity].
  destruct (create 1%nat) as [c | e1]; [reflexivity |].
  destruct (isRateLimitForRetry e1); cbn [andb]; [| reflexivity].
  destruct (create 2%nat) as [c | e2]; [reflexivity |].
  rewrite andb_false_r. reflexivity.
Qed.

Lemma callOpenAIWithRetry_exhausted (create : nat -> CallOutcome) :
  retriesExhaustedByRateLimit create ->
  exists e, create 2%nat = Rejected e /\ isRateLimitForRetry e = true /\
    callOpenAIWithRetry create 3 =
    (Threw e, [ApiCall 0; Sleep 500; ApiCall 1; Sleep 1000; ApiCall 2]).
Proof.
  intros H.
  destruct (H 0%nat ltac:(lia)) as (e0 & H0 & R0).
  destruct (H 1%nat ltac:(lia)) as (e1 & H1 & R1).
  destruct (H 2%nat ltac:(lia)) as (e2 & H2 & R2).
  exists e2. rewrite callOpenAIWithRetry_cases, H0, R0, H1, R1, H2. auto.
Qed.

(** One leaf of the case analysis over the three attempts: the seven facts
    about the events of that leaf. *)
Ltac retry_case :=
  cbn;
  refine (conj _ (conj _ (conj _ (conj _ (conj _ (conj _ _))))));
  [ lia
  | reflexivity
  | tauto
  | intros Hin; repeat (destruct Hin as [Hin | Hin]; [discriminate Hin |]);
    exact Hin
  | intros k Hk; destruct k as [| [| k]];
    [eauto; exfalso; lia | eauto; exfalso; lia | exfalso; lia]
  | intros k e Hin Hk Hr;
    repeat (destruct Hin as [<- | Hin];
            [first [exfalso; congruence
                   | split; [congruence | reflexivity]] |]);
    destruct Hin
  | intros Hall;
    try (destruct (Hall 0%nat ltac:(lia)) as (x0 & Hx0 & Rx0));
    try (destruct (Hall 1%nat ltac:(lia)) as (x1 & Hx1 & Rx1));
    try (destruct (Hall 2%nat ltac:(lia)) as (x2 & Hx2 & Rx2));
    first [ split; reflexivity | congruence ] ].

(** C5, what the code does. Whatever the upstream service answers, the
    invoker calls it at most three times, numbered from 0; it sleeps only
    after a rejection that carries a rate-limit signal, 500 ms after attempt 0
    and 1000 ms after attempt 1, and never after attempt 2; a rejection without
    the signal is thrown at once. The delays are therefore a prefix of
    500, 1000: the 2000 ms of the comment in the source is never waited. *)
Theorem retry_policy (create : nat -> CallOutcome) :
  let result := fst (callOpenAIWithRetry create 3) in
  let events := snd (callOpenAIWithRetry create 3) in
  (length (apiCallsOf events) <= 3)%nat /\
  apiCallsOf events = seq 0 (S (length (sleepsOf events))) /\
  (sleepsOf events = [] \/ sleepsOf events = [500] \/
   sleepsOf events = [500; 1000]) /\
  ~ In 2000 (sleepsOf events) /\
  (forall k, (k < length (sleepsOf events))%nat ->
     exists e, create k = Rejected e /\ isRateLimitForRetry e = true) /\
  (forall k e, In k (apiCallsOf events) -> create k = Rejected e ->
     isRateLimitForRetry e = false ->
     result = Threw e /\ length (apiCallsOf events) = S k) /\
  (retriesExhaustedByRateLimit create ->
     sleepsOf events = [500; 1000] /\ apiCallsOf events = [0; 1; 2]%nat).
Proof.
  cbv zeta. rewrite callOpenAIWithRetry_cases.
  destruct (create 0%nat) as [c0 | e0] eqn:H0; [retry_case |].
  destruct (isRateLimitForRetry e0) eqn:R0; [| retry_case].
  destruct (create 1%nat) as [c1 | e1] eqn:H1; [retry_case |].
  destruct (isRateLimitForRetry e1) eqn:R1; [| retry_case].
  destruct (create 2%nat) as [c2 | e2] eqn:H2; retry_case.
Qed.

(** The retry policy where three rejections in a row carry the rate-limit
    signal: two delays are waited, not three. *)
Lemma retry_rate_limited_throughout :
  callOpenAIWithRetry (fun _ => Rejected rateLimitError) 3 =
  (Threw rateLimitError,
   [ApiCall 0; Sleep 500; ApiCall 1; Sleep 1000; ApiCall 2]).
Proof. reflexivity. Qed.

(** ** Fallback and terminal errors *)

Lemma isRateLimitForRetry_fallback (e : JsError) :
  isRateLimitForRetry e = true -> isRateLimitForFallback e = true.
Proof.
  unfold isRateLimitForRetry, isRateLimitForFallback.
  destruct (statusIs 429 e), (messageIncludes "rate limit" e),
    (messageIncludes "429" e); simpl; congruence.
Qed.

(** *** Target languages that name an inherited member *)

Lemma lookupLit_none {A : Type} (k : jsstring) (t : list (string * A)) :
  forallb (fun code => negb (jsstring_eqb k (u16 code))) (map fst t) = true ->
  lookupLit k t = None.
Proof.
  induction t as [| [k' v] t IH]; [reflexivity |].
  cbn [map fst forallb lookupLit]. intros H.
  apply andb_true_iff in H. destruct H as [Hk Ht].
  apply negb_true_iff in Hk. rewrite Hk. exact (IH Ht).
Qed.

Lemma inheritedMember_spec (key : jsstring) (member : string) :
  inheritedMember key = Some member ->
  key = u16 member /\ In member objectPrototypeMembers.
Proof.
  unfold inheritedMember. intros H. apply List.find_some in H.
  destruct H as [Hin Heq]. apply jsstring_eqb_eq in Heq. auto.
Qed.

(** No inherited name is the code of a language with templates. *)
Lemma inheritedMember_no_code (key : jsstring) (member : string) :
  inheritedMember key = Some member ->
  forallb (fun code => negb (jsstring_eqb key (u16 code)))
    ["es"; "en"; "fr"; "de"; "pt"; "it"]%string = true.
Proof.
  intros H. apply inheritedMember_spec in H. destruct H as [-> Hin].
  unfold objectPrototypeMembers in Hin. cbn [In] in Hin.
  repeat (destruct Hin as [<- | Hin]; [vm_compute; reflexivity |]).
  destruct Hin.
Qed.

Lemma getProperty_inherited {A : Type} (key : jsstring) (member : string)
  (t : list (string * A)) :
  inheritedMember key = Some member ->
  incl (map fst t) ["es"; "en"; "fr"; "de"; "pt"; "it"]%string ->
  getProperty key t = Inherited member.
Proof.
  intros Hm Hincl. unfold getProperty. rewrite lookupLit_none, Hm; [reflexivity |].
  apply forallb_forall. intros code Hin.
  pose proof (inheritedMember_no_code key member Hm) as Hall.
  rewrite forallb_forall in Hall. exact (Hall code (Hincl code Hin)).
Qed.

Lemma getProperty_own_or_absent {A : Type} (key : jsstring)
  (t : list (string * A)) :
  ownOrAbsent key ->
  getProperty key t =
  match lookupLit key t with Some value => Own value | None => Absent end.
Proof. intros H. unfold getProperty. rewrite H. reflexivity. Qed.

Section FallbackTexts.

Context {rt : Runtime}.

Lemma translateCategories_returns (cats : list jsstring) (code : jsstring) :
  ownOrAbsent code -> exists words, translateCategories cats code = Some words.
Proof.
  intros Hcode. induction cats as [| cat cats [words IH]];
    [exists []; reflexivity |].
  cbn [translateCategories]. rewrite IH. unfold translateCategory.
  rewrite (getProperty_own_or_absent code translations Hcode).
  destruct (lookupLit code translations) as [table |]; [| eauto].
  destruct (getProperty cat table); eauto.
Qed.

Lemma pickLanguage_returns (languageMap : list (string * (jsstring * jsstring)))
  (code : jsstring) (en : jsstring * jsstring) :
  ownOrAbsent code -> lookupLit (u16 "en") languageMap = Some en ->
  exists lang, pickLanguage languageMap code = Some lang.
Proof.
  intros Hcode Hen. unfold pickLanguage.
  rewrite (getProperty_own_or_absent code languageMap Hcode).
  destruct (lookupLit code languageMap); eauto.
Qed.

(** Under any other target language both generators return a text. *)
Lemma generators_return (r : SummaryRequest) :
  ownOrAbsent (targetLanguage r) ->
  exists short detailed,
    generateFallbackShortSummary r = Some short /\
    generateFallbackDetailedSummary r = Some detailed.
Proof.
  intros Hcode.
  unfold generateFallbackShortSummary, generateFallbackDetailedSummary.
  destruct (translateCategories_returns (categories r) (targetLanguage r) Hcode)
    as [words ->].
  destruct (pickLanguage_returns (shortLanguageMap words r) (targetLanguage r)
              (short_template_en words r, short_fallback_en words r) Hcode)
    as [lang1 ->].
  { unfold shortLanguageMap. cbn [lookupLit].
    change (jsstring_eqb (u16 "en") (u16 "es")) with false.
    change (jsstring_eqb (u16 "en") (u16 "en")) with true. reflexivity. }
  destruct (pickLanguage_returns (detailedLanguageMap words r)
              (targetLanguage r)
              (detailed_template_en words r, detailed_fallback_en words r)
              Hcode)
    as [lang2 ->].
  { unfold detailedLanguageMap. cbn [lookupLit].
    change (jsstring_eqb (u16 "en") (u16 "es")) with false.
    change (jsstring_eqb (u16 "en") (u16 "en")) with true. reflexivity. }
  eauto.
Qed.

(** Under a target language that names an inherited member both throw. *)
Lemma generators_throw (r : SummaryRequest) :
  ~ ownOrAbsent (targetLanguage r) ->
  generateFallbackShortSummary r = None /\
  generateFallbackDetailedSummary r = None.
Proof.
  unfold ownOrAbsent. intros Hcode.
  destruct (inheritedMember (targetLanguage r)) as [member |] eqn:Hm;
    [clear Hcode | contradiction].
  unfold generateFallbackShortSummary, generateFallbackDetailedSummary.
  destruct (translateCategories _ _) as [words |]; [| split; reflexivity].
  unfold pickLanguage.
  rewrite (getProperty_inherited _ member (shortLanguageMap words r) Hm),
          (getProperty_inherited _ member (detailedLanguageMap words r) Hm);
    [split; reflexivity | |]; intros code Hin; exact Hin.
Qed.

Lemma fallbackSummaryOf_returns (env : Env) (r : SummaryRequest) :
  ownOrAbsent (targetLanguage r) ->
  exists short detailed,
    generateFallbackShortSummary r = Some short /\
    generateFallbackDetailedSummary r = Some detailed /\
    fallbackSummaryOf env r = Some (fallbackSummaryWith env r short detailed).
Proof.
  intros Hcode.
  destruct (generators_return r Hcode) as (short & detailed & H1 & H2).
  exists short, detailed. unfold fallbackSummaryOf. rewrite H1, H2. auto.
Qed.

Lemma fallbackSummaryOf_throws (env : Env) (r : SummaryRequest) :
  ~ ownOrAbsent (targetLanguage r) -> fallbackSummaryOf env r = None.
Proof.
  intros Hcode. destruct (generators_throw r Hcode) as [H1 _].
  unfold fallbackSummaryOf. rewrite H1. reflexivity.
Qed.

Lemma handleError_fallback (env : Env) (r : SummaryRequest) (e : JsError) :
  isFallbackResponse (handleError env r e) =
  isRateLimitForFallback e &&
  match fallbackSummaryOf env r with Some _ => true | None => false end.
Proof.
  unfold handleError.
  destruct (isRateLimitForFallback e);
    [destruct (fallbackSummaryOf env r); reflexivity |].
  destruct (isQuotaExceeded e); [reflexivity |].
  destruct (messageIncludes "API key" e); reflexivity.
Qed.

(** The [catch] block ends without a response exactly when it sees the
    rate-limit signal and the fallback summary cannot be built. *)
Lemma handleError_no_response (env : Env) (r : SummaryRequest) (e : JsError) :
  handleError env r e = NoResponse <->
  isRateLimitForFallback e = true /\ fallbackSummaryOf env r = None.
Proof.
  unfold handleError.
  destruct (isRateLimitForFallback e).
  - destruct (fallbackSummaryOf env r); split;
      [discriminate | intros [_ H]; discriminate | auto | reflexivity].
  - destruct (isQuotaExceeded e);
      [| destruct (messageIncludes "API key" e)];
      (split; [discriminate | intros [H _]; discriminate]).
Qed.

End FallbackTexts.

Section PipelineErrors.

Context {rt : Runtime}.

Lemma generateBookSummary_reaches (env : Env) (req : HttpRequest) (w : World)
  (r : SummaryRequest) :
  reachesUpstream env req w r ->
  fst (generateBookSummary env req w) =
  match fst (tryBlock env req r) with
  | inl response => Sent response
  | inr e => handleError env r e
  end.
Proof.
  intros (Hhour & Hmonth & Hbody & _ & _).
  unfold generateBookSummary, isRateLimited, isGlobalLimitReached.
  rewrite Hhour. cbn [rateLimits globalUsage setRateLimit record].
  rewrite Hmonth, Hbody.
  destruct (tryBlock env req r) as [outcome events]. reflexivity.
Qed.

Lemma tryBlock_reaches (env : Env) (req : HttpRequest) (r : SummaryRequest) :
  req_method req = u16 "POST" -> truthy (apiKey env) = true ->
  fst (tryBlock env req r) =
  match fst (callOpenAIWithRetry (create env) 3) with
  | Threw e => inr e
  | LoopFellThrough =>
      inr (mkError (u16 "Cannot read properties of undefined (reading 'choices')"))
  | Returned content =>
      if truthy (orEmpty content) then
        match JSON_parse (orEmpty content) with
        | SyntaxError message => inr (mkError message)
        | Parsed p => inl (respond 200 (DataBody (aiSummaryOf env r p) None None))
        end
      else inr (mkError (u16 "No response from OpenAI"))
  end.
Proof.
  intros Hpost Hkey. unfold tryBlock.
  rewrite Hpost, Hkey. cbn [negb].
  change (jsstring_eqb (u16 "POST") (u16 "POST")) with true. cbn [negb].
  destruct (callOpenAIWithRetry (create env) 3) as [result events].
  destruct result as [content | e |]; cbn [fst]; try reflexivity.
  destruct (truthy (orEmpty content)); cbn [negb]; [| reflexivity].
  destruct (JSON_parse (orEmpty content)); reflexivity.
Qed.

(** The error that reaches the [catch] block is the one the attempt failed
    with. *)
Lemma tryBlock_error (env : Env) (req : HttpRequest) (r : SummaryRequest)
  (e : JsError) :
  req_method req = u16 "POST" -> truthy (apiKey env) = true ->
  (fst (tryBlock env req r) = inr e <-> upstreamFailsWith env e).
Proof.
  intros Hpost Hkey. rewrite (tryBlock_reaches env req r Hpost Hkey).
  unfold upstreamFailsWith.
  destruct (fst (callOpenAIWithRetry (create env) 3)) as [content | e' |].
  - destruct (truthy (orEmpty content)).
    + destruct (JSON_parse (orEmpty content)) as [m | p].
      * split; [intros [= <-]; reflexivity | intros ->; reflexivity].
      * split; [discriminate | intros []].
    + split; [intros [= <-]; reflexivity | intros ->; reflexivity].
  - split; [intros [= <-]; reflexivity | intros ->; reflexivity].
  - split; [intros [= <-]; reflexivity | intros ->; reflexivity].
Qed.

(** A response sent from the [try] block is no fallback. *)
Lemma tryBlock_no_fallback (env : Env) (req : HttpRequest)
  (r : SummaryRequest) (resp : HttpResponse) :
  fst (tryBlock env req r) = inl resp ->
  isFallbackResponse (Sent resp) = false.
Proof.
  unfold tryBlock.
  destruct (negb (jsstring_eqb (req_method req) (u16 "POST")));
    [intros [= <-]; reflexivity |].
  destruct (negb (truthy (apiKey env))); [intros [= <-]; reflexivity |].
  destruct (callOpenAIWithRetry (create env) 3) as [result evs].
  destruct result as [content | e |]; try discriminate.
  destruct (negb (truthy (orEmpty content))); [discriminate |].
  destruct (JSON_parse (orEmpty content)) as [m | p]; [discriminate |].
  intros [= <-]. reflexivity.
Qed.

(** What the handler answers when the attempt fails with [e]. *)
Lemma generateBookSummary_error (env : Env) (req : HttpRequest) (w : World)
  (r : SummaryRequest) (e : JsError) :
  reachesUpstream env req w r -> upstreamFailsWith env e ->
  fst (generateBookSummary env req w) = handleError env r e.
Proof.
  intros Hreach Hfail.
  rewrite (generateBookSummary_reaches env req w r Hreach).
  destruct Hreach as (_ & _ & _ & Hpost & Hkey).
  apply (tryBlock_error env req r e Hpost Hkey) in Hfail.
  rewrite Hfail. reflexivity.
Qed.

(** A response is flagged as a fallback exactly when the attempt failed with
    an error in which the [catch] block sees a rate-limit signal. *)
Lemma fallback_iff_rate_limit_signal (env : Env) (req : HttpRequest)
  (w : World) (r : SummaryRequest) :
  reachesUpstream env req w r ->
  ownOrAbsent (targetLanguage r) ->
  (isFallbackResponse (fst (generateBookSummary env req w)) = true <->
   exists e, upstreamFailsWith env e /\ isRateLimitForFallback e = true).
Proof.
  intros Hreach Hcode.
  destruct (fallbackSummaryOf_returns env r Hcode) as (s1 & s2 & _ & _ & Hfb).
  split.
  - rewrite (generateBookSummary_reaches env req w r Hreach).
    destruct Hreach as (_ & _ & _ & Hpost & Hkey).
    destruct (fst (tryBlock env req r)) as [resp | e] eqn:Htry.
    + rewrite (tryBlock_no_fallback env req r resp Htry). discriminate.
    + rewrite handleError_fallback. intros H.
      apply andb_true_iff in H. destruct H as [HRL _].
      exists e. split; [| exact HRL].
      apply (tryBlock_error env req r e Hpost Hkey). exact Htry.
  - intros (e & Hfail & HRL).
    rewrite (generateBookSummary_error env req w r e Hreach Hfail).
    rewrite handleError_fallback, HRL, Hfb. reflexivity.
Qed.


(** What the [catch] block answers to an error without a rate-limit signal:
    a classified error and no summary. *)
Lemma handleError_classified (env : Env) (r : SummaryRequest) (e : JsError) :
  isRateLimitForFallback e = false ->
  summaryOf (handleError env r e) = None /\
  isFallbackResponse (handleError env r e) = false /\
  statusOf (handleError env r e) =
  Some (if isQuotaExceeded e then 429
        else if messageIncludes "API key" e then 401 else 500).
Proof.
  intros HRL. unfold handleError. rewrite HRL.
  destruct (isQuotaExceeded e); [repeat split |].
  destruct (messageIncludes "API key" e); repeat split.
Qed.

(** C4. Where the code follows the claim and where it departs from it. An
    error in which the [catch] block sees no rate-limit signal is propagated
    as the claim says: 429 when the message mentions a quota, otherwise 401
    when it mentions an API key, otherwise 500, and no summary. But the
    [catch] block tests the rate-limit signal before the quota: a quota error
    that carries status 429 (or whose message mentions 429 or rate limit) is
    answered 200 with the fallback summary of the request, although
    [isQuotaExceeded] is computed and is true. *)
Theorem quota_error_gets_fallback (env : Env) (req : HttpRequest) (w : World)
  (r : SummaryRequest) :
  reachesUpstream env req w r ->
  (forall e : JsError,
     upstreamFailsWith env e ->
     isRateLimitForFallback e = false ->
     summaryOf (fst (generateBookSummary env req w)) = None /\
     isFallbackResponse (fst (generateBookSummary env req w)) = false /\
     statusOf (fst (generateBookSummary env req w)) =
     Some (if isQuotaExceeded e then 429
           else if messageIncludes "API key" e then 401 else 500)) /\
  (forall e : JsError,
     upstreamFailsWith env e ->
     isQuotaExceeded e = true ->
     isRateLimitForFallback e = true ->
     ownOrAbsent (targetLanguage r) ->
     statusOf (fst (generateBookSummary env req w)) = Some 200 /\
     isFallbackResponse (fst (generateBookSummary env req w)) = true /\
     summaryOf (fst (generateBookSummary env req w)) = fallbackSummaryOf env r /\
     fallbackSummaryOf env r <> None).
Proof.
  intros Hreach. split.
  - intros e Hfail HRL.
    rewrite (generateBookSummary_error env req w r e Hreach Hfail).
    exact (handleError_classified env r e HRL).
  - intros e Hfail _ HRL Hcode.
    rewrite (generateBookSummary_error env req w r e Hreach Hfail).
    destruct (fallbackSummaryOf_returns env r Hcode)
      as (s1 & s2 & _ & _ & Hfb).
    unfold handleError. rewrite HRL, Hfb. repeat split. discriminate.
Qed.

End PipelineErrors.



(** C4 at the failing input: the upstream service reports the exhausted quota
    with status 429 on every attempt; the handler calls it three times and
    answers 200 with the fallback summary. *)
Lemma quota_error_gets_fallback_witness :
  isQuotaExceeded quotaError429 = true /\
  apiCallsOf
    (@eventsOf exampleRuntime (exampleEnv (fun _ => Rejected quotaError429))
       nexusRequest emptyWorld) = [0; 1; 2]%nat /\
  statusOf
    (fst (@generateBookSummary exampleRuntime
            (exampleEnv (fun _ => Rejected quotaError429))
            nexusRequest emptyWorld)) = Some 200 /\
  isFallbackResponse
    (fst (@generateBookSummary exampleRuntime
            (exampleEnv (fun _ => Rejected quotaError429))
            nexusRequest emptyWorld)) = true.
Proof.
  split; [vm_compute; reflexivity |]. split; [vm_compute; reflexivity |].
  destruct (proj2 (@quota_error_gets_fallback exampleRuntime
                     (exampleEnv (fun _ => Rejected quotaError429))
                     nexusRequest emptyWorld nexus
                     ltac:(repeat split; vm_compute; reflexivity))
              quotaError429
              ltac:(reflexivity) ltac:(vm_compute; reflexivity)
              ltac:(vm_compute; reflexivity) ltac:(vm_compute; reflexivity))
    as (Hstatus & Hflag & _).
  split; [exact Hstatus | exact Hflag].
Defined.

(** A quota error without a rate-limit signal is answered 429 and carries no
    summary. *)
Example quota_error_plain_is_429 :
  statusOf
    (fst (@generateBookSummary exampleRuntime
            (exampleEnv (fun _ => Rejected quotaErrorPlain))
            nexusRequest emptyWorld)) = Some 429 /\
  summaryOf
    (fst (@generateBookSummary exampleRuntime
            (exampleEnv (fun _ => Rejected quotaErrorPlain))
            nexusRequest emptyWorld)) = None.
Proof. split; vm_compute; reflexivity. Qed.

(** The other terminal errors on the scenario's request: a completion that is
    cut short, a completion without content, and a rejected API key. *)
Example malformed_completion_is_500 :
  statusOf
    (fst (@generateBookSummary exampleRuntime
            (exampleEnv (fun _ => Resolved (Some (u16 "{"))))
            nexusRequest emptyWorld)) = Some 500.
Proof. vm_compute. reflexivity. Qed.

Example empty_completion_is_500 :
  statusOf
    (fst (@generateBookSummary exampleRuntime
            (exampleEnv (fun _ => Resolved None))
            nexusRequest emptyWorld)) = Some 500.
Proof. vm_compute. reflexivity. Qed.

Example rejected_api_key_is_401 :
  statusOf
    (fst (@generateBookSummary exampleRuntime
            (exampleEnv
               (fun _ =>
                  Rejected
                    {| err_status := Some 401;
                       err_message := Some (u16 "Incorrect API key provided") |}))
            nexusRequest emptyWorld)) = Some 401.
Proof. vm_compute. reflexivity. Qed.

(** A target language that names an inherited member: the [catch] block
    throws while it builds the fallback summary, and no response is sent. *)
Example inherited_language_gets_no_response :
  fst (@generateBookSummary exampleRuntime
         (exampleEnv (fun _ => Rejected rateLimitError))
         {| req_method := u16 "POST";
            req_forwardedFor := None;
            req_remoteAddress := None;
            req_body := Some (withTargetLanguage nexus (u16 "constructor")) |}
         emptyWorld) = NoResponse.
Proof. vm_compute. reflexivity. Qed.

(** The fallback text of the scenario: the category is in Spanish. *)
Example fallback_short_summary_nexus :
  @generateFallbackShortSummary exampleRuntime nexus =
  Some
    (dquote ++ u16 "Nexus" ++ dquote ++
     u16 " por Yuval Noah Harari es una obra de Historia publicada en 2024-09-10. Esta obra de 528 páginas ofrece perspectivas sobre historia.").
Proof. vm_compute. reflexivity. Qed.

(** A category that names an inherited member is printed as that member. *)
Example fallback_short_summary_inherited_category :
  @generateFallbackShortSummary exampleRuntime
    {| title := u16 "Nexus";
       authors := [u16 "Yuval Noah Harari"];
       isbn := u16 "9780525520024";
       description := [];
       categories := [u16 "constructor"];
       publisher := u16 "Random House";
       publishedDate := u16 "2024-09-10";
       pageCount := 0;
       language := u16 "en";
       targetLanguage := u16 "fr" |} =
  Some
    (dquote ++ u16 "Nexus" ++ dquote ++
     u16 " par Yuval Noah Harari est une œuvre de function Object() { [native code] } publiée en 2024-09-10. Ce livre offre des perspectives sur function object() { [native code] }.").
Proof. vm_compute. reflexivity. Qed.

(** ** The hourly counter *)

Lemma map_N_of_ascii_inj (a b : list ascii) :
  map N_of_ascii a = map N_of_ascii b -> a = b.
Proof.
  revert b. induction a as [|x a IH]; intros [|y b]; simpl; try discriminate;
    [reflexivity |].
  intros [= Hxy Hab]. f_equal; [| auto].
  rewrite <- (ascii_N_embedding x), <- (ascii_N_embedding y), Hxy. reflexivity.
Qed.

Lemma numToString_inj (a b : Z) : numToString a = numToString b -> a = b.
Proof.
  unfold numToString. intros H. apply map_N_of_ascii_inj in H.
  apply (f_equal string_of_list_ascii) in H.
  rewrite !string_of_list_ascii_of_string in H.
  exact (pretty_Z_inj _ _ H).
Qed.

Lemma rateLimitDocId_inj (ip : jsstring) (t1 t2 : Z) :
  rateLimitDocId ip t1 = rateLimitDocId ip t2 -> hourStartOf t1 = hourStartOf t2.
Proof.
  unfold rateLimitDocId. intros H.
  apply app_inv_head in H. apply app_inv_head in H.
  apply numToString_inj. exact H.
Qed.

Lemma handleError_not_refusal {rt : Runtime} (env : Env) (r : SummaryRequest)
  (e : JsError) :
  isRateLimitRefusal (handleError env r e) = false.
Proof.
  unfold handleError.
  destruct (isRateLimitForFallback e);
    [destruct (fallbackSummaryOf env r); reflexivity |].
  destruct (isQuotaExceeded e); [reflexivity |].
  destruct (messageIncludes "API key" e); reflexivity.
Qed.

Lemma tryBlock_not_refusal {rt : Runtime} (env : Env) (req : HttpRequest)
  (r : SummaryRequest) (resp : HttpResponse) :
  fst (tryBlock env req r) = inl resp -> isRateLimitRefusal (Sent resp) = false.
Proof.
  unfold tryBlock.
  destruct (negb (jsstring_eqb (req_method req) (u16 "POST")));
    [intros [= <-]; reflexivity |].
  destruct (negb (truthy (apiKey env))); [intros [= <-]; reflexivity |].
  destruct (callOpenAIWithRetry (create env) 3) as [result evs].
  destruct result as [content | e |]; try discriminate.
  destruct (negb (truthy (orEmpty content))); [discriminate |].
  destruct (JSON_parse (orEmpty content)) as [m | p]; [discriminate |].
  intros [= <-]. reflexivity.
Qed.

Section HourlyCounter.

Context {rt : Runtime}.

(** At the cap: the refusal, one read of the hourly document, nothing else. *)
Lemma generateBookSummary_at_cap (env : Env) (req : HttpRequest) (w : World) :
  atCap (rateLimits w !! rateLimitDocId (getClientIp req) (now env))
        MAX_REQUESTS_PER_HOUR = true ->
  generateBookSummary env req w =
  (rateLimitRefusal,
   record [DbGet "rateLimits" (rateLimitDocId (getClientIp req) (now env))] w).
Proof.
  intros Hcap. unfold generateBookSummary, isRateLimited. rewrite Hcap.
  reflexivity.
Qed.

(** Under the cap: the request is let through and the hourly document of the
    client is written with the count raised by one. *)
Lemma generateBookSummary_under_cap (env : Env) (req : HttpRequest) (w : World) :
  atCap (rateLimits w !! rateLimitDocId (getClientIp req) (now env))
        MAX_REQUESTS_PER_HOUR = false ->
  isRateLimitRefusal (fst (generateBookSummary env req w)) = false /\
  rateLimits (snd (generateBookSummary env req w)) =
  <[rateLimitDocId (getClientIp req) (now env) :=
      {| count :=
           countOrZero
             (rateLimits w !! rateLimitDocId (getClientIp req) (now env)) + 1;
         timestamp := hourStartOf (now env) |}]> (rateLimits w).
Proof.
  intros Hcap. unfold generateBookSummary, isRateLimited, isGlobalLimitReached.
  rewrite Hcap. cbn [rateLimits globalUsage setRateLimit record].
  destruct (atCap _ MAX_GLOBAL_REQUESTS_PER_MONTH); [split; reflexivity |].
  destruct (validBody (req_body req)) as [r |]; [| split; reflexivity].
  destruct (tryBlock env req r) as [[resp | e] events] eqn:Htry;
    cbn [fst snd rateLimits record setGlobalUsage]; split; try reflexivity.
  - eapply tryBlock_not_refusal. rewrite Htry. reflexivity.
  - apply handleError_not_refusal.
Qed.

Lemma counted_atCap (w : World) (key : jsstring) (h : Z) (c : nat) :
  counted w key h c ->
  atCap (rateLimits w !! key) MAX_REQUESTS_PER_HOUR = (10 <=? c)%nat /\
  countOrZero (rateLimits w !! key) = Z.of_nat c.
Proof.
  unfold counted, MAX_REQUESTS_PER_HOUR. destruct c as [|c]; intros ->;
    cbn [atCap countOrZero count]; [split; reflexivity |].
  split; [| reflexivity].
  destruct (Nat.leb_spec 10 (S c)); [apply Z.leb_le | apply Z.leb_gt]; lia.
Qed.

Lemma serve_under_cap (ip : jsstring) (h : Z)
  (requests : list (Env * HttpRequest)) :
  forall (w : World) (c : nat),
    Forall (inWindow ip h) requests ->
    counted w (ip ++ u16 "_" ++ numToString h) h c ->
    (c + length requests <= 10)%nat ->
    Forall (fun r => isRateLimitRefusal r = false) (fst (serve requests w)) /\
    counted (snd (serve requests w)) (ip ++ u16 "_" ++ numToString h) h
      (c + length requests) /\
    (forall key', key' <> ip ++ u16 "_" ++ numToString h ->
       rateLimits (snd (serve requests w)) !! key' = rateLimits w !! key').
Proof.
  induction requests as [| [env req] rest IH]; intros w c Hwin Hc Hle.
  - cbn. rewrite Nat.add_0_r. auto.
  - apply Forall_cons_1 in Hwin. destruct Hwin as [[Hip Hh] Hrest].
    cbn [fst snd] in Hip, Hh.
    cbn [serve length] in *.
    assert (Hkey : rateLimitDocId (getClientIp req) (now env) =
                   ip ++ u16 "_" ++ numToString h).
    { unfold rateLimitDocId. rewrite Hip, Hh. reflexivity. }
    destruct (counted_atCap _ _ _ _ Hc) as [Hcap Hcount].
    rewrite <- Hkey in Hcap, Hcount.
    replace (10 <=? c)%nat with false in Hcap
      by (symmetry; apply Nat.leb_gt; lia).
    destruct (generateBookSummary_under_cap env req w Hcap) as [Hresp Hmap].
    destruct (generateBookSummary env req w) as [resp w1]. cbn [fst snd] in *.
    assert (Hc1 : counted w1 (ip ++ u16 "_" ++ numToString h) h (S c)).
    { unfold counted. rewrite Hmap, Hkey, lookup_insert_eq. rewrite <- Hkey, Hcount, Hh.
      do 2 f_equal. lia. }
    destruct (IH w1 (S c) Hrest Hc1 ltac:(lia)) as (Hok & Hcnt & Hother).
    destruct (serve rest w1) as [resps w2]. cbn [fst snd] in *.
    split; [constructor; assumption |].
    split; [replace (c + S (length rest))%nat with (S c + length rest)%nat
              by lia; exact Hcnt |].
    intros key' Hne. rewrite (Hother key' Hne), Hmap, Hkey.
    apply lookup_insert_ne. congruence.
Qed.
Lemma serve_snoc (requests : list (Env * HttpRequest))
  (er : Env * HttpRequest) (w : World) :
  snd (serve (requests ++ [er]) w) =
  snd (generateBookSummary (fst er) (snd er) (snd (serve requests w))).
Proof.
  revert w. induction requests as [| [env req] rest IH]; intros w.
  - destruct er as [env req]. cbn [serve app fst snd].
    destruct (generateBookSummary env req w). reflexivity.
  - cbn [serve app].
    destruct (generateBookSummary env req w) as [resp w1].
    specialize (IH w1).
    destruct (serve (rest ++ [er]) w1), (serve rest w1). exact IH.
Qed.

(** C6. From an empty counter store, ten requests of one client within one
    clock hour all pass the hourly check, the k-th leaving the client's
    counter at k; the eleventh is answered with the rate-limit refusal, the
    only thing it does being one read of the counter (no upstream call); and a
    request of the same client in the next clock hour passes the check again,
    starting the counter of the new window at 1. *)
Theorem hourly_rate_limit (ip : jsstring) (h : Z)
  (first10 : list (Env * HttpRequest)) (eleventh later : Env * HttpRequest) :
  length first10 = 10%nat ->
  Forall (inWindow ip h) (first10 ++ [eleventh]) ->
  inWindow ip (h + 3600000) later ->
  (forall k, (1 <= k <= 10)%nat ->
     Forall (fun r => isRateLimitRefusal r = false)
       (fst (serve (take k first10) emptyWorld)) /\
     rateLimits (snd (serve (take k first10) emptyWorld))
       !! (ip ++ u16 "_" ++ numToString h) =
     Some {| count := Z.of_nat k; timestamp := h |}) /\
  generateBookSummary (fst eleventh) (snd eleventh)
    (snd (serve first10 emptyWorld)) =
  (rateLimitRefusal,
   record [DbGet "rateLimits" (ip ++ u16 "_" ++ numToString h)]
     (snd (serve first10 emptyWorld))) /\
  isRateLimitRefusal
    (fst (generateBookSummary (fst later) (snd later)
            (snd (serve (first10 ++ [eleventh]) emptyWorld)))) = false /\
  rateLimits
    (snd (generateBookSummary (fst later) (snd later)
            (snd (serve (first10 ++ [eleventh]) emptyWorld))))
    !! (ip ++ u16 "_" ++ numToString (h + 3600000)) =
  Some {| count := 1; timestamp := h + 3600000 |}.
Proof.
  intros Hlen Hwin Hlater.
  apply Forall_app in Hwin. destruct Hwin as [Hwin10 Hwin11].
  apply Forall_cons_1 in Hwin11. destruct Hwin11 as [[Hip11 Hh11] _].
  destruct Hlater as [HipL HhL].
  assert (Hempty : counted emptyWorld (ip ++ u16 "_" ++ numToString h) h 0).
  { apply lookup_empty. }
  assert (Hkey11 : rateLimitDocId (getClientIp (snd eleventh))
                     (now (fst eleventh)) = ip ++ u16 "_" ++ numToString h).
  { unfold rateLimitDocId. rewrite Hip11, Hh11. reflexivity. }
  assert (HkeyL : rateLimitDocId (getClientIp (snd later)) (now (fst later)) =
                  ip ++ u16 "_" ++ numToString (h + 3600000)).
  { unfold rateLimitDocId. rewrite HipL, HhL. reflexivity. }
  destruct (serve_under_cap ip h first10 emptyWorld 0 Hwin10 Hempty
              ltac:(lia)) as (_ & Hc10 & Hother).
  rewrite Hlen in Hc10. cbn [counted Nat.add] in Hc10.
  assert (Hcap11 : atCap (rateLimits (snd (serve first10 emptyWorld))
                            !! rateLimitDocId (getClientIp (snd eleventh))
                                 (now (fst eleventh)))
                     MAX_REQUESTS_PER_HOUR = true).
  { rewrite Hkey11, Hc10. reflexivity. }
  split; [| split].
  - intros k Hk.
    destruct (serve_under_cap ip h (take k first10) emptyWorld 0
                ltac:(apply Forall_take; exact Hwin10) Hempty
                ltac:(rewrite length_take; lia)) as (Hok & Hcnt & _).
    split; [exact Hok |].
    rewrite length_take, Hlen in Hcnt.
    replace (0 + k `min` 10)%nat with k in Hcnt by lia.
    destruct k as [| k]; [lia | exact Hcnt].
  - rewrite (generateBookSummary_at_cap _ _ _ Hcap11), Hkey11. reflexivity.
  - rewrite serve_snoc, (generateBookSummary_at_cap _ _ _ Hcap11).
    cbn [snd].
    assert (HcapL : atCap (rateLimits
                             (record [DbGet "rateLimits"
                                        (rateLimitDocId
                                           (getClientIp (snd eleventh))
                                           (now (fst eleventh)))]
                                (snd (serve first10 emptyWorld)))
                           !! rateLimitDocId (getClientIp (snd later))
                                (now (fst later)))
                      MAX_REQUESTS_PER_HOUR = false).
    { cbn [record rateLimits]. rewrite HkeyL, Hother.
      - cbn [emptyWorld rateLimits]. rewrite lookup_empty. reflexivity.
      - intros Heq. apply app_inv_head in Heq. apply app_inv_head in Heq.
        apply numToString_inj in Heq. lia. }
    destruct (generateBookSummary_under_cap _ _ _ HcapL) as [Hresp Hmap].
    split; [exact Hresp |].
    rewrite Hmap, HkeyL, lookup_insert_eq.
    cbn [record rateLimits]. rewrite Hother.
    + cbn [emptyWorld rateLimits]. rewrite lookup_empty, HhL. reflexivity.
    + intros Heq. apply app_inv_head in Heq. apply app_inv_head in Heq.
      apply numToString_inj in Heq. lia.
Qed.

(** C10. A request that finds the client's hourly counter at the cap (10, or
    above) is refused and leaves the store as it was: neither counter
    document changes, and the one thing the request does is read the hourly
    document; the monthly document is not read and not written. *)
Theorem refusal_leaves_counters_unchanged (env : Env) (req : HttpRequest)
  (w : World) (d : CounterDoc) :
  rateLimits w !! rateLimitDocId (getClientIp req) (now env) = Some d ->
  MAX_REQUESTS_PER_HOUR <= count d ->
  fst (generateBookSummary env req w) = rateLimitRefusal /\
  rateLimits (snd (generateBookSummary env req w)) = rateLimits w /\
  globalUsage (snd (generateBookSummary env req w)) = globalUsage w /\
  trace (snd (generateBookSummary env req w)) =
  trace w ++ [DbGet "rateLimits" (rateLimitDocId (getClientIp req) (now env))].
Proof.
  intros Hdoc Hcap.
  rewrite generateBookSummary_at_cap.
  - repeat split.
  - rewrite Hdoc. cbn [atCap]. apply Z.leb_le. exact Hcap.
Qed.

End HourlyCounter.

(** C6 on a burst of the scenario's request: ten requests one millisecond
    apart, the eleventh in the same clock hour. *)
Lemma hourly_rate_limit_witness :
  @generateBookSummary exampleRuntime
    (envAt 1730000000010 (fun _ => Rejected rateLimitError)) nexusRequest
    (snd (@serve exampleRuntime
            (burst (fun _ => Rejected rateLimitError) 1730000000000 10)
            emptyWorld)) =
  (rateLimitRefusal,
   record
     [DbGet "rateLimits"
        (u16 "203.0.113.7" ++ u16 "_" ++ numToString 1729998000000)]
     (snd (@serve exampleRuntime
             (burst (fun _ => Rejected rateLimitError) 1730000000000 10)
             emptyWorld))).
Proof.
  destruct (@hourly_rate_limit exampleRuntime (u16 "203.0.113.7")
              1729998000000
              (burst (fun _ => Rejected rateLimitError) 1730000000000 10)
              (envAt 1730000000010 (fun _ => Rejected rateLimitError),
               nexusRequest)
              (envAt 1730003600000 (fun _ => Rejected rateLimitError),
               nexusRequest)) as (_ & Heleventh & _).
  - reflexivity.
  - repeat constructor; vm_compute; reflexivity.
  - split; vm_compute; reflexivity.
  - exact Heleventh.
Defined.

(** C10 on the store that ten requests of the scenario's client leave. *)
Lemma refusal_leaves_counters_unchanged_witness :
  fst (@generateBookSummary exampleRuntime
         (envAt 1730000000010 (fun _ => Rejected rateLimitError)) nexusRequest
         (snd (@serve exampleRuntime
                 (burst (fun _ => Rejected rateLimitError) 1730000000000 10)
                 emptyWorld))) = rateLimitRefusal /\
  globalUsage
    (snd (@generateBookSummary exampleRuntime
            (envAt 1730000000010 (fun _ => Rejected rateLimitError))
            nexusRequest
            (snd (@serve exampleRuntime
                    (burst (fun _ => Rejected rateLimitError) 1730000000000 10)
                    emptyWorld)))) =
  globalUsage
    (snd (@serve exampleRuntime
            (burst (fun _ => Rejected rateLimitError) 1730000000000 10)
            emptyWorld)).
Proof.
  destruct (@refusal_leaves_counters_unchanged exampleRuntime
              (envAt 1730000000010 (fun _ => Rejected rateLimitError))
              nexusRequest
              (snd (@serve exampleRuntime
                      (burst (fun _ => Rejected rateLimitError)
                         1730000000000 10)
                      emptyWorld))
              {| count := 10; timestamp := 1729998000000 |})
    as (Hresp & _ & Hglobal & _).
  - vm_compute. reflexivity.
  - vm_compute. discriminate.
  - split; [exact Hresp | exact Hglobal].
Defined.

(** ** LanguageGuard *)

(** *** Whole words *)

Ltac char_tests :=
  unfold canonicalize, isWordChar, isUpper, isLower, isDigit in *;
  repeat match goal with
         | |- context [(?a <=? ?b)%N] => destruct (N.leb_spec a b)
         | |- context [(?a =? ?b)%N] => destruct (N.eqb_spec a b)
         | H : context [(?a <=? ?b)%N] |- _ => destruct (N.leb_spec a b)
         | H : context [(?a =? ?b)%N] |- _ => destruct (N.eqb_spec a b)
         end;
  cbn [andb orb negb] in *.

(** The two ways of ignoring the case of ASCII letters agree. *)
Lemma canonicalize_lower (a b : N) :
  (canonicalize a =? canonicalize b)%N =
  ((if isUpper a then (a + 32)%N else a) =?
   (if isUpper b then (b + 32)%N else b))%N.
Proof.
  char_tests; try reflexivity; try lia.
Qed.

Lemma canonicalize_isWordChar (c : N) :
  isWordChar (canonicalize c) = isWordChar c.
Proof.
  unfold canonicalize. destruct (isLower c) eqn:Hl; [| reflexivity].
  unfold isWordChar. rewrite Hl.
  assert (Hu : isUpper (c - 32) = true).
  { unfold isLower, isUpper in *. apply andb_true_iff in Hl.
    destruct Hl as [H1 H2]. apply N.leb_le in H1, H2.
    apply andb_true_iff. split; apply N.leb_le; lia. }
  rewrite Hu. rewrite orb_true_r. reflexivity.
Qed.

Lemma canonicalize_word (a c : N) :
  isWordChar a = true -> isWordChar c = false ->
  (canonicalize a =? canonicalize c)%N = false.
Proof.
  intros Ha Hc. apply N.eqb_neq. intros Heq.
  rewrite <- (canonicalize_isWordChar a), Heq, canonicalize_isWordChar in Ha.
  congruence.
Qed.

Lemma lower_word (a c : N) :
  isWordChar a = true -> isWordChar c = false ->
  ((if isUpper a then (a + 32)%N else a) =?
   (if isUpper c then (c + 32)%N else c))%N = false.
Proof.
  intros Ha Hc. rewrite <- canonicalize_lower.
  exact (canonicalize_word a c Ha Hc).
Qed.

(** A text is a run of word characters followed by the end of the text or by
    a unit that is none. *)
Lemma word_prefix (s : jsstring) :
  exists run rest,
    s = run ++ rest /\ forallb isWordChar run = true /\
    boundaryAfter rest = true.
Proof.
  induction s as [| c s (run & rest & -> & Hrun & Hrest)].
  - exists [], []. repeat split.
  - destruct (isWordChar c) eqn:Hc.
    + exists (c :: run), rest. cbn [forallb]. rewrite Hc, Hrun. repeat split.
      exact Hrest.
    + exists [], (c :: run ++ rest). cbn [boundaryAfter]. rewrite Hc.
      repeat split.
Qed.

Lemma tokens_run (run rest : jsstring) :
  run <> [] -> forallb isWordChar run = true -> boundaryAfter rest = true ->
  tokens (run ++ rest) = run :: tokens rest.
Proof.
  induction run as [| c run IH]; [congruence |].
  intros _ Hrun Hrest. cbn [forallb] in Hrun.
  apply andb_true_iff in Hrun. destruct Hrun as [Hc Hrun].
  cbn [app tokens]. rewrite Hc.
  destruct run as [| d run].
  - cbn [app]. destruct rest as [| e rest]; [reflexivity |].
    cbn [boundaryAfter] in Hrest. apply negb_true_iff in Hrest.
    cbn [tokens]. rewrite Hrest. cbn iota. rewrite Hrest. reflexivity.
  - rewrite (IH ltac:(discriminate) Hrun Hrest).
    cbn [forallb] in Hrun. apply andb_true_iff in Hrun.
    destruct Hrun as [Hd _]. rewrite Hd. reflexivity.
Qed.

Lemma tokens_other (c : N) (s : jsstring) :
  isWordChar c = false -> tokens (c :: s) = [c] :: tokens s.
Proof. intros Hc. cbn [tokens]. rewrite Hc. reflexivity. Qed.

(** At the start of a run of word characters the expression matches exactly
    when the run is the word. *)
Lemma matchesAt_run (w run rest : jsstring) :
  forallb isWordChar w = true -> forallb isWordChar run = true ->
  boundaryAfter rest = true ->
  match matchesAt w (run ++ rest) with
  | Some rest' => boundaryAfter rest'
  | None => false
  end = sameWord w run /\
  (sameWord w run = true -> matchesAt w (run ++ rest) = Some rest).
Proof.
  unfold sameWord, asciiToLowerCase.
  revert run. induction w as [| a w IH]; intros run Hw Hrun Hrest.
  - cbn [matchesAt]. destruct run as [| c run].
    + cbn [app]. rewrite Hrest. split; reflexivity.
    + cbn [forallb] in Hrun. apply andb_true_iff in Hrun.
      destruct Hrun as [Hc _]. cbn [app boundaryAfter]. rewrite Hc.
      split; [reflexivity | discriminate].
  - cbn [forallb] in Hw. apply andb_true_iff in Hw. destruct Hw as [Ha Hw].
    destruct run as [| b run].
    + cbn [app map jsstring_eqb]. destruct rest as [| c rest].
      * split; [reflexivity | discriminate].
      * cbn [boundaryAfter] in Hrest. apply negb_true_iff in Hrest.
        cbn [matchesAt]. rewrite (canonicalize_word a c Ha Hrest).
        split; [reflexivity | discriminate].
    + cbn [forallb] in Hrun. apply andb_true_iff in Hrun.
      destruct Hrun as [Hb Hrun].
      cbn [app matchesAt map jsstring_eqb]. rewrite canonicalize_lower.
      destruct (_ =? _)%N; [| split; [reflexivity | discriminate]].
      cbn [andb]. exact (IH run Hw Hrun Hrest).
Qed.

Lemma sameWord_other (w : jsstring) (c : N) :
  plainWord w = true -> isWordChar c = false -> sameWord w [c] = false.
Proof.
  unfold plainWord, sameWord, asciiToLowerCase. intros Hw Hc.
  apply andb_true_iff in Hw. destruct Hw as [_ Hw].
  destruct w as [| a w]; [reflexivity |].
  cbn [forallb] in Hw. apply andb_true_iff in Hw. destruct Hw as [Ha _].
  cbn [map jsstring_eqb]. rewrite (lower_word a c Ha Hc). reflexivity.
Qed.

Lemma replaceWholeWords_other (w r : jsstring) (c : N) (s : jsstring) :
  plainWord w = true -> isWordChar c = false ->
  replaceWholeWords w r (c :: s) = c :: replaceWholeWords w r s.
Proof.
  intros Hw Hc. unfold replaceWholeWords.
  rewrite (tokens_other c s Hc). cbn [map concat].
  rewrite (sameWord_other w c Hw Hc). reflexivity.
Qed.

Lemma replaceWholeWords_run (w r run rest : jsstring) :
  run <> [] -> forallb isWordChar run = true -> boundaryAfter rest = true ->
  replaceWholeWords w r (run ++ rest) =
  (if sameWord w run then r else run) ++ replaceWholeWords w r rest.
Proof.
  intros Hne Hrun Hrest. unfold replaceWholeWords.
  rewrite (tokens_run run rest Hne Hrun Hrest). reflexivity.
Qed.

Lemma matchesAt_other (w : jsstring) (c : N) (s : jsstring) :
  plainWord w = true -> isWordChar c = false -> matchesAt w (c :: s) = None.
Proof.
  unfold plainWord. intros Hw Hc.
  apply andb_true_iff in Hw. destruct Hw as [Ht Hw].
  destruct w as [| a w]; [discriminate |].
  cbn [forallb] in Hw. apply andb_true_iff in Hw. destruct Hw as [Ha _].
  cbn [matchesAt]. rewrite (canonicalize_word a c Ha Hc). reflexivity.
Qed.

(** The scan of [replaceWord], in both of its states. *)
Lemma replaceWord_go_tokens (w r : jsstring) :
  plainWord w = true ->
  forall (fuel : nat) (s : jsstring),
    (length s < fuel)%nat ->
    replaceWord_go fuel w r s false = replaceWholeWords w r s /\
    (forall run rest,
       s = run ++ rest -> forallb isWordChar run = true ->
       boundaryAfter rest = true ->
       replaceWord_go fuel w r s true = run ++ replaceWholeWords w r rest).
Proof.
  intros Hw.
  assert (Hchars : forallb isWordChar w = true /\ truthy w = true).
  { unfold plainWord in Hw. apply andb_true_iff in Hw. tauto. }
  destruct Hchars as [Hchars Htruthy].
  induction fuel as [| fuel IH]; intros s Hlen; [lia |].
  split.
  - destruct s as [| c s]; [reflexivity |].
    cbn [length] in Hlen.
    destruct (isWordChar c) eqn:Hc.
    + destruct (word_prefix s) as (run & rest & -> & Hrun & Hrest).
      assert (Hrun' : forallb isWordChar (c :: run) = true)
        by (cbn [forallb]; rewrite Hc, Hrun; reflexivity).
      change (c :: run ++ rest) with ((c :: run) ++ rest).
      rewrite (replaceWholeWords_run w r (c :: run) rest
                 ltac:(discriminate) Hrun' Hrest).
      destruct (matchesAt_run w (c :: run) rest Hchars Hrun' Hrest)
        as [Hmatch Hsame].
      cbn [replaceWord_go]. cbn [app] in Hmatch, Hsame |- *.
      destruct (sameWord w (c :: run)).
      * rewrite (Hsame eq_refl), Hrest, Htruthy. cbn [andb].
        f_equal.
        destruct (IH rest) as [_ Htrue];
          [rewrite length_app in Hlen; lia |].
        exact (Htrue [] rest eq_refl eq_refl Hrest).
      * assert (Hstep : replaceWord_go fuel w r (run ++ rest) (isWordChar c) =
                        run ++ replaceWholeWords w r rest).
        { rewrite Hc. destruct (IH (run ++ rest)) as [_ Htrue]; [lia |].
          exact (Htrue run rest eq_refl Hrun Hrest). }
        destruct (matchesAt w (c :: run ++ rest)) as [rest' |].
        -- rewrite Hmatch. cbn [andb]. rewrite Hstep. reflexivity.
        -- rewrite Hstep. reflexivity.
    + cbn [replaceWord_go]. rewrite (matchesAt_other w c s Hw Hc), Hc.
      rewrite (replaceWholeWords_other w r c s Hw Hc). f_equal.
      destruct (IH s) as [Hfalse _]; [lia | exact Hfalse].
  - intros run rest -> Hrun Hrest. destruct run as [| c run].
    + cbn [app] in *. destruct rest as [| c rest]; [reflexivity |].
      cbn [boundaryAfter] in Hrest. apply negb_true_iff in Hrest.
      cbn [replaceWord_go]. rewrite Hrest.
      rewrite (replaceWholeWords_other w r c rest Hw Hrest). f_equal.
      cbn [length] in Hlen.
      destruct (IH rest) as [Hfalse _]; [lia | exact Hfalse].
    + cbn [forallb] in Hrun. apply andb_true_iff in Hrun.
      destruct Hrun as [Hc Hrun]. cbn [app replaceWord_go]. rewrite Hc.
      f_equal. cbn [app length] in Hlen.
      destruct (IH (run ++ rest)) as [_ Htrue]; [lia |].
      exact (Htrue run rest eq_refl Hrun Hrest).
Qed.

(** [text.replace(/\bw\b/gi, r)] replaces the whole words of the text that
    are [w], in whatever case. *)
Lemma replaceWord_whole_words (w r s : jsstring) :
  plainWord w = true -> replaceWord w r s = replaceWholeWords w r s.
Proof.
  intros Hw. unfold replaceWord.
  destruct (replaceWord_go_tokens w r Hw (S (length s)) s) as [H _];
    [lia | exact H].
Qed.

(** Where the expression has no match, replacing changes nothing. *)
Lemma replaceWord_go_no_match (fuel : nat) (w r s : jsstring) (prev : bool) :
  testWord_go w s prev = false -> replaceWord_go fuel w r s prev = s.
Proof.
  revert s prev. induction fuel as [| fuel IH]; intros s prev; [reflexivity |].
  destruct s as [| c s]; [reflexivity |].
  cbn [testWord_go replaceWord_go]. intros H.
  apply orb_false_iff in H. destruct H as [Hhere Hrest].
  rewrite (IH s _ Hrest).
  destruct prev; [reflexivity |]. cbn [negb andb] in Hhere.
  destruct (matchesAt w (c :: s)) as [rest |]; [| reflexivity].
  rewrite Hhere. reflexivity.
Qed.

Lemma test_then_replace (w r s : jsstring) :
  plainWord w = true ->
  (if testWord w s then replaceWord w r s else s) = replaceWholeWords w r s.
Proof.
  intros Hw. rewrite <- (replaceWord_whole_words w r s Hw).
  destruct (testWord w s) eqn:Ht; [reflexivity |].
  symmetry. exact (replaceWord_go_no_match _ w r s false Ht).
Qed.

Lemma fold_left_ext_Forall {A B : Type} (f g : A -> B -> A) (l : list B)
  (a : A) :
  Forall (fun y => forall x, f x y = g x y) l ->
  fold_left f l a = fold_left g l a.
Proof.
  intros Hall. revert a.
  induction Hall as [| y l Hy _ IH]; intros a; [reflexivity |].
  cbn [fold_left]. rewrite Hy. apply IH.
Qed.

Lemma lookupKey_In {A : Type} (k : jsstring) (t : list (jsstring * A)) (v : A) :
  lookupKey k t = Some v -> exists k', In (k', v) t.
Proof.
  induction t as [| [k' v'] t IH]; [discriminate |].
  cbn [lookupKey]. destruct (jsstring_eqb k k').
  - intros [= <-]. exists k'. left. reflexivity.
  - intros H. destruct (IH H) as [k'' Hin]. exists k''. right. exact Hin.
Qed.

(** The guard of the Cloud Function replaces whole words. *)
Lemma cleanMixedLanguageText_whole_words (text targetLanguage : jsstring) :
  cleanMixedLanguageText text targetLanguage =
  spec_cloudGuard targetLanguage text.
Proof.
  assert (Hrules : forall rules,
            forallb (fun rule => plainWord (u16 (fst rule))) rules = true ->
            applyWordRules rules text =
            fold_left
              (fun t rule =>
                 replaceWholeWords (u16 (fst rule)) (u16 (snd rule)) t)
              rules text).
  { intros rules Hplain. unfold applyWordRules.
    apply fold_left_ext_Forall. apply List.Forall_forall.
    intros rule Hin t. rewrite forallb_forall in Hplain.
    unfold applyWordRule.
    exact (replaceWord_whole_words _ _ t (Hplain rule Hin)). }
  unfold cleanMixedLanguageText, spec_cloudGuard, wordRulesFor.
  repeat (destruct (jsstring_eqb targetLanguage _);
          [apply Hrules; vm_compute; reflexivity |]).
  reflexivity.
Qed.

Section GuardProperties.

Context {rt : Runtime} {re : RegExpEngine}.

Variable FORBIDDEN_ENGLISH_WORDS : list jsstring.
Variable LANGUAGE_REPLACEMENTS : list (jsstring * list (jsstring * jsstring)).
Variable LANGUAGE_PHRASE_PATTERNS : list (jsstring * list (jsstring * jsstring)).
Variable LANGUAGE_WORD_PATTERNS : list (jsstring * list (jsstring * jsstring)).

Local Abbreviation cleanText :=
  (cleanSummaryText FORBIDDEN_ENGLISH_WORDS LANGUAGE_REPLACEMENTS
     LANGUAGE_PHRASE_PATTERNS LANGUAGE_WORD_PATTERNS).
Local Abbreviation validate :=
  (validateAndCleanSummaryLanguage FORBIDDEN_ENGLISH_WORDS
     LANGUAGE_REPLACEMENTS LANGUAGE_PHRASE_PATTERNS LANGUAGE_WORD_PATTERNS).
Local Abbreviation guard :=
  (spec_guard FORBIDDEN_ENGLISH_WORDS LANGUAGE_REPLACEMENTS
     LANGUAGE_PHRASE_PATTERNS LANGUAGE_WORD_PATTERNS).
Local Abbreviation tables :=
  (wordTables FORBIDDEN_ENGLISH_WORDS LANGUAGE_REPLACEMENTS
     LANGUAGE_WORD_PATTERNS).

Lemma wordStep_whole_words (text word replacement : jsstring) :
  plainWord word = true -> plainReplacement replacement = true ->
  wordStep text (word, replacement) =
  replaceWholeWords word replacement text.
Proof.
  intros Hw Hr. unfold wordStep, testWholeWord, replaceWholeWord.
  rewrite Hw, Hr. cbn [andb].
  exact (test_then_replace word replacement text Hw).
Qed.

(** The three loops: phrases, then words, then forbidden words. *)
Lemma cleanSummaryText_ordered (targetLanguage text : jsstring) :
  tables targetLanguage ->
  cleanText targetLanguage text = guard targetLanguage text.
Proof.
  intros (Hwords & Hforbidden & Hrepl).
  unfold cleanSummaryText, spec_guard.
  set (text1 := fold_left phraseStep _ text).
  assert (H1 : text1 =
               fold_left spec_phraseRule
                 (tableFor LANGUAGE_PHRASE_PATTERNS targetLanguage) text).
  { apply fold_left_ext_Forall. apply List.Forall_forall.
    intros [pattern replacement] _ t. reflexivity. }
  rewrite <- H1. clearbody text1.
  set (text2 := fold_left wordStep _ text1).
  assert (H2 : text2 =
               fold_left spec_wordRule
                 (tableFor LANGUAGE_WORD_PATTERNS targetLanguage) text1).
  { apply fold_left_ext_Forall.
    eapply List.Forall_impl; [| exact Hwords].
    intros [word replacement] [Hw Hr] t.
    exact (wordStep_whole_words t word replacement Hw Hr). }
  rewrite <- H2. clearbody text2.
  apply fold_left_ext_Forall.
  eapply List.Forall_impl; [| exact Hforbidden].
  intros word [Hw Hprop] t. unfold forbiddenStep, spec_forbiddenRule, getKey.
  destruct (lookupKey (toLowerCase word)
              (tableFor LANGUAGE_REPLACEMENTS targetLanguage))
    as [replacement |] eqn:Hlook.
  - destruct (lookupKey_In _ _ _ Hlook) as [k Hin].
    rewrite List.Forall_forall in Hrepl.
    pose proof (Hrepl _ Hin) as Hr. cbn [snd] in Hr.
    unfold testWholeWord, replaceWholeWord. rewrite Hw, Hr. cbn [andb].
    destruct (truthy replacement).
    + rewrite andb_true_r. exact (test_then_replace word replacement t Hw).
    + rewrite andb_false_r. reflexivity.
  - rewrite Hprop. reflexivity.
Qed.

Lemma validate_other_language (a : AIBookSummary) (targetLanguage : jsstring) :
  jsstring_eqb targetLanguage (u16 "en") = false ->
  validate a targetLanguage =
  setSummaries a (cleanText targetLanguage (shortSummary a))
    (cleanText targetLanguage (detailedSummary a)).
Proof.
  intros Hen. unfold validateAndCleanSummaryLanguage. rewrite Hen.
  f_equal.
  - destruct (jsstring_eqb (cleanText targetLanguage (shortSummary a))
                (shortSummary a)) eqn:E; cbn [negb]; [| reflexivity].
    apply jsstring_eqb_eq in E. congruence.
  - destruct (jsstring_eqb (cleanText targetLanguage (detailedSummary a))
                (detailedSummary a)) eqn:E; cbn [negb]; [| reflexivity].
    apply jsstring_eqb_eq in E. congruence.
Qed.


End GuardProperties.


(** The Cloud Function's guard on a text that mixes languages: whole words are
    replaced whatever their case, parts of longer words are left alone. *)
Example cleanMixedLanguageText_es :
  cleanMixedLanguageText
    (u16 "HISTORY of Art, prehistory and art-work") (u16 "es") =
  u16 "historia of arte, prehistory and arte-work".
Proof. reflexivity. Qed.

Example cleanMixedLanguageText_fr :
  cleanMixedLanguageText (u16 "History of Art") (u16 "fr") =
  u16 "History of Art".
Proof. reflexivity. Qed.

(** ** ConfidenceScorer *)

Module ScorerFacts.

Import Scorer.

Local Open Scope Q_scope.

Lemma Qmin_cases (a b : Q) : (a <= b /\ Qmin a b == a) \/ (b <= a /\ Qmin a b == b).
Proof.
  destruct (Q.min_spec a b) as [[H E] | [H E]]; [left | right]; split; auto; lra.
Qed.

Lemma Qmax_cases (a b : Q) : (a <= b /\ Qmax a b == b) \/ (b <= a /\ Qmax a b == a).
Proof.
  destruct (Q.max_spec a b) as [[H E] | [H E]]; [left | right]; split; auto; lra.
Qed.

Lemma clamp_id (x : Q) : 0 <= x -> x <= 100 -> Qmax 0 (Qmin 100 x) == x.
Proof.
  intros H0 H1.
  destruct (Qmin_cases 100 x) as [[? E] | [? E]];
  destruct (Qmax_cases 0 (Qmin 100 x)) as [[? E'] | [? E']]; lra.
Qed.

Lemma clamp_compat (x y : Q) : x == y -> Qmax 0 (Qmin 100 x) == Qmax 0 (Qmin 100 y).
Proof.
  intros H.
  destruct (Qmin_cases 100 x) as [[? E1] | [? E1]];
  destruct (Qmax_cases 0 (Qmin 100 x)) as [[? E2] | [? E2]];
  destruct (Qmin_cases 100 y) as [[? E3] | [? E3]];
  destruct (Qmax_cases 0 (Qmin 100 y)) as [[? E4] | [? E4]]; lra.
Qed.

Lemma dq_bounds b : 0 <= dataQualityScore b /\ dataQualityScore b <= 100.
Proof.
  unfold dataQualityScore.
  assert (Hd : 0 <= inject_Z (descriptionLength b)).
  { change 0 with (inject_Z 0). rewrite <- Zle_Qle. apply len_nonneg. }
  set (d := inject_Z (descriptionLength b)) in *.
  assert (Ht : d / 100 * 30 == d * (3 # 10)) by field.
  set (u := d / 100 * 30) in *.
  match goal with |- context [Qmin 100 ?e] => set (E := e) end.
  assert (HE : 0 <= E).
  { subst E. destruct (100 <? descriptionLength b)%Z, (hasCompleteMetadata b), (pageCountAvailable b), (categoriesAvailable b), (positive (bm_averageRating b)), (0 <? bm_ratingsCount b)%Z; lra. }
  destruct (Qmin_cases 100 E) as [[? E1] | [? E1]]; lra.
Qed.

Lemma topic_bounds b : 0 <= Scorer.topicCoverage b /\ Scorer.topicCoverage b <= 100.
Proof.
  unfold Scorer.topicCoverage.
  assert (Hd : 0 <= inject_Z (descriptionLength b)).
  { change 0 with (inject_Z 0). rewrite <- Zle_Qle. apply len_nonneg. }
  set (d := inject_Z (descriptionLength b)) in *.
  assert (Ht : d / 10 == d * (1 # 10)) by field.
  set (u := d / 10) in *.
  destruct (Qmin_cases 100 u) as [[? E1] | [? E1]]; lra.
Qed.

Lemma sr_bounds b : 41 <= sourceReliabilityScore b /\ sourceReliabilityScore b <= 81.
Proof.
  unfold sourceReliabilityScore, Scorer.publisherReliability, Scorer.authorCredibility, Scorer.metadataCompleteness.
  match goal with |- context [Qmin 100 ?e] => set (E := e) end.
  assert (HE : 41 <= E /\ E <= 81).
  { subst E. destruct (negb _), (bm_authors b) as [|a ?], (hasCompleteMetadata b); try destruct (negb (jsstring_eqb a _)); lra. }
  destruct (Qmin_cases 100 E) as [[? E1] | [? E1]]; lra.
Qed.

Lemma cc_bounds b : 30 <= contentCoverageScore b /\ contentCoverageScore b <= 91.
Proof.
  unfold contentCoverageScore, Scorer.thematicDepth, Scorer.conceptualClarity.
  destruct (topic_bounds b).
  set (t := Scorer.topicCoverage b) in *.
  match goal with |- context [Qmin 100 ?e] => set (E := e) end.
  assert (HE : 30 <= E /\ E <= 91).
  { subst E. destruct (categoriesAvailable b), (200 <? descriptionLength b)%Z; lra. }
  destruct (Qmin_cases 100 E) as [[? E1] | [? E1]]; lra.
Qed.

Lemma cv_bounds b : 71 <= crossValidationScore b /\ crossValidationScore b <= 86.
Proof.
  unfold crossValidationScore.
  match goal with |- context [Qmin 100 ?e] => set (E := e) end.
  assert (HE : 71 <= E /\ E <= 86).
  { subst E. destruct (hasCompleteMetadata b), (categoriesAvailable b); lra. }
  destruct (Qmin_cases 100 E) as [[? E1] | [? E1]]; lra.
Qed.

Lemma ai_value uf ta : aiProcessingScore uf ta == (if uf then 90 else 91) - (if ta then 6 else 0).
Proof.
  unfold aiProcessingScore, aiConstants. cbn.
  match goal with |- context [Qmin 100 ?e] => set (E := e) end.
  assert (HE : E == (if uf then 90 else 91) - (if ta then 6 else 0)).
  { subst E. destruct uf, ta; lra. }
  destruct (Qmin_cases 100 E) as [[? E1] | [? E1]]; destruct uf, ta; lra.
Qed.

Lemma overall_unclamped b uf ta :
  overallScoreRaw b uf ta ==
  dataQualityScore b * (25 # 100) + sourceReliabilityScore b * (25 # 100) +
  contentCoverageScore b * (2 # 10) + aiProcessingScore uf ta * (15 # 100) +
  crossValidationScore b * (15 # 100) - translationPenalty ta /\
  29 <= overallScoreRaw b uf ta /\ overallScoreRaw b uf ta <= 90.
Proof.
  unfold overallScoreRaw.
  destruct (dq_bounds b), (sr_bounds b), (cc_bounds b), (cv_bounds b).
  pose proof (ai_value uf ta) as Hai.
  set (dq := dataQualityScore b) in *. set (sr := sourceReliabilityScore b) in *.
  set (cc := contentCoverageScore b) in *. set (cv := crossValidationScore b) in *.
  set (ai := aiProcessingScore uf ta) in *.
  match goal with |- context [Qmin 100 ?e] => set (E := e) end.
  assert (HE : 29 <= E /\ E <= 90).
  { subst E. unfold translationPenalty. destruct uf, ta; lra. }
  pose proof (clamp_id E) as Hid.
  split; [apply Hid; lra |]. rewrite Hid by lra. lra.
Qed.

Lemma Math_round_lt (x y : Q) : x + 1 <= y -> (Math_round x < Math_round y)%Z.
Proof.
  intros Hxy. unfold Math_round.
  pose proof (Qfloor_le (x + (1 # 2))) as Hx.
  pose proof (Qlt_floor (y + (1 # 2))) as Hy.
  rewrite inject_Z_plus in Hy.
  rewrite Zlt_Qlt. change (inject_Z 1) with 1 in Hy. lra.
Qed.

Lemma overall_lower b uf :
  (overallScore (fst (calculateDetailedConfidence b uf true)) <
   overallScore (fst (calculateDetailedConfidence b uf false)))%Z.
Proof.
  cbn [calculateDetailedConfidence fst overallScore].
  apply Math_round_lt.
  destruct (overall_unclamped b uf true) as (Et & _ & _).
  destruct (overall_unclamped b uf false) as (Ef & _ & _).
  pose proof (ai_value uf true) as At. pose proof (ai_value uf false) as Af.
  unfold translationPenalty in *.
  rewrite Et, Ef. destruct uf; lra.
Qed.

(** [Math.round] yields the nearest integer. *)
Lemma Math_round_nearest (x : Q) :
  inject_Z (Math_round x) - (1 # 2) <= x /\
  x < inject_Z (Math_round x) + (1 # 2).
Proof.
  unfold Math_round.
  pose proof (Qfloor_le (x + (1 # 2))) as Hlo.
  pose proof (Qlt_floor (x + (1 # 2))) as Hhi.
  rewrite inject_Z_plus in Hhi. change (inject_Z 1) with 1 in Hhi.
  split; lra.
Qed.

Lemma Math_round_between (a b : Z) (x : Q) :
  inject_Z a <= x -> x <= inject_Z b -> (a <= Math_round x <= b)%Z.
Proof.
  intros Ha Hb. destruct (Math_round_nearest x) as [Hlo Hhi].
  split.
  - apply Z.lt_succ_r. rewrite Zlt_Qlt. unfold Z.succ.
    rewrite inject_Z_plus. change (inject_Z 1) with 1. lra.
  - apply Z.lt_succ_r. rewrite Zlt_Qlt. unfold Z.succ.
    rewrite inject_Z_plus. change (inject_Z 1) with 1. lra.
Qed.

(** The clamp never cuts: the overall score lies between 29 and 90. *)
Lemma overall_score_range (b : BookMetadata) (uf ta : bool) :
  (29 <= overallScore (fst (calculateDetailedConfidence b uf ta)) <= 90)%Z.
Proof.
  cbn [calculateDetailedConfidence fst overallScore].
  destruct (overall_unclamped b uf ta) as (_ & Hlo & Hhi).
  apply Math_round_between; assumption.
Qed.

(** With exact arithmetic the overall score is the rounding of the formula of
    the specification, and every sub-score of the output is the rounding of
    the sub-score the formula uses. *)
Lemma exact_overall_score_formula (b : BookMetadata) (uf ta : bool) :
  overallScore (fst (calculateDetailedConfidence b uf ta)) =
  Math_round
    (spec_overall (dataQualityScore b) (sourceReliabilityScore b)
       (contentCoverageScore b) (aiProcessingScore uf ta)
       (crossValidationScore b) ta) /\
  detailedBreakdown (fst (calculateDetailedConfidence b uf ta)) =
  {| bd_dataQuality := Math_round (dataQualityScore b);
     bd_sourceReliability := Math_round (sourceReliabilityScore b);
     bd_contentCoverage := Math_round (contentCoverageScore b);
     bd_aiProcessing := Math_round (aiProcessingScore uf ta);
     bd_crossValidation := Math_round (crossValidationScore b) |} /\
  cm_sourceReliability (fst (calculateDetailedConfidence b uf ta)) =
  Math_round (sourceReliabilityScore b) /\
  cm_contentCoverage (fst (calculateDetailedConfidence b uf ta)) =
  Math_round (contentCoverageScore b) /\
  crossReferenceValidation (fst (calculateDetailedConfidence b uf ta)) =
  Math_round (crossValidationScore b) /\
  f_translationPenalty (cm_factors (fst (calculateDetailedConfidence b uf ta))) =
  (if ta then 10 else 0).
Proof.
  split; [| repeat split].
  cbn [calculateDetailedConfidence fst overallScore].
  unfold Math_round. apply Qfloor_comp. apply Qplus_inj_r.
  unfold overallScoreRaw, spec_overall, clamp. apply clamp_compat.
  unfold translationPenalty, spec_translationPenalty. destruct ta; ring.
Qed.

(** C2 (as amended). Of two runs of the scorer that differ only in
    [translationApplied], the one with a translation has the same
    [languageConsistency] constant, a strictly lower [translationQuality], a
    strictly lower AI processing score and a strictly lower overall score. It
    is in the attribution record of the Cloud Function that
    [aiProcessing.languageConsistency] is lower under a translation: 75
    against 95, with a group score of 75 against 88 or 90. *)
Theorem translation_lowers_scores (b : BookMetadata) (uf : bool) :
  languageConsistency (aiConstants uf true) =
  languageConsistency (aiConstants uf false) /\
  translationQuality (aiConstants uf true) <
  translationQuality (aiConstants uf false) /\
  aiProcessingScore uf true < aiProcessingScore uf false /\
  (overallScore (fst (calculateDetailedConfidence b uf true)) <
   overallScore (fst (calculateDetailedConfidence b uf false)))%Z /\
  (forall r : SummaryRequest,
     cloudLanguageConsistency r uf =
     (if cloudTranslationApplied r then 75 else 95)%Z /\
     score (cloudAiProcessing r uf) =
     (if cloudTranslationApplied r then 75
      else if uf then 88 else 90)%Z).
Proof.
  split; [reflexivity |]. split; [cbn; lra |].
  split; [rewrite !ai_value; destruct uf; lra |].
  split; [apply overall_lower |].
  intros r. unfold cloudLanguageConsistency, cloudAiProcessing,
    cloudTranslationApplied. cbn.
  destruct (negb (jsstring_eqb (language r) (targetLanguage r))), uf;
    split; reflexivity.
Qed.

(** C2 as stated fails: the scorer picks [languageConsistency] by
    [usesFallback] alone, so the two runs agree on it. *)
Lemma translation_keeps_language_consistency :
  languageConsistency (aiConstants false true) = 85 /\
  languageConsistency (aiConstants false false) = 85 /\
  ~ (languageConsistency (aiConstants false true) <
     languageConsistency (aiConstants false false)).
Proof. split; [reflexivity |]. split; [reflexivity |]. cbn. lra. Qed.

(** The scenario's book: 78 without and 67 with a translation. *)
Example overall_score_nexus :
  overallScore (fst (calculateDetailedConfidence nexusBook false false)) = 78%Z /\
  overallScore (fst (calculateDetailedConfidence nexusBook false true)) = 67%Z.
Proof. split; vm_compute; reflexivity. Qed.

End ScorerFacts.

Module Scorer64Facts.

Import Scorer64.

Lemma mul_comm (x y : float) : mul x y = mul y x.
Proof.
  unfold mul, SFmul.
  destruct x as [sx | sx | | sx mx ex], y as [sy | sy | | sy my ey];
    try reflexivity; try (rewrite xorb_comm; reflexivity).
  rewrite xorb_comm, Pos.mul_comm, Z.add_comm. reflexivity.
Qed.

(** C1 (as amended). For every book and every combination of the two flags,
    the overall score of the scorer is [Math.round] of
    max(0, min(100, 0.25 dataQuality + 0.25 sourceReliability +
    0.2 contentCoverage + 0.15 aiProcessing + 0.15 crossValidation - penalty)),
    computed with the arithmetic of doubles in the order written, with a
    penalty of 10 exactly when a translation was applied; and every sub-score
    of the output is [Math.round] of the sub-score the formula uses. *)
Theorem overall_score_formula_binary64 (b : BookMetadata) (uf ta : bool) :
  overallScore (fst (calculateDetailedConfidence b uf ta)) =
  Math_round
    (spec_overall64 (dataQualityScore b) (sourceReliabilityScore b)
       (contentCoverageScore b) (aiProcessingScore uf ta)
       (crossValidationScore b) ta) /\
  detailedBreakdown (fst (calculateDetailedConfidence b uf ta)) =
  {| bd_dataQuality := Math_round (dataQualityScore b);
     bd_sourceReliability := Math_round (sourceReliabilityScore b);
     bd_contentCoverage := Math_round (contentCoverageScore b);
     bd_aiProcessing := Math_round (aiProcessingScore uf ta);
     bd_crossValidation := Math_round (crossValidationScore b) |} /\
  cm_sourceReliability (fst (calculateDetailedConfidence b uf ta)) =
  Math_round (sourceReliabilityScore b) /\
  cm_contentCoverage (fst (calculateDetailedConfidence b uf ta)) =
  Math_round (contentCoverageScore b) /\
  crossReferenceValidation (fst (calculateDetailedConfidence b uf ta)) =
  Math_round (crossValidationScore b) /\
  f_translationPenalty (cm_factors (fst (calculateDetailedConfidence b uf ta))) =
  (if ta then ofZ 10 else ofZ 0).
Proof.
  split; [| repeat split].
  cbn [calculateDetailedConfidence fst overallScore].
  unfold overallScoreRaw, spec_overall64, translationPenalty.
  rewrite !(mul_comm (dec _ _)). reflexivity.
Qed.

(** C1 as stated fails when the formula is read over the real numbers: on the
    sparse record the five sub-scores are 45, 41, 79, 91 and 77 in either
    arithmetic, and the formula gives 62.5, which rounds to 63; the products
    by 0.2 and by 0.15 are not exact in doubles, their sum comes out just
    below 62.5, and the scorer answers 62. *)
Lemma overall_score_differs_from_exact :
  detailedBreakdown (fst (calculateDetailedConfidence sparseBook false false)) =
  {| bd_dataQuality := ofZ 45;
     bd_sourceReliability := ofZ 41;
     bd_contentCoverage := ofZ 79;
     bd_aiProcessing := ofZ 91;
     bd_crossValidation := ofZ 77 |} /\
  overallScore (fst (calculateDetailedConfidence sparseBook false false)) =
  ofZ 62 /\
  spec_overall 45 41 79 91 77 false == 125 # 2 /\
  Scorer.Math_round (spec_overall 45 41 79 91 77 false) = 63.
Proof.
  split; [vm_compute; reflexivity |]. split; [vm_compute; reflexivity |].
  split; vm_compute; reflexivity.
Qed.

(** The scenario's book: 78 without and 67 with a translation, as with exact
    arithmetic. *)
Example overall_score_nexus_binary64 :
  overallScore (fst (calculateDetailedConfidence nexusBook false false)) =
  ofZ 78 /\
  overallScore (fst (calculateDetailedConfidence nexusBook false true)) =
  ofZ 67.
Proof. split; vm_compute; reflexivity. Qed.

End Scorer64Facts.

(** * More properties of the Cloud Function *)

Section CounterFacts.

Context {rt : Runtime}.

Local Abbreviation hourKey env req :=
  (rateLimitDocId (getClientIp req) (now env)).


(** X3. At the monthly cap the request is answered 503 after the hourly counter
    of the client was raised: the monthly document is read and left as it
    is, and the upstream service is not called. *)
Theorem global_limit_refusal (env : Env) (req : HttpRequest) (w : World) :
  atCap (rateLimits w !! hourKey env req) MAX_REQUESTS_PER_HOUR = false ->
  atCap (globalUsage w !! monthKey env) MAX_GLOBAL_REQUESTS_PER_MONTH = true ->
  let doc := {| count := countOrZero (rateLimits w !! hourKey env req) + 1;
                timestamp := hourStartOf (now env) |} in
  fst (generateBookSummary env req w) =
    Sent (respond 503
            (ErrorBody (Some false)
               (u16 "Service temporarily unavailable: free tier usage limit reached.")
               None)) /\
  summaryOf (fst (generateBookSummary env req w)) = None /\
  rateLimits (snd (generateBookSummary env req w)) =
    <[hourKey env req := doc]> (rateLimits w) /\
  globalUsage (snd (generateBookSummary env req w)) = globalUsage w /\
  eventsOf env req w =
    [DbGet "rateLimits" (hourKey env req);
     DbSet "rateLimits" (hourKey env req) doc;
     DbGet "globalUsage" (monthKey env)].
Proof.
  intros Hhour Hmonth doc. unfold eventsOf.
  unfold generateBookSummary, isRateLimited, isGlobalLimitReached.
  rewrite Hhour. cbn [rateLimits globalUsage setRateLimit record].
  rewrite Hmonth. cbn [fst snd rateLimits globalUsage trace record].
  split; [reflexivity |]. split; [reflexivity |].
  split; [reflexivity |]. split; [reflexivity |].
  cbn [trace setRateLimit record].
  rewrite <- !app_assoc, drop_app_length. reflexivity.
Qed.


Lemma eventsOf_reaches (env : Env) (req : HttpRequest) (w : World)
  (r : SummaryRequest) :
  reachesUpstream env req w r ->
  exists doc1 doc2,
    eventsOf env req w =
    [DbGet "rateLimits" (hourKey env req);
     DbSet "rateLimits" (hourKey env req) doc1;
     DbGet "globalUsage" (monthKey env);
     DbSet "globalUsage" (monthKey env) doc2] ++
    snd (callOpenAIWithRetry (create env) 3).
Proof.
  intros (Hhour & Hmonth & Hbody & Hpost & Hkey). unfold eventsOf.
  unfold generateBookSummary, isRateLimited, isGlobalLimitReached.
  rewrite Hhour. cbn [rateLimits globalUsage setRateLimit record].
  rewrite Hmonth, Hbody. unfold tryBlock. rewrite Hpost, Hkey.
  change (jsstring_eqb (u16 "POST") (u16 "POST")) with true. cbn [negb].
  destruct (callOpenAIWithRetry (create env) 3) as [result events].
  do 2 eexists.
  destruct result as [content | e |].
  - destruct (negb (truthy (orEmpty content)));
      [| destruct (JSON_parse (orEmpty content))];
      cbn [fst snd trace record setGlobalUsage setRateLimit];
      rewrite <- !app_assoc, drop_app_length; reflexivity.
  - cbn [fst snd trace record setGlobalUsage setRateLimit].
    rewrite <- !app_assoc, drop_app_length; reflexivity.
  - cbn [fst snd trace record setGlobalUsage setRateLimit].
    rewrite <- !app_assoc, drop_app_length; reflexivity.
Qed.

Lemma eventsOf_no_call (env : Env) (req : HttpRequest) (w : World) :
  (forall r, ~ reachesUpstream env req w r) ->
  apiCallsOf (eventsOf env req w) = [] /\ sleepsOf (eventsOf env req w) = [].
Proof.
  intros Hno. unfold eventsOf.
  unfold generateBookSummary, isRateLimited, isGlobalLimitReached.
  destruct (atCap (rateLimits w !! _) MAX_REQUESTS_PER_HOUR) eqn:Hhour.
  { cbn [fst snd trace record setRateLimit]. rewrite drop_app_length. split; reflexivity. }
  cbn [rateLimits globalUsage setRateLimit record].
  destruct (atCap (globalUsage w !! _) MAX_GLOBAL_REQUESTS_PER_MONTH) eqn:Hmonth.
  { cbn [fst snd trace record setRateLimit].
    rewrite <- !app_assoc, drop_app_length. split; reflexivity. }
  destruct (validBody (req_body req)) as [r |] eqn:Hbody.
  2:{ cbn [fst snd trace record setGlobalUsage setRateLimit].
      rewrite <- !app_assoc, drop_app_length. split; reflexivity. }
  unfold tryBlock.
  destruct (jsstring_eqb (req_method req) (u16 "POST")) eqn:Hpost; cbn [negb].
  2:{ cbn [fst snd trace record setGlobalUsage setRateLimit].
      rewrite <- !app_assoc, drop_app_length. split; reflexivity. }
  destruct (truthy (apiKey env)) eqn:Hkey; cbn [negb].
  2:{ cbn [fst snd trace record setGlobalUsage setRateLimit].
      rewrite <- !app_assoc, drop_app_length. split; reflexivity. }
  exfalso. apply (Hno r). apply jsstring_eqb_eq in Hpost.
  repeat split; assumption.
Qed.

Lemma classic_reach (env : Env) (req : HttpRequest) (w : World) :
  (exists r, reachesUpstream env req w r) \/
  (forall r, ~ reachesUpstream env req w r).
Proof.
  unfold reachesUpstream.
  destruct (atCap (rateLimits w !! hourKey env req) MAX_REQUESTS_PER_HOUR);
    [right; intros r (H & _); discriminate |].
  destruct (atCap (globalUsage w !! monthKey env) MAX_GLOBAL_REQUESTS_PER_MONTH);
    [right; intros r (_ & H & _); discriminate |].
  destruct (validBody (req_body req)) as [r |];
    [| right; intros r (_ & _ & H & _); discriminate].
  destruct (jsstring_eqb (req_method req) (u16 "POST")) eqn:Hpost.
  2:{ right. intros r' (_ & _ & _ & H & _).
      apply jsstring_eqb_neq in Hpost. contradiction. }
  destruct (truthy (apiKey env));
    [| right; intros r' (_ & _ & _ & _ & H); discriminate].
  left. exists r. apply jsstring_eqb_eq in Hpost. auto.
Qed.

Lemma retry_events_shape (create : nat -> CallOutcome) :
  In (snd (callOpenAIWithRetry create 3))
     [[ApiCall 0];
      [ApiCall 0; Sleep 500; ApiCall 1];
      [ApiCall 0; Sleep 500; ApiCall 1; Sleep 1000; ApiCall 2]].
Proof.
  rewrite callOpenAIWithRetry_cases.
  destruct (create 0%nat) as [c | e0]; [cbn; tauto |].
  destruct (isRateLimitForRetry e0); [| cbn; tauto].
  destruct (create 1%nat) as [c | e1]; [cbn; tauto |].
  destruct (isRateLimitForRetry e1); [| cbn; tauto].
  destruct (create 2%nat) as [c | e2]; cbn; tauto.
Qed.

(** X5. The upstream service is called exactly when the request passes every
    check before the call (both caps, title and ISBN, POST, a configured API
    key); then the attempts are numbered 0, 1, 2 in order, at most three of
    them, and the handler waits 1500 ms at most in all. *)
Theorem upstream_calls_bounded (env : Env) (req : HttpRequest) (w : World) :
  (apiCallsOf (eventsOf env req w) <> [] <->
   exists r, reachesUpstream env req w r) /\
  In (apiCallsOf (eventsOf env req w))
     [[]; [0%nat]; [0%nat; 1%nat]; [0%nat; 1%nat; 2%nat]] /\
  0 <= totalSleep (eventsOf env req w) <= 1500.
Proof.
  destruct (classic_reach env req w) as [[r Hr] | Hno].
  - destruct (eventsOf_reaches env req w r Hr) as (d1 & d2 & ->).
    pose proof (retry_events_shape (create env)) as Hshape.
    destruct Hshape as [Hs | [Hs | [Hs | []]]]; rewrite <- Hs; cbn.
    all: (split; [split; [intros _; exists r; exact Hr | discriminate] |]).
    all: split; [tauto | unfold totalSleep; cbn; lia].
  - destruct (eventsOf_no_call env req w Hno) as [Hc Hs].
    unfold totalSleep. rewrite Hc, Hs. cbn.
    split; [split; [congruence | intros [r Hr]; destruct (Hno r Hr)] |].
    split; [tauto | lia].
Qed.

End CounterFacts.


Lemma global_limit_refusal_witness :
  statusOf
    (fst (@generateBookSummary exampleRuntime
            (exampleEnv (fun _ => Resolved None)) nexusRequest
            monthlyCapWorld)) = Some 503.
Proof.
  pose proof (@global_limit_refusal exampleRuntime
                (exampleEnv (fun _ => Resolved None)) nexusRequest
                monthlyCapWorld
                ltac:(vm_compute; reflexivity) ltac:(vm_compute; reflexivity))
    as H.
  cbv zeta in H. destruct H as (H & _). rewrite H. reflexivity.
Defined.


Section HandlerFacts.

Context {rt : Runtime}.

Lemma handleError_status (env : Env) (r : SummaryRequest) (e : JsError)
  (resp : HttpResponse) :
  handleError env r e = Sent resp ->
  In (status resp) [200; 401; 429; 500] /\
  (status resp = 200 <-> summaryOf (Sent resp) <> None).
Proof.
  unfold handleError.
  destruct (isRateLimitForFallback e).
  { destruct (fallbackSummaryOf env r); [| discriminate].
    intros [= <-]. cbn. split; [tauto | split; [discriminate | reflexivity]]. }
  destruct (isQuotaExceeded e);
    [| destruct (messageIncludes "API key" e)];
    intros [= <-]; cbn;
    (split; [tauto | split; [discriminate | intros H; destruct H; reflexivity]]).
Qed.

Lemma tryBlock_status (env : Env) (req : HttpRequest) (r : SummaryRequest)
  (resp : HttpResponse) :
  fst (tryBlock env req r) = inl resp ->
  In (status resp) [200; 405; 500] /\
  (status resp = 200 <-> summaryOf (Sent resp) <> None).
Proof.
  unfold tryBlock.
  destruct (negb (jsstring_eqb (req_method req) (u16 "POST"))).
  { intros [= <-]. cbn. split; [tauto |].
    split; [discriminate | intros H; destruct H; reflexivity]. }
  destruct (negb (truthy (apiKey env))).
  { intros [= <-]. cbn. split; [tauto |].
    split; [discriminate | intros H; destruct H; reflexivity]. }
  destruct (callOpenAIWithRetry (create env) 3) as [result evs].
  destruct result as [content | e |]; try discriminate.
  destruct (negb (truthy (orEmpty content))); [discriminate |].
  destruct (JSON_parse (orEmpty content)) as [m | p]; [discriminate |].
  intros [= <-]. cbn. split; [tauto |]. split; [discriminate | reflexivity].
Qed.

(** A request that does not get as far as the upstream call is answered with
    an error. *)
Lemma generateBookSummary_stopped (env : Env) (req : HttpRequest) (w : World) :
  (forall r, ~ reachesUpstream env req w r) ->
  exists resp,
    fst (generateBookSummary env req w) = Sent resp /\
    In (status resp) [400; 405; 429; 500; 503] /\
    summaryOf (Sent resp) = None.
Proof.
  intros Hno.
  unfold generateBookSummary, isRateLimited, isGlobalLimitReached.
  destruct (atCap (rateLimits w !! _) MAX_REQUESTS_PER_HOUR) eqn:Hhour.
  { eexists. split; [reflexivity |]. cbn. split; [tauto | reflexivity]. }
  cbn [rateLimits globalUsage setRateLimit record].
  destruct (atCap (globalUsage w !! _) MAX_GLOBAL_REQUESTS_PER_MONTH) eqn:Hmonth.
  { eexists. split; [reflexivity |]. cbn. split; [tauto | reflexivity]. }
  destruct (validBody (req_body req)) as [r |] eqn:Hbody.
  2:{ eexists. split; [reflexivity |]. cbn. split; [tauto | reflexivity]. }
  unfold tryBlock.
  destruct (jsstring_eqb (req_method req) (u16 "POST")) eqn:Hpost; cbn [negb].
  2:{ eexists. split; [reflexivity |]. cbn. split; [tauto | reflexivity]. }
  destruct (truthy (apiKey env)) eqn:Hkey; cbn [negb].
  2:{ eexists. split; [reflexivity |]. cbn. split; [tauto | reflexivity]. }
  exfalso. apply (Hno r). apply jsstring_eqb_eq in Hpost.
  repeat split; assumption.
Qed.

(** X1. The status of a response is one of seven codes, and a response carries
    a summary exactly when its status is 200. The handler ends without any
    response in one case only: the attempt fails with an error in which the
    [catch] block sees the rate-limit signal, and the target language names
    a member that every object inherits, so that the fallback generator
    throws inside the [catch] block. *)
Theorem response_status_codes (env : Env) (req : HttpRequest) (w : World) :
  (forall response,
     fst (generateBookSummary env req w) = Sent response ->
     In (status response) [200; 400; 401; 405; 429; 500; 503] /\
     (status response = 200 <-> summaryOf (Sent response) <> None)) /\
  (fst (generateBookSummary env req w) = NoResponse <->
   exists r e,
     reachesUpstream env req w r /\ upstreamFailsWith env e /\
     isRateLimitForFallback e = true /\ ~ ownOrAbsent (targetLanguage r)).
Proof.
  destruct (classic_reach env req w) as [[r Hr] | Hno].
  - rewrite (generateBookSummary_reaches env req w r Hr).
    pose proof Hr as (_ & _ & Hbody & Hpost & Hkey).
    destruct (fst (tryBlock env req r)) as [resp | e] eqn:Htry.
    + split.
      * intros response [= <-].
        destruct (tryBlock_status env req r resp Htry) as [Hin Hiff].
        split; [| exact Hiff]. cbn in Hin |- *. tauto.
      * split; [discriminate |].
        intros (r' & e & Hr' & Hfail & _).
        destruct Hr' as (_ & _ & Hbody' & _).
        assert (r' = r) as -> by congruence.
        apply (tryBlock_error env req r e Hpost Hkey) in Hfail. congruence.
    + split.
      * intros response Hresp.
        destruct (handleError_status env r e response Hresp) as [Hin Hiff].
        split; [| exact Hiff]. cbn in Hin |- *. tauto.
      * rewrite handleError_no_response. split.
        -- intros [HRL Hnone]. exists r, e.
           split; [exact Hr |].
           split; [apply (tryBlock_error env req r e Hpost Hkey); exact Htry |].
           split; [exact HRL |].
           intros Hcode.
           destruct (fallbackSummaryOf_returns env r Hcode)
             as (s1 & s2 & _ & _ & Hfb).
           congruence.
        -- intros (r' & e' & Hr' & Hfail & HRL & Hcode).
           destruct Hr' as (_ & _ & Hbody' & _).
           assert (r' = r) as -> by congruence.
           apply (tryBlock_error env req r e' Hpost Hkey) in Hfail.
           assert (e' = e) as -> by congruence.
           split; [exact HRL | exact (fallbackSummaryOf_throws env r Hcode)].
  - destruct (generateBookSummary_stopped env req w Hno)
      as (resp & -> & Hin & Hnone).
    split.
    + intros response [= <-]. split; [cbn in Hin |- *; tauto |].
      rewrite Hnone. split; [| intros H; destruct H; reflexivity].
      intros H200. rewrite H200 in Hin. cbn in Hin.
      repeat (destruct Hin as [Hin | Hin]; [discriminate |]). destruct Hin.
    + split; [discriminate |].
      intros (r & e & Hr & _). destruct (Hno r Hr).
Qed.

End HandlerFacts.

(** ** The client address and the document ids *)

(** X6. [getClientIp] never answers the empty string: it is the text before the
    first comma of [x-forwarded-for] when that is not empty, else the remote
    address when there is one that is not empty, else [unknown]. *)
Theorem getClientIp_cases (req : HttpRequest) :
  truthy (getClientIp req) = true /\
  (forall h, req_forwardedFor req = Some h -> truthy (beforeComma h) = true ->
     getClientIp req = beforeComma h /\ ~ In 44%N (getClientIp req)) /\
  ((forall h, req_forwardedFor req = Some h -> beforeComma h = []) ->
   forall a, req_remoteAddress req = Some a -> truthy a = true ->
     getClientIp req = a) /\
  ((forall h, req_forwardedFor req = Some h -> beforeComma h = []) ->
   (forall a, req_remoteAddress req = Some a -> a = []) ->
   getClientIp req = u16 "unknown").
Proof.
  assert (Hcomma : forall h, ~ In 44%N (beforeComma h)).
  { induction h as [| c h IH]; cbn [beforeComma]; [intros [] |].
    destruct (N.eqb_spec c 44); [intros [] |].
    intros [Hc | H]; [congruence | exact (IH H)]. }
  unfold getClientIp, orElse. repeat split.
  - destruct (req_forwardedFor req) as [h |].
    + destruct (truthy (beforeComma h)) eqn:Hh; [exact Hh |].
      destruct (req_remoteAddress req) as [a |]; [| reflexivity].
      destruct (truthy a) eqn:Ha; [exact Ha | reflexivity].
    + cbn. destruct (req_remoteAddress req) as [a |]; [| reflexivity].
      destruct (truthy a) eqn:Ha; [exact Ha | reflexivity].
  - rewrite H, H0. reflexivity.
  - rewrite H, H0. apply Hcomma.
  - intros Hfwd a Haddr Ha. rewrite Haddr, Ha.
    destruct (req_forwardedFor req) as [h |]; [| reflexivity].
    rewrite (Hfwd h eq_refl). reflexivity.
  - intros Hfwd Haddr.
    destruct (req_forwardedFor req) as [h |].
    + rewrite (Hfwd h eq_refl). cbn.
      destruct (req_remoteAddress req) as [a |]; [| reflexivity].
      rewrite (Haddr a eq_refl). reflexivity.
    + cbn. destruct (req_remoteAddress req) as [a |]; [| reflexivity].
      rewrite (Haddr a eq_refl). reflexivity.
Qed.

Lemma getClientIp_cases_witness :
  (getClientIp nexusRequest = beforeComma (u16 "203.0.113.7, 10.0.0.1") /\
   ~ In 44%N (getClientIp nexusRequest)) /\
  getClientIp directRequest = u16 "198.51.100.23".
Proof.
  split.
  - exact (proj1 (proj2 (getClientIp_cases nexusRequest))
             (u16 "203.0.113.7, 10.0.0.1")
             ltac:(vm_compute; reflexivity) ltac:(vm_compute; reflexivity)).
  - refine (proj1 (proj2 (proj2 (getClientIp_cases directRequest))) _
              (u16 "198.51.100.23")
              ltac:(vm_compute; reflexivity) ltac:(vm_compute; reflexivity)).
    intros h [= <-]. reflexivity.
Defined.

(** The decimal text of a number has digits and at most a minus sign. *)
Lemma pretty_N_go_chars (P : ascii -> Prop) :
  (forall d, (d < 10)%N -> P (pretty_N_char d)) ->
  forall x s, Forall P (list_ascii_of_string s) ->
  Forall P (list_ascii_of_string (pretty_N_go x s)).
Proof.
  intros Hd x. induction (N.lt_wf_0 x) as [x _ IH]. intros s Hs.
  destruct (N.eq_dec x 0%N) as [-> | Hx].
  - rewrite pretty_N_go_0. exact Hs.
  - rewrite pretty_N_go_step by lia. apply IH.
    + apply N.div_lt; lia.
    + cbn. constructor; [| exact Hs]. apply Hd. apply N.mod_lt. lia.
Qed.

Lemma numToString_chars (n : Z) :
  Forall (fun c => isDigit c = true \/ c = 45%N) (numToString n).
Proof.
  unfold numToString. rewrite Forall_map.
  set (P := fun a : ascii => isDigit (N_of_ascii a) = true \/ N_of_ascii a = 45%N).
  assert (Hd : forall d, (d < 10)%N -> P (pretty_N_char d)).
  { intros d Hlt. left.
    assert (Hcases : (d = 0 \/ d = 1 \/ d = 2 \/ d = 3 \/ d = 4 \/ d = 5 \/
                      d = 6 \/ d = 7 \/ d = 8 \/ d = 9)%N) by lia.
    repeat (destruct Hcases as [-> | Hcases]; [reflexivity |]).
    rewrite Hcases. reflexivity. }
  assert (HN : forall x : N, Forall P (list_ascii_of_string (pretty x))).
  { intros x. unfold pretty, pretty_N. destruct (decide (x = 0%N)).
    - repeat constructor.
    - apply pretty_N_go_chars; [exact Hd | constructor]. }
  destruct n as [| p | p].
  - repeat constructor.
  - apply (HN (Npos p)).
  - change (pretty (Z.neg p)) with (String "-" (pretty (Npos p))).
    cbn. constructor; [right; reflexivity | apply (HN (Npos p))].
Qed.

Lemma app_sep_inj {A : Type} (c : A) (a b x y : list A) :
  ~ In c x -> ~ In c y -> a ++ c :: x = b ++ c :: y -> a = b /\ x = y.
Proof.
  intros Hx Hy. revert b. induction a as [| a0 a IH]; intros [| b0 b] H.
  - injection H as H. auto.
  - cbn in H. injection H as <- ->. destruct Hx. apply in_or_app.
    right. left. reflexivity.
  - cbn in H. injection H as -> <-. destruct Hy. apply in_or_app.
    right. left. reflexivity.
  - cbn in H. injection H as <- H. destruct (IH b H) as [-> ->]. auto.
Qed.

(** Two document ids of the hourly counter are equal only for the same
    client address and the same clock hour. *)
Lemma rateLimitDocId_inj2 (ip1 ip2 : jsstring) (t1 t2 : Z) :
  rateLimitDocId ip1 t1 = rateLimitDocId ip2 t2 ->
  ip1 = ip2 /\ hourStartOf t1 = hourStartOf t2.
Proof.
  unfold rateLimitDocId. intros H.
  assert (Hno : forall n, ~ In 95%N (numToString n)).
  { intros n Hin. pose proof (numToString_chars n) as Hall.
    destruct (proj1 (List.Forall_forall _ _) Hall _ Hin) as [Hd | Hd];
      [vm_compute in Hd |]; discriminate. }
  change (u16 "_" ++ ?x) with (95%N :: x) in H.
  destruct (app_sep_inj 95%N _ _ _ _ (Hno _) (Hno _) H) as [-> Hn].
  split; [reflexivity | exact (numToString_inj _ _ Hn)].
Qed.

Section FrameFacts.

Context {rt : Runtime}.

(** X7. A request changes no hourly document but the one of its own client
    address and clock hour. *)
Theorem other_counters_untouched (env : Env) (req : HttpRequest) (w : World)
  (ip' : jsstring) (t' : Z) :
  ip' <> getClientIp req \/ hourStartOf t' <> hourStartOf (now env) ->
  rateLimits (snd (generateBookSummary env req w)) !! rateLimitDocId ip' t' =
  rateLimits w !! rateLimitDocId ip' t'.
Proof.
  intros Hother.
  destruct (atCap (rateLimits w !! rateLimitDocId (getClientIp req) (now env))
                  MAX_REQUESTS_PER_HOUR) eqn:Hcap.
  - rewrite (generateBookSummary_at_cap env req w Hcap). reflexivity.
  - destruct (generateBookSummary_under_cap env req w Hcap) as [_ ->].
    apply lookup_insert_ne. intros Heq.
    apply rateLimitDocId_inj2 in Heq. destruct Heq as [Hip Ht].
    destruct Hother as [H | H]; [apply H; symmetry; exact Hip |].
    apply H. symmetry. exact Ht.
Qed.

End FrameFacts.

Lemma other_counters_untouched_witness :
  rateLimits
    (snd (@generateBookSummary exampleRuntime
            (exampleEnv (fun _ => Rejected rateLimitError)) nexusRequest
            emptyWorld))
    !! rateLimitDocId (u16 "198.51.100.2") 1730000000000 = None.
Proof.
  rewrite (@other_counters_untouched exampleRuntime
             (exampleEnv (fun _ => Rejected rateLimitError)) nexusRequest
             emptyWorld (u16 "198.51.100.2") 1730000000000).
  - reflexivity.
  - left. vm_compute. discriminate.
Defined.

(** X8. The window of the hourly counter is the clock hour: for a time that is
    not before the epoch, [hourStartOf] is the greatest multiple of 3600000
    that is not after it, and two times share a window exactly when they lie
    in the same hour. *)
Theorem hourStartOf_window (t u : Z) :
  0 <= t -> 0 <= u ->
  hourStartOf t = 3600000 * (t / 3600000) /\
  hourStartOf t <= t < hourStartOf t + 3600000 /\
  hourStartOf (hourStartOf t) = hourStartOf t /\
  (hourStartOf t = hourStartOf u <-> t / 3600000 = u / 3600000).
Proof.
  intros Ht Hu. unfold hourStartOf.
  change (60 * 60 * 1000) with 3600000.
  rewrite (Z.rem_mod_nonneg t), (Z.rem_mod_nonneg u) by lia.
  pose proof (Z.div_mod t 3600000 ltac:(lia)) as Ht'.
  pose proof (Z.mod_pos_bound t 3600000 ltac:(lia)) as Htb.
  pose proof (Z.div_mod u 3600000 ltac:(lia)) as Hu'.
  pose proof (Z.mod_pos_bound u 3600000 ltac:(lia)) as Hub.
  assert (H1 : t - t mod 3600000 = 3600000 * (t / 3600000)) by lia.
  split; [exact H1 |]. split; [lia |]. split.
  - rewrite H1. rewrite Z.rem_mod_nonneg by lia.
    rewrite Z.mul_comm, Z.mod_mul by lia. lia.
  - assert (H2 : u - u mod 3600000 = 3600000 * (u / 3600000)) by lia.
    rewrite H1, H2. clear. split; intros H; lia.
Qed.

Lemma hourStartOf_window_witness :
  hourStartOf 1730000000000 = 1729998000000 /\
  (hourStartOf 1730000000000 = hourStartOf 1730001599999).
Proof.
  destruct (hourStartOf_window 1730000000000 1730001599999) as (H1 & _ & _ & H4);
    [lia | lia |].
  split; [rewrite H1; reflexivity | apply H4; reflexivity].
Defined.

(** ** The summaries that are returned *)

(** X9. The attribution record has four sources in a fixed order, the last one
    naming the AI or the template; their weights add up to 1, their
    reliabilities lie between 40 and 95, and the excerpt of the description
    is never empty and has 203 characters at most. *)
Theorem attribution_shape (r : SummaryRequest) (usesFallback : bool) :
  let ed := generateCloudFunctionSourceAttribution r usesFallback in
  map sa_type (ed_sourceAttribution ed) =
    [book_description; metadata; category_data;
     if usesFallback then src_fallback_template else ai_knowledge] /\
  (fold_right Qplus 0 (map sa_weight (ed_sourceAttribution ed)) == 1)%Q /\
  Forall (fun s => 40 <= sa_reliability s <= 95) (ed_sourceAttribution ed) /\
  primarySourcesCount
    (factors (sourceReliability (ed_detailedConfidenceFactors ed))) = 4 /\
  (forall s, hd_error (ed_sourceAttribution ed) = Some s ->
     0 < len (sa_content s) <= 203) /\
  ed_processingMethod ed =
    (if usesFallback then fallback_template else openai_api).
Proof.
  intros ed. unfold ed, generateCloudFunctionSourceAttribution.
  cbn [ed_sourceAttribution ed_detailedConfidenceFactors ed_processingMethod
       map sa_type sa_weight sa_reliability sa_content fold_right hd_error
       sourceReliability factors primarySourcesCount length].
  split; [reflexivity |]. split; [vm_compute; reflexivity |]. split.
  - repeat (apply Forall_cons_2;
            [cbn [sa_reliability];
             repeat match goal with
                    | |- context [if ?b then _ else _] => destruct b
                    end; lia |]).
    apply Forall_nil_2.
  - split; [reflexivity |]. split; [| reflexivity].
    intros s [= <-]. cbn [sa_content]. unfold orElse.
    destruct (truthy _) eqn:Ht.
    + split; [apply truthy_len; exact Ht |].
      rewrite len_app. pose proof (len_substring0_bound 200 (description r)).
      change (len (u16 "...")) with 3. lia.
    + vm_compute. split; [reflexivity | discriminate].
Qed.

(** A number that is a value between 0 and 100. *)
Definition percentage (n : JsNumber) : Prop :=
  exists q, n = Num q /\ (0 <= q <= 100)%Q.

Lemma clampConfidence_range (c : option JsNumber) :
  match c with
  | Some NaN => clampConfidence c = NaN
  | _ => percentage (clampConfidence c)
  end.
Proof.
  assert (Hq : forall q, percentage (Num (Qmin 100 (Qmax 0 q)))).
  { intros q. eexists. split; [reflexivity |].
    destruct (Q.min_spec 100 (Qmax 0 q)) as [[H1 H2] | [H1 H2]];
      destruct (Q.max_spec 0 q) as [[H3 H4] | [H3 H4]];
      rewrite H2; try rewrite H4; split; lra. }
  destruct c as [[q | [|] |] |]; unfold clampConfidence; cbn [Math_max Math_min].
  - apply Hq.
  - exists 0%Q. split; [reflexivity | lra].
  - exists 100%Q. split; [reflexivity | lra].
  - reflexivity.
  - apply Hq.
Qed.

Section SummaryFacts.

Context {rt : Runtime}.

Lemma generateBookSummary_summary_flag (env : Env) (req : HttpRequest)
  (w : World) (d : AIBookSummary) :
  summaryOf (fst (generateBookSummary env req w)) = Some d ->
  exists r, validBody (req_body req) = Some r /\
    ((exists p, d = aiSummaryOf env r p) /\
       isFallbackResponse (fst (generateBookSummary env req w)) = false \/
     fallbackSummaryOf env r = Some d /\
       isFallbackResponse (fst (generateBookSummary env req w)) = true).
Proof.
  unfold generateBookSummary, isRateLimited, isGlobalLimitReached.
  destruct (atCap _ MAX_REQUESTS_PER_HOUR); [discriminate |].
  destruct (atCap _ MAX_GLOBAL_REQUESTS_PER_MONTH); [discriminate |].
  destruct (validBody (req_body req)) as [r |]; [| discriminate].
  unfold tryBlock.
  destruct (negb (jsstring_eqb (req_method req) (u16 "POST")));
    [discriminate |].
  destruct (negb (truthy (apiKey env))); [discriminate |].
  destruct (callOpenAIWithRetry (create env) 3) as [result evs].
  assert (Herr : forall e,
            summaryOf (handleError env r e) = Some d ->
            fallbackSummaryOf env r = Some d /\
            isFallbackResponse (handleError env r e) = true).
  { intros e. unfold handleError.
    destruct (isRateLimitForFallback e).
    { destruct (fallbackSummaryOf env r); [| discriminate].
      intros [= <-]; split; reflexivity. }
    destruct (isQuotaExceeded e); [discriminate |].
    destruct (messageIncludes "API key" e); discriminate. }
  destruct result as [content | e |]; cbn [fst].
  - destruct (negb (truthy (orEmpty content))); cbn [fst].
    { intros H. exists r. split; [reflexivity | right; exact (Herr _ H)]. }
    destruct (JSON_parse (orEmpty content)) as [m | p]; cbn [fst].
    { intros H. exists r. split; [reflexivity | right; exact (Herr _ H)]. }
    intros [= <-]. exists r. split; [reflexivity |]. left.
    split; [exists p; reflexivity | reflexivity].
  - intros H. exists r. split; [reflexivity | right; exact (Herr _ H)].
  - intros H. exists r. split; [reflexivity | right; exact (Herr _ H)].
Qed.

(** X10. Every summary that is returned, by the AI or from the templates, has
    a confidence that is a value between 0 and 100 or, on the AI path only,
    [NaN] (which is what the clamp makes of a [confidenceScore] that is not
    a number); it is stamped with the target language of the request, is
    marked as translated exactly when the book's language differs from the
    target language, and names its processing method truthfully:
    [fallback_template] with confidence 50 when the response is flagged as a
    fallback, [openai_api] otherwise; its attribution record is the one of
    the request for that method. *)
Theorem returned_summary_invariants (env : Env) (req : HttpRequest)
  (w : World) (d : AIBookSummary) :
  summaryOf (fst (generateBookSummary env req w)) = Some d ->
  exists r, validBody (req_body req) = Some r /\
    (percentage (confidenceScore d) \/ confidenceScore d = NaN) /\
    summaryLanguage d = targetLanguage r /\
    translationApplied d =
      negb (jsstring_eqb (language r) (targetLanguage r)) /\
    (let fb := isFallbackResponse (fst (generateBookSummary env req w)) in
     processingMethod d = (if fb then fallback_template else openai_api) /\
     (fb = true -> confidenceScore d = Num 50) /\
     sourceAttribution d =
       ed_sourceAttribution (generateCloudFunctionSourceAttribution r fb)).
Proof.
  intros Hd.
  destruct (generateBookSummary_summary_flag env req w d Hd)
    as (r & Hbody & [[[p ->] ->] | [Hfb ->]]);
    exists r; (split; [exact Hbody |]).
  - split.
    { cbn [confidenceScore aiSummaryOf].
      pose proof (clampConfidence_range (pr_confidenceScore p)) as Hc.
      destruct (pr_confidenceScore p) as [[q | s |] |]; auto. }
    repeat split; discriminate.
  - destruct (fallbackSummaryOf_texts env r d Hfb) as (s1 & s2 & _ & _ & ->).
    split.
    { left. exists 50%Q. split; [reflexivity | lra]. }
    repeat split.
Qed.

End SummaryFacts.

Lemma returned_summary_invariants_witness :
  (percentage
     (confidenceScore
        (aiSummaryOf (exampleEnv (fun _ => Resolved (Some exampleContent)))
           nexus exampleParsed)) \/
   confidenceScore
     (aiSummaryOf (exampleEnv (fun _ => Resolved (Some exampleContent)))
        nexus exampleParsed) = NaN) /\
  processingMethod
    (aiSummaryOf (exampleEnv (fun _ => Resolved (Some exampleContent)))
       nexus exampleParsed) = openai_api.
Proof.
  destruct (@returned_summary_invariants exampleRuntime
              (exampleEnv (fun _ => Resolved (Some exampleContent)))
              nexusRequest emptyWorld
              (aiSummaryOf (exampleEnv (fun _ => Resolved (Some exampleContent)))
                 nexus exampleParsed)
              ltac:(vm_compute; reflexivity))
    as (r & _ & Hrange & _ & _ & Hmethod & _ & _).
  split; [exact Hrange |]. rewrite Hmethod. vm_compute. reflexivity.
Defined.

(** A completion whose [confidenceScore] is a text that is no numeral: the
    summary is returned with the confidence [NaN]. *)
Example confidence_not_a_number :
  confidenceScore
    (aiSummaryOf (exampleEnv (fun _ => Resolved None)) nexus
       {| pr_shortSummary := Some (u16 "Nexus");
          pr_detailedSummary := Some (u16 "Nexus");
          pr_confidenceScore := Some NaN;
          pr_reasoningFactors := None;
          pr_sourcesUsed := None |}) = NaN.
Proof. reflexivity. Qed.

(** ** Truncation keeps a prefix *)

Lemma lastIndexOf_go_spec (c : N) (s : jsstring) (i found : Z) :
  let k := lastIndexOf_go c s i found in
  (k = found /\ ~ In c s) \/
  (i <= k < i + len s /\ s !! Z.to_nat (k - i) = Some c /\
   forall j : nat, (Z.to_nat (k - i) < j)%nat -> s !! j <> Some c).
Proof.
  revert i found. induction s as [| x s IH]; intros i found; cbn zeta.
  - left. cbn. tauto.
  - cbn [lastIndexOf_go].
    destruct (IH (i + 1) (if (x =? c)%N then i else found))
      as [[Hk Hno] | (Hrange & Hat & Hlast)].
    + destruct (N.eqb_spec x c) as [-> | Hne].
      * right. rewrite Hk. unfold len. cbn [length].
        replace (i - i) with 0 by lia. split; [lia |].
        split; [reflexivity |].
        intros [| j] Hj; [lia |]. cbn. intros Hin.
        apply Hno. apply list_elem_of_In. eapply list_elem_of_lookup_2.
        exact Hin.
      * left. split; [exact Hk |]. intros [Heq | Hin]; [congruence | tauto].
    + right. unfold len in *. cbn [length].
      set (k := lastIndexOf_go c s (i + 1) _) in *.
      replace (Z.to_nat (k - i)) with (S (Z.to_nat (k - (i + 1)))) by lia.
      split; [lia |]. split; [exact Hat |].
      intros [| j] Hj; [lia |]. cbn. apply Hlast. lia.
Qed.

Lemma lastIndexOf_spec (c : N) (s : jsstring) :
  lastIndexOf c s = -1 \/
  (0 <= lastIndexOf c s < len s /\
   s !! Z.to_nat (lastIndexOf c s) = Some c /\
   forall j : nat, (Z.to_nat (lastIndexOf c s) < j)%nat -> s !! j <> Some c).
Proof.
  unfold lastIndexOf.
  destruct (lastIndexOf_go_spec c s 0 (-1)) as [[Hk _] | (H1 & H2 & H3)];
    [left; exact Hk | right].
  rewrite Z.sub_0_r in H2, H3. split; [lia | split; assumption].
Qed.



(** ** The word rules leave other text alone *)

Lemma matchesAt_startsWith (w s rest : jsstring) :
  matchesAt w s = Some rest ->
  startsWith (map canonicalize w) (map canonicalize s) = true.
Proof.
  revert s. induction w as [| a w IH]; intros s; [reflexivity |].
  destruct s as [| b s]; [discriminate |]. cbn.
  destruct (N.eqb_spec (canonicalize a) (canonicalize b)); [| discriminate].
  intros H. cbn. exact (IH s H).
Qed.

Lemma replaceWord_go_absent (fuel : nat) (w r s : jsstring) (prev : bool) :
  mentionsWord w s = false -> replaceWord_go fuel w r s prev = s.
Proof.
  unfold mentionsWord. revert s prev.
  induction fuel as [| fuel IH]; intros s prev; [reflexivity |].
  destruct s as [| c s]; [reflexivity |].
  cbn [map includes replaceWord_go]. intros H.
  apply orb_false_iff in H. destruct H as [Hstart Hrest].
  assert (Hno : matchesAt w (c :: s) = None).
  { destruct (matchesAt w (c :: s)) as [rest |] eqn:Hm; [| reflexivity].
    apply matchesAt_startsWith in Hm. cbn [map] in Hm. congruence. }
  rewrite Hno. destruct prev; rewrite (IH s _ Hrest); reflexivity.
Qed.

Lemma cleanMixedLanguageText_rules (text targetLanguage : jsstring) :
  cleanMixedLanguageText text targetLanguage =
  applyWordRules (wordRulesFor targetLanguage) text.
Proof.
  unfold cleanMixedLanguageText, wordRulesFor.
  repeat (destruct (jsstring_eqb targetLanguage _); [reflexivity |]).
  reflexivity.
Qed.

(** X12. A text in which no word of the target language's rule list occurs, in
    either case, comes back from [cleanMixedLanguageText] as it went in. *)
Theorem cleanMixedLanguageText_no_rule_word (text targetLanguage : jsstring) :
  Forall (fun rule => mentionsWord (u16 (fst rule)) text = false)
         (wordRulesFor targetLanguage) ->
  cleanMixedLanguageText text targetLanguage = text.
Proof.
  rewrite cleanMixedLanguageText_rules. unfold applyWordRules.
  induction (wordRulesFor targetLanguage) as [| rule rules IH];
    [reflexivity |].
  intros Hall. apply Forall_cons_1 in Hall. destruct Hall as [Hrule Hrest].
  cbn [fold_left]. unfold applyWordRule at 2, replaceWord.
  rewrite (replaceWord_go_absent _ _ _ _ _ Hrule). exact (IH Hrest).
Qed.

Lemma cleanMixedLanguageText_no_rule_word_witness :
  cleanMixedLanguageText (u16 "Una obra importante de historia") (u16 "es") =
  u16 "Una obra importante de historia".
Proof.
  apply (cleanMixedLanguageText_no_rule_word
           (u16 "Una obra importante de historia") (u16 "es")).
  change (wordRulesFor (u16 "es")) with wordRules_es. unfold wordRules_es.
  repeat (apply Forall_cons_2; [vm_compute; reflexivity |]).
  apply Forall_nil_2.
Defined.

(** ** A language without templates *)

Section UnknownLanguage.

Context {rt : Runtime}.

(** X13. For a target language outside the six codes with templates the
    fallback texts are the English ones (the categories are put in lower
    case, the English template is chosen when it fits and the shorter
    English sentence otherwise, and no word is replaced), unless the target
    language names a member that every object inherits: then both
    generators throw. *)
Theorem unknown_language_uses_english (r : SummaryRequest) :
  ~ In (targetLanguage r) templateLanguages ->
  let cats := map toLowerCase (categories r) in
  (ownOrAbsent (targetLanguage r) ->
   generateFallbackShortSummary r =
     Some (ensureCharacterLimit
             (if len (short_template_en cats r) <=? 300
              then short_template_en cats r else short_fallback_en cats r)
             300) /\
   generateFallbackDetailedSummary r =
     Some (ensureCharacterLimit
             (if len (detailed_template_en cats r) <=? 1000
              then detailed_template_en cats r
              else detailed_fallback_en cats r) 1000)) /\
  (~ ownOrAbsent (targetLanguage r) ->
   generateFallbackShortSummary r = None /\
   generateFallbackDetailedSummary r = None).
Proof.
  intros Hnot cats. split; [| exact (generators_throw r)].
  intros Hcode.
  assert (Hne : forall code, In code templateLanguages ->
                  jsstring_eqb (targetLanguage r) code = false).
  { intros code Hin. apply jsstring_eqb_neq. intros Heq.
    apply Hnot. rewrite Heq. exact Hin. }
  assert (Hes := Hne (u16 "es") ltac:(cbn; tauto)).
  assert (Hen := Hne (u16 "en") ltac:(cbn; tauto)).
  assert (Hfr := Hne (u16 "fr") ltac:(cbn; tauto)).
  assert (Hde := Hne (u16 "de") ltac:(cbn; tauto)).
  assert (Hpt := Hne (u16 "pt") ltac:(cbn; tauto)).
  assert (Hit := Hne (u16 "it") ltac:(cbn; tauto)).
  assert (Hcats :
            translateCategories (categories r) (targetLanguage r) = Some cats).
  { unfold cats. induction (categories r) as [| cat rest IH]; [reflexivity |].
    cbn [translateCategories map]. rewrite IH. unfold translateCategory.
    rewrite (getProperty_own_or_absent _ translations Hcode).
    unfold translations. cbn [lookupLit]. rewrite Hes, Hfr, Hde, Hpt, Hit.
    reflexivity. }
  assert (Hclean : forall text,
            cleanMixedLanguageText text (targetLanguage r) = text).
  { intros text. unfold cleanMixedLanguageText.
    rewrite Hes, Hde, Hpt, Hit. reflexivity. }
  unfold generateFallbackShortSummary, generateFallbackDetailedSummary.
  rewrite Hcats. unfold pickLanguage.
  rewrite !(getProperty_own_or_absent _ _ Hcode).
  unfold shortLanguageMap, detailedLanguageMap.
  cbn [lookupLit]. rewrite Hes, Hen, Hfr, Hde, Hpt, Hit.
  change (jsstring_eqb (u16 "en") (u16 "es")) with false.
  change (jsstring_eqb (u16 "en") (u16 "en")) with true.
  cbn [fst snd]. rewrite !Hclean. split; reflexivity.
Qed.

End UnknownLanguage.

Lemma unknown_language_uses_english_witness :
  @generateFallbackShortSummary exampleRuntime
    (withTargetLanguage nexus (u16 "ja")) =
  Some
    (ensureCharacterLimit
       (if len (@short_template_en exampleRuntime
                  (map (@toLowerCase exampleRuntime)
                       (categories (withTargetLanguage nexus (u16 "ja"))))
                  (withTargetLanguage nexus (u16 "ja"))) <=? 300
        then @short_template_en exampleRuntime
               (map (@toLowerCase exampleRuntime)
                    (categories (withTargetLanguage nexus (u16 "ja"))))
               (withTargetLanguage nexus (u16 "ja"))
        else short_fallback_en
               (map (@toLowerCase exampleRuntime)
                    (categories (withTargetLanguage nexus (u16 "ja"))))
               (withTargetLanguage nexus (u16 "ja"))) 300) /\
  @generateFallbackShortSummary exampleRuntime
    (withTargetLanguage nexus (u16 "constructor")) = None.
Proof.
  assert (Hnot : forall code,
            code = u16 "ja" \/ code = u16 "constructor" ->
            ~ In (targetLanguage (withTargetLanguage nexus code))
                 templateLanguages).
  { intros code Hcode H. vm_compute in H.
    destruct Hcode as [-> | ->];
      repeat (destruct H as [H | H]; [discriminate |]); exact H. }
  split.
  - destruct (@unknown_language_uses_english exampleRuntime
                (withTargetLanguage nexus (u16 "ja"))
                (Hnot _ (or_introl eq_refl))) as [Hen _].
    exact (proj1 (Hen ltac:(vm_compute; reflexivity))).
  - destruct (@unknown_language_uses_english exampleRuntime
                (withTargetLanguage nexus (u16 "constructor"))
                (Hnot _ (or_intror eq_refl))) as [_ Hthrow].
    refine (proj1 (Hthrow _)). vm_compute. discriminate.
Defined.

(** ** The key of the monthly counter *)

Lemma numToString_digits (n : Z) :
  0 <= n -> Forall (fun c => isDigit c = true) (numToString n).
Proof.
  intros Hn. pose proof (numToString_chars n) as Hall.
  destruct n as [| p | p]; [repeat constructor | | lia].
  unfold numToString in *. rewrite Forall_map in *.
  set (P := fun a : ascii => isDigit (N_of_ascii a) = true).
  change (pretty (Z.pos p)) with (pretty (Npos p)).
  unfold pretty, pretty_N. cbn [decide]. 
  destruct (decide (N.pos p = 0%N)); [discriminate |].
  apply pretty_N_go_chars; [| constructor].
  intros d Hlt. unfold P.
  assert (Hcases : (d = 0 \/ d = 1 \/ d = 2 \/ d = 3 \/ d = 4 \/ d = 5 \/
                    d = 6 \/ d = 7 \/ d = 8 \/ d = 9)%N) by lia.
  repeat (destruct Hcases as [-> | Hcases]; [reflexivity |]).
  rewrite Hcases. reflexivity.
Qed.

(** X14. Two months have the same document id only when year and month agree
    (years and months as [getFullYear] and [getMonth] answer them, not
    negative). *)
Theorem monthKey_inj (env1 env2 : Env) :
  0 <= fullYear env1 -> 0 <= monthIndex env1 ->
  0 <= fullYear env2 -> 0 <= monthIndex env2 ->
  monthKey env1 = monthKey env2 ->
  fullYear env1 = fullYear env2 /\ monthIndex env1 = monthIndex env2.
Proof.
  intros Hy1 Hm1 Hy2 Hm2. unfold monthKey.
  change (u16 "-" ++ ?x) with (45%N :: x).
  assert (Hno : forall n, 0 <= n -> ~ In 45%N (numToString n)).
  { intros n Hn Hin. pose proof (numToString_digits n Hn) as Hall.
    pose proof (proj1 (List.Forall_forall _ _) Hall _ Hin) as Hd.
    vm_compute in Hd. discriminate. }
  intros H.
  destruct (app_sep_inj 45%N _ _ _ _
              (Hno (monthIndex env1 + 1) ltac:(lia))
              (Hno (monthIndex env2 + 1) ltac:(lia)) H) as [Hy Hm].
  apply numToString_inj in Hy. apply numToString_inj in Hm. lia.
Qed.

Lemma monthKey_inj_witness :
  fullYear (envAt 0 (fun _ => Resolved None)) =
  fullYear (exampleEnv (fun _ => Resolved None)) /\
  monthIndex (envAt 0 (fun _ => Resolved None)) =
  monthIndex (exampleEnv (fun _ => Resolved None)).
Proof.
  apply (monthKey_inj (envAt 0 (fun _ => Resolved None))
           (exampleEnv (fun _ => Resolved None)));
    [vm_compute; discriminate .. | vm_compute; reflexivity].
Defined.

(** * More properties of the confidence scorer *)

Module ScorerMore.

Import Scorer.

Local Open Scope Q_scope.

Lemma Math_round_mono (x y : Q) : x <= y -> (Math_round x <= Math_round y)%Z.
Proof.
  intros Hxy. unfold Math_round. apply Qfloor_resp_le. lra.
Qed.

Lemma Math_round_step (x y : Q) :
  x <= y -> y < x + 1 ->
  (Math_round x <= Math_round y <= Math_round x + 1)%Z.
Proof.
  intros Hlo Hhi. split; [apply Math_round_mono; exact Hlo |].
  destruct (ScorerFacts.Math_round_nearest x) as [_ Hx].
  destruct (ScorerFacts.Math_round_nearest y) as [Hy _].
  apply Z.lt_succ_r. rewrite Zlt_Qlt. unfold Z.succ.
  rewrite !inject_Z_plus. change (inject_Z 1) with 1. lra.
Qed.

(** X15. Every score the scorer reports lies in a fixed band: the overall score
    between 29 and 90, source reliability between 41 and 81, content
    coverage between 30 and 91, cross validation between 71 and 86, data
    quality between 0 and 100 and AI processing between 84 and 91. *)
Theorem reported_scores_in_range (b : BookMetadata) (uf ta : bool) :
  let cm := fst (calculateDetailedConfidence b uf ta) in
  (29 <= overallScore cm <= 90)%Z /\
  (41 <= cm_sourceReliability cm <= 81)%Z /\
  (30 <= cm_contentCoverage cm <= 91)%Z /\
  (71 <= crossReferenceValidation cm <= 86)%Z /\
  (0 <= f_dataQualityScore (cm_factors cm) <= 100)%Z /\
  (84 <= f_aiProcessingScore (cm_factors cm) <= 91)%Z.
Proof.
  cbn [calculateDetailedConfidence fst overallScore cm_sourceReliability
       cm_contentCoverage crossReferenceValidation cm_factors
       f_dataQualityScore f_aiProcessingScore].
  destruct (ScorerFacts.overall_unclamped b uf ta) as (_ & Hlo & Hhi).
  destruct (ScorerFacts.dq_bounds b), (ScorerFacts.sr_bounds b),
    (ScorerFacts.cc_bounds b), (ScorerFacts.cv_bounds b).
  pose proof (ScorerFacts.ai_value uf ta) as Hai.
  refine (conj _ (conj _ (conj _ (conj _ (conj _ _)))));
    apply ScorerFacts.Math_round_between; unfold inject_Z;
    try lra; destruct uf, ta; cbn in Hai |- *; lra.
Qed.

Lemma Qmin_mono (a x y : Q) : x <= y -> Qmin a x <= Qmin a y.
Proof.
  intros Hxy.
  destruct (ScorerFacts.Qmin_cases a x) as [[? E1] | [? E1]];
    destruct (ScorerFacts.Qmin_cases a y) as [[? E2] | [? E2]]; lra.
Qed.

Lemma overallScoreRaw_mono_description (b : BookMetadata)
  (d1 d2 : jsstring) (uf ta : bool) :
  (len d1 <= len d2)%Z ->
  overallScoreRaw (withDescription b d1) uf ta <=
  overallScoreRaw (withDescription b d2) uf ta.
Proof.
  intros Hlen.
  destruct (ScorerFacts.overall_unclamped (withDescription b d1) uf ta)
    as (E1 & _ & _).
  destruct (ScorerFacts.overall_unclamped (withDescription b d2) uf ta)
    as (E2 & _ & _).
  rewrite E1, E2. clear E1 E2.
  assert (Hsr : sourceReliabilityScore (withDescription b d1) =
                sourceReliabilityScore (withDescription b d2)) by reflexivity.
  assert (Hcv : crossValidationScore (withDescription b d1) =
                crossValidationScore (withDescription b d2)) by reflexivity.
  rewrite Hsr, Hcv.
  assert (H0 : 0 <= inject_Z (len d1)).
  { change 0 with (inject_Z 0). rewrite <- Zle_Qle. apply len_nonneg. }
  assert (HQ : inject_Z (len d1) <= inject_Z (len d2))
    by (rewrite <- Zle_Qle; exact Hlen).
  assert (Hdq : dataQualityScore (withDescription b d1) <=
                dataQualityScore (withDescription b d2)).
  { unfold dataQualityScore, descriptionLength, hasCompleteMetadata,
      pageCountAvailable, categoriesAvailable.
    cbn [withDescription bm_description bm_title bm_authors bm_publisher
         bm_publishedDate bm_pageCount bm_categories bm_averageRating
         bm_ratingsCount].
    apply Qmin_mono.
    assert (Hpart :
              (if (100 <? len d1)%Z then 30 else inject_Z (len d1) / 100 * 30)
              <=
              (if (100 <? len d2)%Z then 30 else inject_Z (len d2) / 100 * 30)).
    { assert (T1 : inject_Z (len d1) / 100 * 30 ==
                   inject_Z (len d1) * (3 # 10)) by field.
      assert (T2 : inject_Z (len d2) / 100 * 30 ==
                   inject_Z (len d2) * (3 # 10)) by field.
      destruct (Z.ltb_spec 100 (len d1)) as [L1 | L1];
        destruct (Z.ltb_spec 100 (len d2)) as [L2 | L2]; try lia.
      - lra.
      - rewrite T1. rewrite Zle_Qle in L1. change (inject_Z 100) with 100 in L1.
        lra.
      - rewrite T1, T2. lra. }
    lra. }
  assert (Hcc : contentCoverageScore (withDescription b d1) <=
                contentCoverageScore (withDescription b d2)).
  { unfold contentCoverageScore, topicCoverage, thematicDepth,
      conceptualClarity, descriptionLength, categoriesAvailable.
    cbn [withDescription bm_description bm_categories].
    apply Qmin_mono.
    assert (Htopic : Qmin 100 (inject_Z (len d1) / 10) <=
                     Qmin 100 (inject_Z (len d2) / 10)).
    { apply Qmin_mono.
      assert (T1 : inject_Z (len d1) / 10 == inject_Z (len d1) * (1 # 10))
        by field.
      assert (T2 : inject_Z (len d2) / 10 == inject_Z (len d2) * (1 # 10))
        by field.
      rewrite T1, T2. lra. }
    assert (Hclar : (if (200 <? len d1)%Z then 90 else 60) <=
                    (if (200 <? len d2)%Z then 90 else 60)).
    { destruct (Z.ltb_spec 200 (len d1)); destruct (Z.ltb_spec 200 (len d2));
        try lia; lra. }
    set (t1 := Qmin 100 (inject_Z (len d1) / 10)) in *.
    set (t2 := Qmin 100 (inject_Z (len d2) / 10)) in *.
    set (c1 := if (200 <? len d1)%Z then 90 else 60) in *.
    set (c2 := if (200 <? len d2)%Z then 90 else 60) in *.
    lra. }
  lra.
Qed.

(** X16. A longer description never lowers the overall score (in exact
    arithmetic), everything else about the book being equal. *)
Theorem longer_description_never_lowers_score (b : BookMetadata)
  (d1 d2 : jsstring) (uf ta : bool) :
  (len d1 <= len d2)%Z ->
  (overallScore (fst (calculateDetailedConfidence (withDescription b d1) uf ta))
   <=
   overallScore (fst (calculateDetailedConfidence (withDescription b d2) uf ta)))%Z.
Proof.
  intros Hlen. cbn [calculateDetailedConfidence fst overallScore].
  apply Math_round_mono. apply overallScoreRaw_mono_description. exact Hlen.
Qed.

Lemma longer_description_never_lowers_score_witness :
  (overallScore
     (fst (calculateDetailedConfidence (withDescription nexusBook [])
             false true))
   <=
   overallScore
     (fst (calculateDetailedConfidence
             (withDescription nexusBook (bm_description nexusBook))
             false true)))%Z.
Proof.
  apply (longer_description_never_lowers_score nexusBook []
           (bm_description nexusBook) false true).
  vm_compute. discriminate.
Defined.

(** X17. The template path never scores above the AI path and at most one point
    below it (in exact arithmetic): its raw score is lower by 0.15. *)
Theorem fallback_costs_at_most_one_point (b : BookMetadata) (ta : bool) :
  (overallScore (fst (calculateDetailedConfidence b true ta)) <=
   overallScore (fst (calculateDetailedConfidence b false ta)) <=
   overallScore (fst (calculateDetailedConfidence b true ta)) + 1)%Z.
Proof.
  cbn [calculateDetailedConfidence fst overallScore].
  destruct (ScorerFacts.overall_unclamped b true ta) as (Et & _ & _).
  destruct (ScorerFacts.overall_unclamped b false ta) as (Ef & _ & _).
  pose proof (ScorerFacts.ai_value true ta) as At.
  pose proof (ScorerFacts.ai_value false ta) as Af.
  apply Math_round_step; rewrite Et, Ef; destruct ta; cbn in At, Af |- *; lra.
Qed.

(** X18. The scorer counts four sources when the book has a description and
    three when it has none, and the average reliability it reports lies
    between 64 and 90. *)
Theorem sources_used_count (b : BookMetadata) (uf ta : bool) :
  let cm := fst (calculateDetailedConfidence b uf ta) in
  f_sourcesUsed (cm_factors cm) =
    (if (0 <? len (bm_description b))%Z then 4 else 3)%Z /\
  (64 <= averageSourceRating (cm_factors cm) <= 90)%Z /\
  length (cm_sourceAttribution cm) = 4%nat.
Proof.
  cbn [calculateDetailedConfidence fst cm_factors f_sourcesUsed
       averageSourceRating cm_sourceAttribution].
  unfold scorerSourceAttribution, descriptionLength.
  cbn [filter sa_weight sa_reliability fold_left length].
  split; [| split; [| reflexivity]].
  - destruct (0 <? len (bm_description b))%Z, (categoriesAvailable b), uf;
      vm_compute; reflexivity.
  - destruct (100 <? len (bm_description b))%Z, (hasCompleteMetadata b),
      (categoriesAvailable b), uf; vm_compute; split; discriminate.
Qed.

(** X19. Seen through [calculateConfidenceMetrics], a summary in a language other
    than the book's scores strictly lower than a summary of the same book
    in the book's own language, and a missing AI summary is scored as a
    template summary. *)
Theorem translated_summary_scores_lower (b : BookMetadata) (s : BookSummary)
  (ai : option AIBookSummary) (code : jsstring) :
  code <> bm_language b ->
  (overallScore (calculateConfidenceMetrics b (withLanguage s code) ai) <
   overallScore
     (calculateConfidenceMetrics b (withLanguage s (bm_language b)) ai))%Z /\
  calculateConfidenceMetrics b s None =
  fst (calculateDetailedConfidence b true
         (negb (jsstring_eqb (bm_language b) (bs_language s)))).
Proof.
  intros Hne. split; [| reflexivity].
  unfold calculateConfidenceMetrics. cbn [withLanguage bs_language].
  rewrite jsstring_eqb_refl.
  assert (Hneq : jsstring_eqb (bm_language b) code = false).
  { apply jsstring_eqb_neq. intros H. apply Hne. symmetry. exact H. }
  rewrite Hneq. cbn [negb]. apply ScorerFacts.overall_lower.
Qed.

Lemma translated_summary_scores_lower_witness :
  (overallScore
     (calculateConfidenceMetrics nexusBook
        (withLanguage {| bs_short := []; bs_detailed := [];
                         bs_language := []; bs_generatedAt := 0 |}
           (u16 "es")) None) <
   overallScore
     (calculateConfidenceMetrics nexusBook
        (withLanguage {| bs_short := []; bs_detailed := [];
                         bs_language := []; bs_generatedAt := 0 |}
           (bm_language nexusBook)) None))%Z.
Proof.
  refine (proj1 (translated_summary_scores_lower nexusBook
                   {| bs_short := []; bs_detailed := [];
                      bs_language := []; bs_generatedAt := 0 |}
                   None (u16 "es") _)).
  vm_compute. discriminate.
Defined.

End ScorerMore.

(** * ISBN validation *)

Module IsbnFacts.

Import Isbn.

Lemma isDigit_range (c : N) :
  isDigit c = true <-> 0 <= Z.of_N c - 48 <= 9.
Proof.
  unfold isDigit. rewrite andb_true_iff, !N.leb_le. lia.
Qed.

Lemma parseInt1_digit (c : N) :
  isDigit c = true -> parseInt1 (Some c) = Some (Z.of_N c - 48).
Proof. intros H. unfold parseInt1. rewrite H. reflexivity. Qed.

(** The test of [validateISBN13], written out on thirteen digits. *)
Lemma validateISBN13_digits (c0 c1 c2 c3 c4 c5 c6 c7 c8 c9 c10 c11 c12 : N) :
  Forall (fun c => isDigit c = true)
         [c0; c1; c2; c3; c4; c5; c6; c7; c8; c9; c10; c11; c12] ->
  validateISBN13 [c0; c1; c2; c3; c4; c5; c6; c7; c8; c9; c10; c11; c12] =
  (Z.of_N c12 - 48 =?
   (10 - (Z.of_N c0 + 3 * Z.of_N c1 + Z.of_N c2 + 3 * Z.of_N c3 +
          Z.of_N c4 + 3 * Z.of_N c5 + Z.of_N c6 + 3 * Z.of_N c7 +
          Z.of_N c8 + 3 * Z.of_N c9 + Z.of_N c10 + 3 * Z.of_N c11 - 1152)
         mod 10) mod 10).
Proof.
  intros Hall.
  repeat match goal with
         | H : Forall _ (_ :: _) |- _ =>
             apply Forall_cons_1 in H; destruct H as [? H]
         end.
  unfold validateISBN13, test13.
  cbn [length Nat.eqb forallb andb negb seq fold_left lookup list_lookup].
  repeat match goal with
         | H : isDigit _ = true |- _ =>
             rewrite ?(parseInt1_digit _ H); rewrite ?H;
             apply isDigit_range in H
         end.
  cbn [andb negb nanAdd nanMul Z.of_nat Pos.of_succ_nat Pos.succ Z.rem
       Z.quotrem Z.eqb Z.quot fst snd Z.compare Pos.compare Pos.compare_cont
       N.pos_div_eucl].
  f_equal.
  repeat match goal with
         | |- context [if ?b then 1 else 3] =>
             let v := eval vm_compute in b in change b with v; cbv iota
         end.
  match goal with
  | |- Z.rem (10 - Z.rem ?a 10) 10 = (10 - ?b mod 10) mod 10 =>
      replace a with b by lia; set (total := b);
      assert (Htotal : 0 <= total) by (unfold total; lia)
  end.
  rewrite (Z.rem_mod_nonneg total 10) by lia.
  pose proof (Z.mod_pos_bound total 10 ltac:(lia)).
  rewrite Z.rem_mod_nonneg by lia. reflexivity.
Qed.

Lemma test13_digits (isbn : jsstring) :
  test13 isbn = true ->
  length isbn = 13%nat /\ Forall (fun c => isDigit c = true) isbn.
Proof.
  unfold test13. rewrite andb_true_iff, Nat.eqb_eq, forallb_forall.
  intros [Hlen Hall]. split; [exact Hlen |].
  apply List.Forall_forall. exact Hall.
Qed.

Lemma validateISBN13_test (isbn : jsstring) :
  validateISBN13 isbn = true -> test13 isbn = true.
Proof.
  unfold validateISBN13. destruct (test13 isbn); [reflexivity | discriminate].
Qed.

Ltac thirteen s :=
  do 13 (destruct s as [| ? s]; [discriminate |]);
  destruct s; [| discriminate].

Ltac digit_facts :=
  repeat match goal with
         | H : Forall _ (_ :: _) |- _ =>
             apply Forall_cons_1 in H; destruct H as [? H]
         | H : isDigit _ = true |- _ => apply isDigit_range in H
         end.

(** X20. Twelve digits have exactly one check digit that makes them a valid
    ISBN-13. *)
Theorem isbn13_check_digit (body : jsstring) :
  length body = 12%nat -> Forall (fun c => isDigit c = true) body ->
  exists c, isDigit c = true /\ validateISBN13 (body ++ [c]) = true /\
    forall c', validateISBN13 (body ++ [c']) = true -> c' = c.
Proof.
  intros Hlen Hall.
  do 12 (destruct body as [| ? body]; [discriminate |]).
  destruct body; [| discriminate]. clear Hlen. cbn [app].
  match goal with
  | |- exists c, _ /\ validateISBN13 [?c0; ?c1; ?c2; ?c3; ?c4; ?c5; ?c6; ?c7;
                                       ?c8; ?c9; ?c10; ?c11; c] = true /\ _ =>
      set (total := Z.of_N c0 + 3 * Z.of_N c1 + Z.of_N c2 + 3 * Z.of_N c3 +
                    Z.of_N c4 + 3 * Z.of_N c5 + Z.of_N c6 + 3 * Z.of_N c7 +
                    Z.of_N c8 + 3 * Z.of_N c9 + Z.of_N c10 + 3 * Z.of_N c11 -
                    1152)
  end.
  pose proof (Z.mod_pos_bound (10 - total mod 10) 10 ltac:(lia)) as Hcheck.
  exists (digitChar ((10 - total mod 10) mod 10)).
  assert (Hdigit : isDigit (digitChar ((10 - total mod 10) mod 10)) = true).
  { apply isDigit_range. unfold digitChar. lia. }
  split; [exact Hdigit |]. split.
  - rewrite validateISBN13_digits.
    + fold total. apply Z.eqb_eq. unfold digitChar. lia.
    + repeat (apply Forall_cons_1 in Hall; destruct Hall as [? Hall]).
      repeat (apply Forall_cons_2; [assumption |]).
      apply Forall_nil_2.
  - intros c' Hvalid.
    pose proof (validateISBN13_test _ Hvalid) as Htest.
    apply test13_digits in Htest. destruct Htest as [_ Hall'].
    rewrite (validateISBN13_digits _ _ _ _ _ _ _ _ _ _ _ _ _ Hall') in Hvalid.
    fold total in Hvalid. apply Z.eqb_eq in Hvalid.
    unfold digitChar. lia.
Qed.

Lemma isbn13_check_digit_witness :
  exists c, isDigit c = true /\
    validateISBN13 (u16 "978030640615" ++ [c]) = true /\
    forall c', validateISBN13 (u16 "978030640615" ++ [c']) = true -> c' = c.
Proof.
  apply (isbn13_check_digit (u16 "978030640615")).
  - reflexivity.
  - vm_compute. repeat (apply Forall_cons_2; [reflexivity |]).
    apply Forall_nil_2.
Defined.

Lemma check_inj (r r' : Z) :
  0 <= r < 10 -> 0 <= r' < 10 ->
  (10 - r) mod 10 = (10 - r') mod 10 -> r = r'.
Proof.
  intros Hr Hr' H.
  assert (Hc : forall x, 0 <= x < 10 ->
             (10 - x) mod 10 = if x =? 0 then 0 else 10 - x).
  { intros x Hx. destruct (Z.eqb_spec x 0) as [-> | Hx0]; [reflexivity |].
    apply Z.mod_small. lia. }
  rewrite (Hc r Hr), (Hc r' Hr') in H.
  destruct (Z.eqb_spec r 0), (Z.eqb_spec r' 0); lia.
Qed.

Lemma weight_mod10 (T T' a b : Z) :
  T' - T = b - a \/ T' - T = 3 * (b - a) ->
  -9 <= b - a <= 9 -> T mod 10 = T' mod 10 -> a = b.
Proof.
  intros Hdiff Hrange Hmod.
  pose proof (Z.div_mod T 10 ltac:(lia)) as HT.
  pose proof (Z.div_mod T' 10 ltac:(lia)) as HT'.
  assert (Hk : T' - T = 10 * (T' / 10 - T / 10)) by lia.
  set (k := T' / 10 - T / 10) in *. clearbody k. clear HT HT' Hmod.
  destruct Hdiff as [Hd | Hd]; lia.
Qed.

Ltac isbn13_case Hvalid Hvalid' :=
  first
    [ lia
    | match type of Hvalid with
      | _ = (10 - ?T mod 10) mod 10 =>
          match type of Hvalid' with
          | _ = (10 - ?T' mod 10) mod 10 =>
              let Hr := fresh "Hr" in
              assert (Hr : T mod 10 = T' mod 10)
                by (apply check_inj;
                    [apply Z.mod_pos_bound; lia
                    | apply Z.mod_pos_bound; lia
                    | lia]);
              match goal with
              | Hne : ?c' <> ?c |- _ =>
                  assert (Z.of_N c = Z.of_N c')
                    by (apply (weight_mod10 T T'); [lia | lia | exact Hr]);
                  lia
              end
          end
      end ].

(** X21. Changing one character of a valid ISBN-13 makes it invalid. *)
Theorem isbn13_detects_single_error (isbn : jsstring) (i : nat) (c c' : N) :
  validateISBN13 isbn = true -> isbn !! i = Some c -> c' <> c ->
  validateISBN13 (<[i := c']> isbn) = false.
Proof.
  intros Hvalid Hat Hne.
  destruct (validateISBN13 (<[i := c']> isbn)) eqn:Hvalid'; [| reflexivity].
  exfalso.
  pose proof (validateISBN13_test _ Hvalid) as Htest.
  pose proof (validateISBN13_test _ Hvalid') as Htest'.
  apply test13_digits in Htest. destruct Htest as [Hlen Hall].
  apply test13_digits in Htest'. destruct Htest' as [_ Hall'].
  thirteen isbn. clear Hlen.
  do 13 (destruct i as [| i];
         [cbn in Hat, Hvalid', Hall'; injection Hat as Hat; subst c;
          rewrite (validateISBN13_digits _ _ _ _ _ _ _ _ _ _ _ _ _ Hall)
            in Hvalid;
          rewrite (validateISBN13_digits _ _ _ _ _ _ _ _ _ _ _ _ _ Hall')
            in Hvalid';
          apply Z.eqb_eq in Hvalid; apply Z.eqb_eq in Hvalid';
          digit_facts; isbn13_case Hvalid Hvalid' |]).
  cbn in Hat. discriminate.
Qed.

Lemma isbn13_detects_single_error_witness :
  validateISBN13 (<[3%nat := 49%N]> (u16 "9780306406157")) = false.
Proof.
  apply (isbn13_detects_single_error (u16 "9780306406157") 3 48%N 49%N).
  - vm_compute. reflexivity.
  - vm_compute. reflexivity.
  - discriminate.
Defined.


(** *** ISBN-10 *)

(** The value of the check character: 10 for [X]. *)
Local Abbreviation checkValue c :=
  (if (c =? 88)%N then 10 else Z.of_N c - 48).

Local Abbreviation total10 c0 c1 c2 c3 c4 c5 c6 c7 c8 c9 :=
  (10 * (Z.of_N c0 - 48) + 9 * (Z.of_N c1 - 48) + 8 * (Z.of_N c2 - 48) +
   7 * (Z.of_N c3 - 48) + 6 * (Z.of_N c4 - 48) + 5 * (Z.of_N c5 - 48) +
   4 * (Z.of_N c6 - 48) + 3 * (Z.of_N c7 - 48) + 2 * (Z.of_N c8 - 48) +
   checkValue c9).

Ltac isbn10_digit H c :=
  let D := fresh "D" in
  destruct (isDigit c) eqn:D;
  [| cbn [andb orb negb nanAdd nanMul] in H; destruct (negb _) in H;
     discriminate H].

Lemma validateISBN10_chars (c0 c1 c2 c3 c4 c5 c6 c7 c8 c9 : N) :
  validateISBN10 [c0; c1; c2; c3; c4; c5; c6; c7; c8; c9] = true <->
  Forall (fun c => isDigit c = true) [c0; c1; c2; c3; c4; c5; c6; c7; c8] /\
  (c9 = 88%N \/ isDigit c9 = true) /\
  (total10 c0 c1 c2 c3 c4 c5 c6 c7 c8 c9) mod 11 = 0.
Proof.
  unfold validateISBN10, test10, parseInt1.
  cbn [length Nat.eqb forallb seq fold_left lookup list_lookup Z.of_nat
       Pos.of_succ_nat Pos.succ].
  split.
  - intros H.
    isbn10_digit H c0. isbn10_digit H c1. isbn10_digit H c2.
    isbn10_digit H c3. isbn10_digit H c4. isbn10_digit H c5.
    isbn10_digit H c6. isbn10_digit H c7. isbn10_digit H c8.
    split; [repeat (apply Forall_cons_2; [assumption |]); apply Forall_nil_2 |].
    repeat match goal with
           | D : isDigit _ = true |- _ => apply isDigit_range in D
           end.
    cbn [andb orb negb nanAdd nanMul] in H.
    destruct (N.eqb_spec c9 88) as [-> | Hx].
    + split; [left; reflexivity |].
      cbn [isDigit andb orb negb nanAdd N.leb N.compare Pos.compare
           Pos.compare_cont] in H.
      apply Z.eqb_eq in H. rewrite Z.rem_mod_nonneg in H by lia.
      etransitivity; [| exact H]; f_equal; lia.
    + destruct (isDigit c9) eqn:D9; [| discriminate H].
      split; [right; reflexivity |]. apply isDigit_range in D9.
      cbn [andb orb negb nanAdd] in H.
      apply Z.eqb_eq in H. rewrite Z.rem_mod_nonneg in H by lia.
      etransitivity; [| exact H]; f_equal; lia.
  - intros (Hall & Hlast & Hsum).
    repeat (apply Forall_cons_1 in Hall; destruct Hall as [? Hall]).
    repeat match goal with
           | D : isDigit _ = true |- _ => rewrite D; apply isDigit_range in D
           end.
    cbn [andb orb negb nanAdd nanMul].
    destruct (N.eqb_spec c9 88) as [-> | Hx].
    + cbn [isDigit andb orb negb nanAdd N.leb N.compare Pos.compare
           Pos.compare_cont].
      apply Z.eqb_eq. rewrite Z.rem_mod_nonneg by lia.
      etransitivity; [| exact Hsum]; f_equal; lia.
    + destruct Hlast as [-> | D9]; [contradiction |].
      rewrite D9. apply isDigit_range in D9. cbn [andb orb negb nanAdd].
      apply Z.eqb_eq. rewrite Z.rem_mod_nonneg by lia.
      etransitivity; [| exact Hsum]; f_equal; lia.
Qed.


Lemma mod11_same (T T' w d : Z) :
  T mod 11 = 0 -> T' mod 11 = 0 -> T' - T = w * d ->
  1 <= w <= 10 -> -10 <= d <= 10 -> d = 0.
Proof.
  intros HT HT' Hdiff Hw Hd.
  assert (Hdiv : (11 | w * d)).
  { rewrite <- Hdiff. apply Z.divide_sub_r; apply Z.mod_divide; lia. }
  assert (Hgcd : Z.gcd 11 w = 1).
  { assert (Hcases : w = 1 \/ w = 2 \/ w = 3 \/ w = 4 \/ w = 5 \/ w = 6 \/
                     w = 7 \/ w = 8 \/ w = 9 \/ w = 10) by lia.
    repeat (destruct Hcases as [-> | Hcases]; [reflexivity |]).
    rewrite Hcases. reflexivity. }
  destruct (Z.gauss 11 w d Hdiv Hgcd) as [k Hk]. lia.
Qed.

Lemma test10_length (isbn : jsstring) :
  validateISBN10 isbn = true -> length isbn = 10%nat.
Proof.
  unfold validateISBN10, test10.
  destruct (Nat.eqb_spec (length isbn) 10) as [H | H]; [intros _; exact H |].
  cbn [andb negb]. discriminate.
Qed.

Ltac ten s :=
  do 10 (destruct s as [| ? s]; [discriminate |]);
  destruct s; [| discriminate].

Ltac isbn10_facts :=
  repeat match goal with
         | H : validateISBN10 _ = true |- _ =>
             apply validateISBN10_chars in H; destruct H as (? & ? & ?)
         | H : Forall _ (_ :: _) |- _ =>
             apply Forall_cons_1 in H; destruct H as [? H]
         | H : isDigit _ = true |- _ => apply isDigit_range in H
         | H : _ = 88%N \/ _ |- _ => destruct H as [H | H]
         | H : context [(?c =? 88)%N] |- _ =>
             destruct (N.eqb_spec c 88) as [? | ?]; [try subst c |]
         end.

Ltac isbn10_weight c c' w :=
  match goal with
  | H : ?T mod 11 = 0, H' : ?T' mod 11 = 0 |- _ =>
      first
        [ assert (Z.of_N c' - Z.of_N c = 0)
            by (apply (mod11_same T T' w); [exact H | exact H' | lia ..])
        | assert (Z.of_N c' - Z.of_N c = 0)
            by (apply (mod11_same T' T w); [exact H' | exact H | lia ..])
        | assert (10 - (Z.of_N c - 48) = 0)
            by (apply (mod11_same T T' w); [exact H | exact H' | lia ..])
        | assert (10 - (Z.of_N c - 48) = 0)
            by (apply (mod11_same T' T w); [exact H' | exact H | lia ..])
        | assert (10 - (Z.of_N c' - 48) = 0)
            by (apply (mod11_same T T' w); [exact H | exact H' | lia ..])
        | assert (10 - (Z.of_N c' - 48) = 0)
            by (apply (mod11_same T' T w); [exact H' | exact H | lia ..]) ];
      lia
  end.

Ltac isbn10_case c c' :=
  isbn10_facts;
  first [ lia
        | isbn10_weight c c' 1 | isbn10_weight c c' 2 | isbn10_weight c c' 3
        | isbn10_weight c c' 4 | isbn10_weight c c' 5 | isbn10_weight c c' 6
        | isbn10_weight c c' 7 | isbn10_weight c c' 8 | isbn10_weight c c' 9
        | isbn10_weight c c' 10 ].

(** X22. Changing one character of a valid ISBN-10 makes it invalid. *)
Theorem isbn10_detects_single_error (isbn : jsstring) (i : nat) (c c' : N) :
  validateISBN10 isbn = true -> isbn !! i = Some c -> c' <> c ->
  validateISBN10 (<[i := c']> isbn) = false.
Proof.
  intros Hvalid Hat Hne.
  destruct (validateISBN10 (<[i := c']> isbn)) eqn:Hvalid'; [| reflexivity].
  exfalso.
  pose proof (test10_length _ Hvalid) as Hlen.
  ten isbn. clear Hlen.
  do 10 (destruct i as [| i];
         [cbn in Hat, Hvalid'; injection Hat as Hat; subst c;
          match type of Hne with c' <> ?n => isbn10_case n c' end |]).
  cbn in Hat. discriminate.
Qed.

Lemma isbn10_detects_single_error_witness :
  validateISBN10 (<[9%nat := 50%N]> (u16 "080442957X")) = false.
Proof.
  apply (isbn10_detects_single_error (u16 "080442957X") 9 88%N 50%N).
  - vm_compute. reflexivity.
  - vm_compute. reflexivity.
  - discriminate.
Defined.

(** X23. Exchanging two neighbouring characters of a valid ISBN-10 that differ
    makes it invalid. *)
Theorem isbn10_detects_transposition (isbn : jsstring) (i : nat) (a b : N) :
  validateISBN10 isbn = true ->
  isbn !! i = Some a -> isbn !! S i = Some b -> a <> b ->
  validateISBN10 (<[i := b]> (<[S i := a]> isbn)) = false.
Proof.
  intros Hvalid Ha Hb Hne.
  destruct (validateISBN10 (<[i := b]> (<[S i := a]> isbn))) eqn:Hvalid';
    [| reflexivity].
  exfalso.
  pose proof (test10_length _ Hvalid) as Hlen.
  ten isbn. clear Hlen.
  do 9 (destruct i as [| i];
        [cbn in Ha, Hb, Hvalid'; injection Ha as Ha; injection Hb as Hb;
         subst a b;
         match type of Hne with ?n <> ?m => isbn10_case n m end |]).
  cbn in Hb. discriminate.
Qed.

Lemma isbn10_detects_transposition_witness :
  validateISBN10 (<[4%nat := 48%N]> (<[5%nat := 52%N]> (u16 "0306406152")))
  = false.
Proof.
  apply (isbn10_detects_transposition (u16 "0306406152") 4 52%N 48%N).
  - vm_compute. reflexivity.
  - vm_compute. reflexivity.
  - vm_compute. reflexivity.
  - discriminate.
Defined.


(** *** The form validator and the formatter *)

Local Abbreviation separator c := ((c =? 45)%N || isWhiteSpace c).

Lemma cleanIsbn_app (a b : jsstring) :
  cleanIsbn (a ++ b) = cleanIsbn a ++ cleanIsbn b.
Proof. unfold cleanIsbn. apply List.filter_app. Qed.

Lemma cleanIsbn_clean (isbn : jsstring) :
  Forall (fun c => separator c = false) (cleanIsbn isbn).
Proof.
  unfold cleanIsbn. apply List.Forall_forall. intros c Hin.
  apply List.filter_In in Hin. destruct Hin as [_ H].
  apply negb_true_iff in H. exact H.
Qed.

Lemma cleanIsbn_id (isbn : jsstring) :
  Forall (fun c => separator c = false) isbn -> cleanIsbn isbn = isbn.
Proof.
  induction isbn as [| c isbn IH]; [reflexivity |].
  intros Hall. apply Forall_cons_1 in Hall. destruct Hall as [Hc Hrest].
  unfold cleanIsbn in *. cbn [List.filter]. rewrite Hc. cbn [negb].
  rewrite (IH Hrest). reflexivity.
Qed.

Lemma validateISBN13_length (isbn : jsstring) :
  validateISBN13 isbn = true -> len isbn = 13.
Proof.
  intros H. apply validateISBN13_test, test13_digits in H.
  destruct H as [H _]. unfold len. rewrite H. reflexivity.
Qed.

(** X24. The validator looks at the ISBN without its hyphens and white space
    only: it accepts a missing or empty value, a valid ISBN-10 and a valid
    ISBN-13, and nothing else; a hyphen or a white-space character put
    anywhere into the text does not change its verdict. *)
Theorem isbnValidator_verdict (raw : jsstring) :
  (isbnValidator (Some raw) = false <->
   cleanIsbn raw = [] \/ validateISBN10 (cleanIsbn raw) = true \/
   validateISBN13 (cleanIsbn raw) = true) /\
  (forall a b c, raw = a ++ b -> separator c = true ->
     isbnValidator (Some (a ++ c :: b)) = isbnValidator (Some raw)).
Proof.
  split.
  - unfold isbnValidator. set (value := cleanIsbn raw).
    destruct value as [| c0 rest] eqn:Hvalue; [cbn; tauto |].
    rewrite <- Hvalue. replace (truthy value) with true by (rewrite Hvalue; reflexivity).
    cbn [negb].
    destruct (validateISBN10 value) eqn:H10.
    + pose proof (test10_length _ H10) as Hlen.
      unfold len. rewrite Hlen. cbn. tauto.
    + destruct (validateISBN13 value) eqn:H13.
      * rewrite (validateISBN13_length _ H13). cbn. tauto.
      * destruct (len value =? 10); cbn [andb negb];
          [split; [discriminate | intros [H | [H | H]]; congruence] |].
        destruct (len value =? 13); cbn [andb negb];
          split; try discriminate; intros [H | [H | H]]; congruence.
  - intros a b c -> Hsep. unfold isbnValidator.
    rewrite !cleanIsbn_app.
    replace (cleanIsbn (c :: b)) with (cleanIsbn b); [reflexivity |].
    unfold cleanIsbn. cbn [List.filter]. rewrite Hsep. reflexivity.
Qed.

Lemma isbnValidator_verdict_witness :
  isbnValidator (Some (u16 "978-0-306-40615-7")) = false.
Proof.
  apply (proj1 (isbnValidator_verdict (u16 "978-0-306-40615-7"))).
  right. right. vm_compute. reflexivity.
Defined.

Lemma formatISBN_clean (isbn : jsstring) :
  cleanIsbn (formatISBN isbn) = cleanIsbn isbn.
Proof.
  unfold formatISBN.
  pose proof (cleanIsbn_clean isbn) as Hclean.
  set (value := cleanIsbn isbn) in *.
  destruct (Z.eqb_spec (len value) 10) as [H10 | _].
  - unfold len in H10. assert (Hlen : length value = 10%nat) by lia.
    clear H10.
    do 10 (destruct value as [| ? value]; [discriminate |]).
    destruct value; [| discriminate].
    repeat (apply Forall_cons_1 in Hclean; destruct Hclean as [? Hclean]).
    unfold slice, sliceFrom. cbn [Nat.sub firstn skipn].
    rewrite !cleanIsbn_app.
    change (cleanIsbn (u16 "-")) with (@nil N).
    rewrite !cleanIsbn_id
      by (repeat (apply Forall_cons_2; [assumption |]); apply Forall_nil_2).
    reflexivity.
  - destruct (Z.eqb_spec (len value) 13) as [H13 | _]; [| reflexivity].
    unfold len in H13. assert (Hlen : length value = 13%nat) by lia.
    clear H13.
    do 13 (destruct value as [| ? value]; [discriminate |]).
    destruct value; [| discriminate].
    repeat (apply Forall_cons_1 in Hclean; destruct Hclean as [? Hclean]).
    unfold slice, sliceFrom. cbn [Nat.sub firstn skipn].
    rewrite !cleanIsbn_app.
    change (cleanIsbn (u16 "-")) with (@nil N).
    rewrite !cleanIsbn_id
      by (repeat (apply Forall_cons_2; [assumption |]); apply Forall_nil_2).
    reflexivity.
Qed.

(** X25. Formatting changes hyphens and white space only: the formatted ISBN
    cleans to the same characters, formatting it again changes nothing, and
    the validator gives it the verdict of the text it came from. *)
Theorem formatISBN_round_trip (isbn : jsstring) :
  cleanIsbn (formatISBN isbn) = cleanIsbn isbn /\
  formatISBN (formatISBN isbn) = formatISBN isbn /\
  isbnValidator (Some (formatISBN isbn)) = isbnValidator (Some isbn).
Proof.
  pose proof (formatISBN_clean isbn) as Hclean.
  split; [exact Hclean |]. split.
  - unfold formatISBN at 1. rewrite Hclean. unfold formatISBN.
    destruct (len (cleanIsbn isbn) =? 10); [reflexivity |].
    destruct (len (cleanIsbn isbn) =? 13); reflexivity.
  - unfold isbnValidator. rewrite Hclean. reflexivity.
Qed.

End IsbnFacts.

(** * The mock summary of the client *)

(** X26. The mock confidence is a multiple of 5 between 50 and 95: it starts at
    50, each fact about the request adds to it, and the cap of 95 cuts the
    one request that would reach 100. *)
Theorem calculateMockConfidence_range (request : SummaryRequest) :
  50 <= calculateMockConfidence request <= 95 /\
  calculateMockConfidence request mod 5 = 0.
Proof.
  unfold calculateMockConfidence. cbv zeta.
  repeat match goal with
         | |- context [if ?b then _ else _] => destruct b
         end; vm_compute; (split; [split; discriminate | reflexivity]).
Qed.

(** X27. The mock reasons are three to five sentences: one about the
    description, the one about Google Books, at most one about the page
    count and one about the categories, and the one about the analysis
    last; cutting the list to five entries never drops any of them. *)
Theorem generateMockReasoningFactors_shape (request : SummaryRequest) :
  exists first middle,
    generateMockReasoningFactors request =
      first :: u16 "Google Books API provides reliable metadata" ::
      middle ++ [u16 "SmartLibro AI analysis algorithms applied"] /\
    (length middle <= 2)%nat /\
    (3 <= length (generateMockReasoningFactors request) <= 5)%nat.
Proof.
  unfold generateMockReasoningFactors. cbv zeta.
  destruct (truthy (description request) && (200 <? len (description request)));
    [| destruct (truthy (description request) &&
                 (50 <? len (description request)))];
    (destruct (300 <? pageCount request);
     [| destruct (0 <? pageCount request)]);
    destruct (1 <? length (categories request))%nat;
    cbn [app firstn];
    match goal with
    | |- exists f m, [?a; _; _] = _ /\ _ => exists a, []
    | |- exists f m, [?a; _; ?x; _] = _ /\ _ => exists a, [x]
    | |- exists f m, [?a; _; ?x; ?y; _] = _ /\ _ => exists a, [x; y]
    end;
    (split; [cbn [app]; reflexivity | cbn [length]; lia]).
Qed.

(** * The list of recent summaries *)

Module RecentActivityFacts.

Import RecentActivity.

Lemma NoDup_map_filter {A B : Type} (f : A -> B) (p : A -> bool)
  (l : list A) :
  List.NoDup (map f l) -> List.NoDup (map f (List.filter p l)).
Proof.
  induction l as [| x l IH]; [intros H; exact H |].
  cbn [map List.filter]. intros H. inversion H as [| ? ? Hnotin Hrest]; subst.
  destruct (p x); [| exact (IH Hrest)].
  cbn [map]. constructor; [| exact (IH Hrest)].
  intros Hin. apply Hnotin. apply in_map_iff in Hin.
  destruct Hin as (y & Hy & Hin). apply List.filter_In in Hin.
  apply in_map_iff. exists y. tauto.
Qed.

Lemma In_firstn_to_In {A : Type} (n : nat) (l : list A) (x : A) :
  In x (firstn n l) -> In x l.
Proof.
  revert n. induction l as [| y l IH]; intros [| n]; cbn [firstn In];
    try tauto.
  intros [H | H]; [left; exact H | right; exact (IH n H)].
Qed.

Lemma NoDup_firstn {A : Type} (n : nat) (l : list A) :
  List.NoDup l -> List.NoDup (firstn n l).
Proof.
  revert n. induction l as [| x l IH]; intros [| n] H; cbn [firstn];
    try constructor.
  - inversion H as [| ? ? Hnotin Hrest]; subst. intros Hin.
    apply Hnotin. exact (In_firstn_to_In _ _ _ Hin).
  - inversion H; subst. apply IH. assumption.
Qed.

Lemma sublist_List_filter {A : Type} (p : A -> bool) (l : list A) :
  sublist (List.filter p l) l.
Proof.
  induction l as [| x l IH]; [constructor |].
  cbn [List.filter]. destruct (p x); constructor; exact IH.
Qed.

(** X28. After [addRecentSummary] the list has five entries at most, starts with
    the new entry, which is the one found for its ISBN, keeps the older
    entries of other books in their order, and names no ISBN twice when
    the list before did not. *)
Theorem addRecentSummary_invariants (summary : RecentSummary)
  (id : jsstring) (now : Z) (storage : Storage) :
  let before := getRecentSummaries storage in
  let after :=
    getRecentSummaries (addRecentSummary summary id now storage) in
  (length after <= 5)%nat /\
  hd_error after = Some (stamp summary id now) /\
  getSummaryByIsbn (rs_isbn summary)
    (addRecentSummary summary id now storage) = Some (stamp summary id now) /\
  sublist (tl after) before /\
  Forall (fun s => rs_isbn s <> rs_isbn summary) (tl after) /\
  (List.NoDup (map rs_isbn before) -> List.NoDup (map rs_isbn after)).
Proof.
  cbv zeta. unfold addRecentSummary, getSummaryByIsbn, saveToStorage,
    MAX_ITEMS.
  cbn [getRecentSummaries firstn hd_error tl length List.find stamp rs_isbn].
  set (before := getRecentSummaries storage).
  match goal with
  | |- context [List.filter ?p before] => set (others := List.filter p before)
  end.
  rewrite jsstring_eqb_refl.
  split; [rewrite length_take; lia |].
  split; [reflexivity |]. split; [reflexivity |].
  assert (Hothers : Forall (fun s => rs_isbn s <> rs_isbn summary) others).
  { apply List.Forall_forall. intros s Hin. apply List.filter_In in Hin.
    destruct Hin as [_ H]. apply negb_true_iff, jsstring_eqb_neq in H.
    exact H. }
  split.
  { transitivity others; [apply sublist_take | apply sublist_List_filter]. }
  split; [apply Forall_take; exact Hothers |].
  intros Hnodup. cbn [map]. constructor.
  - intros Hin. apply in_map_iff in Hin. destruct Hin as (s & Hs & Hin).
    apply In_firstn_to_In in Hin.
    exact (proj1 (List.Forall_forall _ _) Hothers s Hin Hs).
  - rewrite <- firstn_map. apply NoDup_firstn.
    apply NoDup_map_filter. exact Hnodup.
Qed.

End RecentActivityFacts.

(** * The client of the Cloud Function *)

Module CloudClientFacts.

Import CloudClient.

Lemma attemptOnce_spec (http : Http) (k : nat) (st : ClientState) :
  clock st = lastRequestTime st ->
  exists st',
    attemptOnce http k st = (tryOutcome http k, st', [Wait 500; Post k]) /\
    lastRequestTime st' <= clock st'.
Proof.
  intros Hfresh. unfold tryOutcome, attemptOnce, throttle.
  cbn [clock lastRequestTime]. rewrite Hfresh.
  replace (lastRequestTime st - lastRequestTime st) with 0 by lia.
  change (0 - 0) with 0. change (0 <? MIN_REQUEST_INTERVAL) with true.
  cbv iota. change (MIN_REQUEST_INTERVAL - 0) with 500.
  destruct (post http k) as [[r |] | error].
  - destruct (cf_data r) as [data |]; [destruct (cf_success r) |];
      eexists; (split; [reflexivity | cbn; lia]).
  - eexists; (split; [reflexivity | cbn; lia]).
  - eexists; split; [reflexivity |]. cbn. rewrite Hfresh. lia.
Qed.

Lemma throttle_spec (st : ClientState) :
  exists st' first,
    throttle st = (st', first) /\
    (first = [] \/ exists w, 0 < w /\ first = [Wait w]) /\
    (500 <= clock st - lastRequestTime st -> first = []) /\
    (lastRequestTime st <= clock st -> totalWait first <= 500).
Proof.
  unfold throttle, MIN_REQUEST_INTERVAL.
  destruct (Z.ltb_spec (clock st - lastRequestTime st) 500) as [Hlt | Hge].
  - do 2 eexists. split; [reflexivity |]. split; [| split].
    + right. eexists. split; [| reflexivity]. lia.
    + lia.
    + intros Hle. unfold totalWait. cbn. lia.
  - do 2 eexists. split; [reflexivity |]. split; [left; reflexivity |].
    split; [reflexivity |]. intros _. unfold totalWait. cbn. lia.
Qed.

(** One call of [generateBookSummaryWithRetry], by what its attempt
    yields. *)
Lemma retry_step (http : Http) (fuel k : nat) (st : ClientState) :
  exists first st3,
    (first = [] \/ exists w, 0 < w /\ first = [Wait w]) /\
    (500 <= clock st - lastRequestTime st -> first = []) /\
    (lastRequestTime st <= clock st -> totalWait first <= 500) /\
    lastRequestTime st3 <= clock st3 /\
    generateBookSummaryWithRetry http (S fuel) k st =
    match tryOutcome http k with
    | inl data => (Data data, st3, first ++ [Wait 500; Post k])
    | inr error =>
        if isRateLimit error && (k <? 2)%nat then
          let delay := 1000 * 2 ^ Z.of_nat k in
          let '(result, st5, later) :=
            generateBookSummaryWithRetry http fuel (S k) (sleep delay st3) in
          (result, st5, first ++ [Wait 500; Post k] ++ Wait delay :: later)
        else (Thrown (finalError error), st3, first ++ [Wait 500; Post k])
    end.
Proof.
  destruct (throttle_spec st) as (st1 & first & Hthrottle & Hshape & Hrested & Hsum).
  destruct (attemptOnce_spec http k (touch st1) eq_refl)
    as (st3 & Hattempt & Hle).
  exists first, st3. split; [exact Hshape |]. split; [exact Hrested |].
  split; [exact Hsum |]. split; [exact Hle |].
  cbn [generateBookSummaryWithRetry]. rewrite Hthrottle, Hattempt.
  destruct (tryOutcome http k) as [data | error]; [reflexivity |].
  cbn [Nat.sub]. destruct (isRateLimit error && (k <? 2)%nat); [| reflexivity].
  destruct (generateBookSummaryWithRetry http fuel (S k) _) as [[r s] l].
  reflexivity.
Qed.

Lemma sleep_rested (st : ClientState) (ms : Z) :
  lastRequestTime st <= clock st -> 500 <= ms ->
  500 <= clock (sleep ms st) - lastRequestTime (sleep ms st).
Proof. intros H Hms. cbn. lia. Qed.


(** The calls unrolled: the events of [generateBookSummary] by what the
    attempts yield. *)
Lemma generateBookSummary_unrolled (http : Http) (st : ClientState) :
  exists first,
    (first = [] \/ exists w, 0 < w /\ first = [Wait w]) /\
    (500 <= clock st - lastRequestTime st -> first = []) /\
    (lastRequestTime st <= clock st -> totalWait first <= 500) /\
    (fst (fst (generateBookSummary http st)), snd (generateBookSummary http st))
    =
    match tryOutcome http 0 with
    | inl data => (Data data, first ++ [Wait 500; Post 0])
    | inr e0 =>
        if isRateLimit e0 then
          match tryOutcome http 1 with
          | inl data =>
              (Data data,
               first ++ [Wait 500; Post 0; Wait 1000; Wait 500; Post 1])
          | inr e1 =>
              if isRateLimit e1 then
                match tryOutcome http 2 with
                | inl data =>
                    (Data data,
                     first ++ [Wait 500; Post 0; Wait 1000; Wait 500; Post 1;
                               Wait 2000; Wait 500; Post 2])
                | inr e2 =>
                    (Thrown (finalError e2),
                     first ++ [Wait 500; Post 0; Wait 1000; Wait 500; Post 1;
                               Wait 2000; Wait 500; Post 2])
                end
              else
                (Thrown (finalError e1),
                 first ++ [Wait 500; Post 0; Wait 1000; Wait 500; Post 1])
          end
        else (Thrown (finalError e0), first ++ [Wait 500; Post 0])
    end.
Proof.
  unfold generateBookSummary.
  destruct (retry_step http 2 0 st)
    as (first & st3 & Hshape & Hrested & Hsum & Hle & ->).
  exists first. split; [exact Hshape |]. split; [exact Hrested |].
  split; [exact Hsum |].
  destruct (tryOutcome http 0) as [data | e0]; [reflexivity |].
  destruct (isRateLimit e0); cbn [andb Nat.ltb Nat.leb]; [| reflexivity].
  cbv zeta.
  destruct (retry_step http 1 1 (sleep (1000 * 2 ^ Z.of_nat 0) st3))
    as (first1 & st3' & _ & Hrested1 & _ & Hle1 & ->).
  rewrite (Hrested1 (sleep_rested st3 (1000 * 2 ^ Z.of_nat 0) Hle
                       ltac:(vm_compute; discriminate))).
  destruct (tryOutcome http 1) as [data | e1]; [reflexivity |].
  destruct (isRateLimit e1); cbn [andb Nat.ltb Nat.leb]; [| reflexivity].
  cbv zeta.
  destruct (retry_step http 0 2 (sleep (1000 * 2 ^ Z.of_nat 1) st3'))
    as (first2 & st3'' & _ & Hrested2 & _ & _ & ->).
  rewrite (Hrested2 (sleep_rested st3' (1000 * 2 ^ Z.of_nat 1) Hle1
                       ltac:(vm_compute; discriminate))).
  destruct (tryOutcome http 2) as [data | e2]; [reflexivity |].
  rewrite andb_false_r. reflexivity.
Qed.

(** X29. The client posts once, twice or three times, numbering its attempts 0,
    1, 2; a further attempt is made only after a failure with a rate-limit
    signal, the data returned are those of the last attempt, the recursion
    never runs out, and all waits together take 5 s at most. *)
Theorem client_retry_policy (http : Http) (st : ClientState) :
  let result := fst (fst (generateBookSummary http st)) in
  let events := snd (generateBookSummary http st) in
  result <> OutOfFuel /\
  In (postsOf events) [[0%nat]; [0%nat; 1%nat]; [0%nat; 1%nat; 2%nat]] /\
  (forall k, In (S k) (postsOf events) ->
     exists error, tryOutcome http k = inr error /\
                   isRateLimit error = true) /\
  (forall data, result = Data data ->
     exists k, last (postsOf events) = Some k /\
               tryOutcome http k = inl data) /\
  (lastRequestTime st <= clock st -> totalWait events <= 5000).
Proof.
  cbv zeta.
  destruct (generateBookSummary_unrolled http st)
    as (first & Hshape & _ & Hsum & Heq).
  assert (Hposts : postsOf first = []).
  { destruct Hshape as [-> | (w & _ & ->)]; reflexivity. }
  assert (Hwaits : forall l, totalWait (first ++ l) =
                             totalWait first + totalWait l).
  { intros l. unfold totalWait, waitsOf.
    destruct Hshape as [-> | (w & _ & ->)]; cbn; lia. }
  revert Heq.
  destruct (tryOutcome http 0) as [d0 | e0] eqn:H0.
  { intros [= -> ->].
    unfold postsOf. rewrite omap_app. fold (postsOf first). rewrite Hposts.
    rewrite Hwaits. cbn.
    refine (conj _ (conj _ (conj _ (conj _ _)))).
    - discriminate.
    - tauto.
    - intros k [Hk | []]. discriminate.
    - intros data [= <-]. exists 0%nat. split; [reflexivity | exact H0].
    - intros Hle. specialize (Hsum Hle). unfold totalWait in *. cbn in *. lia. }
  destruct (isRateLimit e0) eqn:R0.
  2:{ intros [= -> ->].
    unfold postsOf. rewrite omap_app. fold (postsOf first). rewrite Hposts.
      rewrite Hwaits. cbn.
      refine (conj _ (conj _ (conj _ (conj _ _)))).
      - discriminate.
      - tauto.
      - intros k [Hk | []]. discriminate.
      - discriminate.
      - intros Hle. specialize (Hsum Hle). unfold totalWait in *. cbn in *. lia. }
  destruct (tryOutcome http 1) as [d1 | e1] eqn:H1.
  { intros [= -> ->].
    unfold postsOf. rewrite omap_app. fold (postsOf first). rewrite Hposts.
    rewrite Hwaits. cbn.
    refine (conj _ (conj _ (conj _ (conj _ _)))).
    - discriminate.
    - tauto.
    - intros k [Hk | [Hk | []]]; [discriminate |].
      injection Hk as <-. exists e0. auto.
    - intros data [= <-]. exists 1%nat. split; [reflexivity | exact H1].
    - intros Hle. specialize (Hsum Hle). unfold totalWait in *. cbn in *. lia. }
  destruct (isRateLimit e1) eqn:R1.
  2:{ intros [= -> ->].
    unfold postsOf. rewrite omap_app. fold (postsOf first). rewrite Hposts.
      rewrite Hwaits. cbn.
      refine (conj _ (conj _ (conj _ (conj _ _)))).
      - discriminate.
      - tauto.
      - intros k [Hk | [Hk | []]]; [discriminate |].
        injection Hk as <-. exists e0. auto.
      - discriminate.
      - intros Hle. specialize (Hsum Hle). unfold totalWait in *. cbn in *. lia. }
  assert (Hlater : forall k,
            In (S k) [0%nat; 1%nat; 2%nat] ->
            exists error, tryOutcome http k = inr error /\
                          isRateLimit error = true).
  { intros k [Hk | [Hk | [Hk | []]]]; [discriminate | |].
    - injection Hk as <-. exists e0. auto.
    - injection Hk as <-. exists e1. auto. }
  destruct (tryOutcome http 2) as [d2 | e2] eqn:H2.
  - intros [= -> ->].
    unfold postsOf. rewrite omap_app. fold (postsOf first). rewrite Hposts.
    rewrite Hwaits. cbn.
    refine (conj _ (conj _ (conj _ (conj _ _)))).
    + discriminate.
    + tauto.
    + exact Hlater.
    + intros data [= <-]. exists 2%nat. split; [reflexivity | exact H2].
    + intros Hle. specialize (Hsum Hle). unfold totalWait in *. cbn in *. lia.
  - intros [= -> ->].
    unfold postsOf. rewrite omap_app. fold (postsOf first). rewrite Hposts.
    rewrite Hwaits. cbn.
    refine (conj _ (conj _ (conj _ (conj _ _)))).
    + discriminate.
    + tauto.
    + exact Hlater.
    + discriminate.
    + intros Hle. specialize (Hsum Hle). unfold totalWait in *. cbn in *. lia.
Qed.

(** X30. When every attempt fails with a rate-limit signal and the last request
    is at least 500 ms old, the client posts three times, waits 500 ms
    before each post and 1 s and 2 s between the attempts, and throws the
    rate-limit message. *)
Theorem client_rate_limit_exhausted (http : Http) (st : ClientState) :
  alwaysRateLimited http ->
  500 <= clock st - lastRequestTime st ->
  fst (fst (generateBookSummary http st)) =
    Thrown (u16 "Rate limit exceeded. Please wait a few minutes before trying again.") /\
  snd (generateBookSummary http st) =
    [Wait 500; Post 0; Wait 1000; Wait 500; Post 1; Wait 2000; Wait 500;
     Post 2].
Proof.
  intros Hall Hrested.
  destruct (generateBookSummary_unrolled http st)
    as (first & _ & Hfirst & _ & Heq).
  rewrite (Hfirst Hrested) in Heq.
  destruct (Hall 0%nat ltac:(lia)) as (e0 & H0 & R0).
  destruct (Hall 1%nat ltac:(lia)) as (e1 & H1 & R1).
  destruct (Hall 2%nat ltac:(lia)) as (e2 & H2 & R2).
  rewrite H0, R0, H1, R1, H2 in Heq. injection Heq as -> ->.
  split; [| reflexivity]. unfold finalError. rewrite R2. reflexivity.
Qed.

Lemma client_rate_limit_exhausted_witness :
  snd (generateBookSummary busyNetwork
         {| clock := 1730000000000; lastRequestTime := 0 |}) =
  [Wait 500; Post 0; Wait 1000; Wait 500; Post 1; Wait 2000; Wait 500;
   Post 2].
Proof.
  refine (proj2 (client_rate_limit_exhausted busyNetwork
                   {| clock := 1730000000000; lastRequestTime := 0 |} _ _)).
  - intros k _. eexists. split; reflexivity.
  - vm_compute. discriminate.
Defined.

End CloudClientFacts.
